(** * Wookie Books REST API: users, authentication and the book catalogue

    A shallow embedding of the NestJS services and controllers
    ([users.service.ts], [users.controller.ts], [auth.service.ts],
    [auth.controller.ts], [jwt.middleware.ts], [books.service.ts],
    [books.controller.ts], [books.module.ts]) together with the two
    entities they persist.

    Conventions.
    - A JavaScript object typed [User] or [Book] is a record of optional
      fields: at run time any property may be missing ([req.user] is
      [{ id }], the author selected in [BooksService.create] is
      [{ id, username }], a request body is a [Partial<Book>]).  [None]
      is a property that is absent; a property set to [null] by a
      request body is not represented.
    - A request body reaches its handler as the object the client sent:
      the DTO classes are compile-time types, and the handlers hand the
      body on as it is, with whatever entity properties it carries.
    - The relational store holds rows with definite columns; the columns
      and their constraints follow the entity decorators.
    - An [async] method is a computation over the database that either
      returns a value or throws an exception ([Promise]).
    - Prices are exact rationals; the rounding of JavaScript doubles is
      outside the model.
    - bcrypt, the JWT verifier and [parseFloat] are collaborators taken as
      section variables. *)

From Stdlib Require Import List String Ascii Bool Arith PeanoNat QArith Lia.
Import ListNotations.
Local Close Scope Q_scope.
Local Open Scope string_scope.
Local Open Scope nat_scope.

Set Implicit Arguments.

(** ** Exceptions *)

(** The exception classes of [@nestjs/common] that the code throws;
    [QueryFailedError] for what the ORM throws when the database turns a
    statement down, [TypeORMError] for what it throws on a call it
    refuses to turn into a statement, and [TypeError] for what the
    runtime or a library throws on a missing value. *)
Inductive Exception : Type :=
| BadRequestException (message : string)
| UnauthorizedException (message : string)
| ForbiddenException (message : string)
| NotFoundException (message : string)
| InternalServerErrorException (message : string)
| QueryFailedError (message : string)
| TypeORMError (message : string)
| TypeError (message : string).

Definition instanceof_BadRequestException (e : Exception) : bool :=
  match e with BadRequestException _ => true | _ => false end.
Definition instanceof_UnauthorizedException (e : Exception) : bool :=
  match e with UnauthorizedException _ => true | _ => false end.
Definition instanceof_ForbiddenException (e : Exception) : bool :=
  match e with ForbiddenException _ => true | _ => false end.
Definition instanceof_NotFoundException (e : Exception) : bool :=
  match e with NotFoundException _ => true | _ => false end.

(** ** Entities *)

(** [user.entity.ts] as a JavaScript object.  The [books] relation is never
    read or written by the modelled code and is left out. *)
Module User.
Record t : Type := mk {
  id : option nat;
  username : option string;
  password : option string;
  authorPseudonym : option string }.
End User.

(** A row of the [user] table: generated primary key, unique [username],
    every column NOT NULL. *)
Module UserRow.
Record t : Type := mk {
  id : nat;
  username : string;
  password : string;
  authorPseudonym : string }.

Definition entity (r : t) : User.t :=
  User.mk (Some (id r)) (Some (username r)) (Some (password r))
          (Some (authorPseudonym r)).
End UserRow.

(** [book.entity.ts] as a JavaScript object; [author] is the joined
    relation, [None] when the property is missing or null. *)
Module Book.
Record t : Type := mk {
  id : option nat;
  title : option string;
  description : option string;
  coverImage : option string;
  price : option Q;
  isPublished : option bool;
  author : option User.t }.
End Book.

(** A row of the [book] table: generated primary key, NOT NULL columns
    [title], [description], [coverImage], [price], [isPublished]
    (default [true]) and the nullable foreign key of the many-to-one
    [author] relation. *)
Module BookRow.
Record t : Type := mk {
  id : nat;
  title : string;
  description : string;
  coverImage : string;
  price : Q;
  isPublished : bool;
  authorId : option nat }.
End BookRow.

(** ** The database and the [Promise] monad *)

Record Database : Type := mkDatabase {
  user_table : list UserRow.t;
  user_sequence : nat;
  book_table : list BookRow.t;
  book_sequence : nat }.

Inductive completion (A : Type) : Type :=
| Return (a : A)
| Throw (e : Exception).
Arguments Return {A} a.
Arguments Throw {A} e.

Definition Promise (A : Type) : Type := Database -> completion A * Database.

Definition resolve {A} (a : A) : Promise A := fun db => (Return a, db).
Definition reject {A} (e : Exception) : Promise A := fun db => (Throw e, db).

Definition await {A B} (p : Promise A) (k : A -> Promise B) : Promise B :=
  fun db =>
    match p db with
    | (Return a, db') => k a db'
    | (Throw e, db') => (Throw e, db')
    end.

(** [try { body } catch (error) { handler error }] *)
Definition try_catch {A} (body : Promise A) (handler : Exception -> Promise A)
  : Promise A :=
  fun db =>
    match body db with
    | (Return a, db') => (Return a, db')
    | (Throw e, db') => handler e db'
    end.

(** A method that ends in [return promise] without [await] hands the
    promise to its caller from inside [try]: the [catch] clause sees what
    is thrown while the promise is being built, not its rejection. *)
Definition try_returning {A} (body : Promise (Promise A))
           (handler : Exception -> Promise (Promise A)) : Promise A :=
  fun db =>
    match try_catch body handler db with
    | (Return returned, db') => returned db'
    | (Throw e, db') => (Throw e, db')
    end.

Declare Scope promise_scope.
Delimit Scope promise_scope with promise.
Notation "x <- p ;; k" := (await p (fun x => k))
  (at level 61, p at next level, right associativity) : promise_scope.
Notation "p ;;; k" := (await p (fun _ => k))
  (at level 61, right associativity) : promise_scope.
Local Open Scope promise_scope.

(** ** Helpers on optional properties *)

(** [a ?? b] restricted to absent properties: the right operand is used
    when the left property is missing. *)
Definition or_else {A} (a b : option A) : option A :=
  match a with Some _ => a | None => b end.

Definition get_or {A} (a : option A) (d : A) : A :=
  match a with Some x => x | None => d end.

(** Truthiness of an optional string property: missing and the empty
    string are falsy. *)
Definition truthy (s : option string) : bool :=
  match s with
  | None => false
  | Some s' => negb (String.eqb s' "")
  end.

(** [a === b] on a possibly missing number against a possibly missing
    number: two missing values are both [undefined]. *)
Definition strict_eq_id (a b : option nat) : bool :=
  match a, b with
  | Some x, Some y => Nat.eqb x y
  | None, None => true
  | _, _ => false
  end.

(** [a === 'literal'] on a possibly missing string. *)
Definition strict_eq_string (a : option string) (b : string) : bool :=
  match a with
  | Some x => String.eqb x b
  | None => false
  end.

(** ** Repositories

    What the code uses of a TypeORM [Repository]: lookups, [save] (insert
    or update by primary key), [update], [delete] and the query builder.
    A lookup whose key is a missing property has no condition left and
    yields the first row of the table; [update] and [delete] refuse a
    missing criterion.  The foreign key of [book.author] is enforced:
    no statement may leave a book row pointing at a user that does not
    exist.  The message of a [QueryFailedError] says in a few words what
    failed; the text of the driver is not modelled. *)

(** The key an AUTOINCREMENT column generates: one more than the largest
    key the table holds or has ever held. *)
Definition next_id (sequence : nat) (ids : list nat) : nat :=
  S (Nat.max sequence (list_max ids)).

Definition ORM_NOT_NULL : Exception :=
  QueryFailedError "NOT NULL constraint failed".
Definition ORM_UNIQUE : Exception :=
  QueryFailedError "UNIQUE constraint failed".
Definition ORM_NO_VALUES : Exception :=
  TypeORMError
    "Cannot perform update query because update values are not defined".

Definition ORM_FOREIGN_KEY : Exception :=
  QueryFailedError "FOREIGN KEY constraint failed".
Definition ORM_EMPTY_CRITERIA : Exception :=
  TypeORMError "Empty criteria(s) are not allowed for the delete method.".
Definition ORM_EMPTY_CRITERIA_UPDATE : Exception :=
  TypeORMError "Empty criteria(s) are not allowed for the update method.".
Definition ORM_NOT_A_NUMBER : Exception :=
  QueryFailedError "a parameter of the statement is not a number".

Module usersRepository.

Definition row_by_id (i : nat) (rows : list UserRow.t) : option UserRow.t :=
  find (fun r => Nat.eqb (UserRow.id r) i) rows.

Definition row_by_username (name : string) (rows : list UserRow.t)
  : option UserRow.t :=
  find (fun r => String.eqb (UserRow.username r) name) rows.

(** The row a [findOne] on [id] selects: an [undefined] key is dropped
    from the [where] clause, which then selects the first row. *)
Definition row_where_id (i : option nat) (rows : list UserRow.t)
  : option UserRow.t :=
  match i with
  | Some n => row_by_id n rows
  | None => hd_error rows
  end.

(** [findOne({ where: { id } })] *)
Definition findOne_id (i : option nat) : Promise (option User.t) :=
  fun db =>
    (Return (option_map UserRow.entity (row_where_id i (user_table db))), db).

(** [findOne({ where: { id }, select: ['id', 'username'] })] *)
Definition findOne_id_select_id_username (i : option nat)
  : Promise (option User.t) :=
  fun db =>
    (Return (option_map
               (fun r => User.mk (Some (UserRow.id r))
                                 (Some (UserRow.username r)) None None)
               (row_where_id i (user_table db))), db).

(** [findOne({ where: { username } })] *)
Definition findOne_username (name : string) : Promise (option User.t) :=
  fun db =>
    (Return (option_map UserRow.entity (row_by_username name (user_table db))),
     db).

(** The columns of [u] that are present overwrite those of [r]. *)
Definition patch (r : UserRow.t) (u : User.t) : UserRow.t :=
  UserRow.mk (get_or (User.id u) (UserRow.id r))
             (get_or (User.username u) (UserRow.username r))
             (get_or (User.password u) (UserRow.password r))
             (get_or (User.authorPseudonym u) (UserRow.authorPseudonym r)).

(** Primary key and [unique: true] on [username]. *)
Definition conflicts (r : UserRow.t) (others : list UserRow.t) : bool :=
  existsb (fun o => Nat.eqb (UserRow.id o) (UserRow.id r)
                    || String.eqb (UserRow.username o) (UserRow.username r))
          others.

Definition without (i : nat) (rows : list UserRow.t) : list UserRow.t :=
  filter (fun r => negb (Nat.eqb (UserRow.id r) i)) rows.

Definition replace (i : nat) (r' : UserRow.t) (rows : list UserRow.t)
  : list UserRow.t :=
  map (fun r => if Nat.eqb (UserRow.id r) i then r' else r) rows.

Definition set_table (rows : list UserRow.t) (seq : nat) (db : Database)
  : Database :=
  mkDatabase rows seq (book_table db) (book_sequence db).

(** Some book row has user [i] as its author. *)
Definition referenced (i : nat) (books : list BookRow.t) : bool :=
  existsb (fun b => match BookRow.authorId b with
                    | Some a => Nat.eqb a i
                    | None => false
                    end) books.

(** The row [r] with key [i] takes the columns of [u].  The statement
    fails on a key or username another row holds, and on a change of
    the key while a book row refers to it. *)
Definition write_existing (i : nat) (r : UserRow.t) (u : User.t)
  : Promise unit :=
  fun db =>
    let r' := patch r u in
    if conflicts r' (without i (user_table db))
    then (Throw ORM_UNIQUE, db)
    else if negb (Nat.eqb (UserRow.id r') i) && referenced i (book_table db)
    then (Throw ORM_FOREIGN_KEY, db)
    else (Return tt,
          set_table (replace i r' (user_table db))
                    (Nat.max (user_sequence db) (UserRow.id r')) db).

Definition insert (u : User.t) : Promise User.t :=
  fun db =>
    match User.username u, User.password u, User.authorPseudonym u with
    | Some name, Some pw, Some pseudonym =>
        let i := get_or (User.id u)
                   (next_id (user_sequence db)
                            (map UserRow.id (user_table db))) in
        let r := UserRow.mk i name pw pseudonym in
        if conflicts r (user_table db)
        then (Throw ORM_UNIQUE, db)
        else (Return (User.mk (Some i) (User.username u) (User.password u)
                              (User.authorPseudonym u)),
              set_table (user_table db ++ [r])
                        (Nat.max (user_sequence db) i) db)
    | _, _, _ => (Throw ORM_NOT_NULL, db)
    end.

(** [save(user)]: update the row with the entity's primary key when
    there is one, insert otherwise; the saved entity is returned. *)
Definition save (u : User.t) : Promise User.t :=
  fun db =>
    match User.id u with
    | Some i =>
        match row_by_id i (user_table db) with
        | Some r => (write_existing i r u ;;; resolve u) db
        | None => insert u db
        end
    | None => insert u db
    end.

Definition no_values (u : User.t) : bool :=
  match User.id u, User.username u, User.password u, User.authorPseudonym u with
  | None, None, None, None => true
  | _, _, _, _ => false
  end.

(** [update(id, updateData)]: [UPDATE user SET ... WHERE id = ?] with
    the columns present in [updateData]. *)
Definition update (i : nat) (updateData : User.t) : Promise unit :=
  fun db =>
    if no_values updateData then (Throw ORM_NO_VALUES, db)
    else match row_by_id i (user_table db) with
         | Some r => write_existing i r updateData db
         | None => (Return tt, db)
         end.

(** [delete(id)]: [DELETE FROM user WHERE id = ?], returning the number
    of rows affected.  The foreign key of [book.author] is declared
    without an [onDelete] rule, so the statement fails while a book row
    refers to the user. *)
Definition delete (i : nat) : Promise nat :=
  fun db =>
    match row_by_id i (user_table db) with
    | None => (Return 0, db)
    | Some _ =>
        if referenced i (book_table db) then (Throw ORM_FOREIGN_KEY, db)
        else (Return (List.length
                        (filter (fun r => Nat.eqb (UserRow.id r) i)
                                (user_table db))),
              set_table (without i (user_table db)) (user_sequence db) db)
    end.

End usersRepository.

(** SQLite's [LIKE]: [%] matches any run of characters, [_] any single
    character, and ASCII letters match without regard to case. *)
Definition to_lower (c : ascii) : ascii :=
  let n := nat_of_ascii c in
  if (65 <=? n) && (n <=? 90) then ascii_of_nat (n + 32) else c.

Fixpoint like (pattern text : string) {struct pattern} : bool :=
  match pattern with
  | EmptyString =>
      match text with EmptyString => true | String _ _ => false end
  | String c p =>
      if Ascii.eqb c "%" then
        (fix skip (t : string) : bool :=
           like p t
           || match t with
              | EmptyString => false
              | String _ t' => skip t'
              end) text
      else
        match text with
        | EmptyString => false
        | String d t =>
            (Ascii.eqb c "_" || Ascii.eqb (to_lower c) (to_lower d)) && like p t
        end
  end.

Module booksRepository.

Definition row_by_id (i : nat) (rows : list BookRow.t) : option BookRow.t :=
  find (fun r => Nat.eqb (BookRow.id r) i) rows.

(** A book row with the row of its author, as [LEFT JOIN] yields it: no
    author row when the foreign key is NULL or matches no user. *)
Definition joined : Type := (BookRow.t * option UserRow.t)%type.

Definition join_author (users : list UserRow.t) (r : BookRow.t) : joined :=
  (r, match BookRow.authorId r with
      | Some a => usersRepository.row_by_id a users
      | None => None
      end).

Definition entity (j : joined) : Book.t :=
  let r := fst j in
  Book.mk (Some (BookRow.id r)) (Some (BookRow.title r))
          (Some (BookRow.description r)) (Some (BookRow.coverImage r))
          (Some (BookRow.price r)) (Some (BookRow.isPublished r))
          (option_map UserRow.entity (snd j)).

Definition load (db : Database) (r : BookRow.t) : Book.t :=
  entity (join_author (user_table db) r).

(** [findOne({ where: { id }, relations: ['author'] })] *)
Definition findOne_id_relations_author (i : nat) : Promise (option Book.t) :=
  fun db => (Return (option_map (load db) (row_by_id i (book_table db))), db).

(** [find({ where: [{ title: search }, { description: search }],
    relations: ['author'] })] *)
Definition find_title_or_description (search : string)
  : Promise (list Book.t) :=
  fun db =>
    (Return (map (load db)
               (filter (fun r => String.eqb (BookRow.title r) search
                                 || String.eqb (BookRow.description r) search)
                       (book_table db))), db).

(** [find({ where: { isPublished: true }, relations: ['author'] })] *)
Definition find_isPublished_true : Promise (list Book.t) :=
  fun db =>
    (Return (map (load db) (filter BookRow.isPublished (book_table db))), db).

(** [create(entityLike)] builds the entity object and touches no row. *)
Definition create (entityLike : Book.t) : Book.t := entityLike.

(** The columns of [b] that are present overwrite those of [r]; a present
    [author] sets the foreign key to that author's id. *)
Definition patch (r : BookRow.t) (b : Book.t) : BookRow.t :=
  BookRow.mk (BookRow.id r)
             (get_or (Book.title b) (BookRow.title r))
             (get_or (Book.description b) (BookRow.description r))
             (get_or (Book.coverImage b) (BookRow.coverImage r))
             (get_or (Book.price b) (BookRow.price r))
             (get_or (Book.isPublished b) (BookRow.isPublished r))
             match Book.author b with
             | Some a => User.id a
             | None => BookRow.authorId r
             end.

Definition replace (i : nat) (r' : BookRow.t) (rows : list BookRow.t)
  : list BookRow.t :=
  map (fun r => if Nat.eqb (BookRow.id r) i then r' else r) rows.

Definition set_table (rows : list BookRow.t) (seq : nat) (db : Database)
  : Database :=
  mkDatabase (user_table db) (user_sequence db) rows seq.

(** The foreign key of [author]: the key an entity's [author] writes
    must be the id of a user row. *)
Definition author_exists (b : Book.t) (db : Database) : bool :=
  match Book.author b with
  | Some a =>
      match User.id a with
      | Some k =>
          match usersRepository.row_by_id k (user_table db) with
          | Some _ => true
          | None => false
          end
      | None => true
      end
  | None => true
  end.

Definition insert (b : Book.t) : Promise Book.t :=
  fun db =>
    match Book.title b, Book.description b, Book.coverImage b, Book.price b with
    | Some t, Some d, Some c, Some p =>
        let i := get_or (Book.id b)
                   (next_id (book_sequence db)
                            (map BookRow.id (book_table db))) in
        let published := get_or (Book.isPublished b) true in
        let r := BookRow.mk i t d c p published
                   match Book.author b with
                   | Some a => User.id a
                   | None => None
                   end in
        if negb (author_exists b db) then (Throw ORM_FOREIGN_KEY, db)
        else
          (Return (Book.mk (Some i) (Book.title b) (Book.description b)
                           (Book.coverImage b) (Book.price b) (Some published)
                           (Book.author b)),
           set_table (book_table db ++ [r]) (Nat.max (book_sequence db) i) db)
    | _, _, _, _ => (Throw ORM_NOT_NULL, db)
    end.

(** [save(book)]: update the row with the entity's primary key when there
    is one, insert otherwise; the saved entity is returned. *)
Definition save (b : Book.t) : Promise Book.t :=
  fun db =>
    match Book.id b with
    | Some i =>
        match row_by_id i (book_table db) with
        | Some r =>
            if negb (author_exists b db) then (Throw ORM_FOREIGN_KEY, db)
            else
              (Return b,
               set_table (replace i (patch r b) (book_table db))
                         (book_sequence db) db)
        | None => insert b db
        end
    | None => insert b db
    end.

End booksRepository.

(** The clauses [BooksService.findAllWithFilters] hands to [andWhere],
    with their bound parameters.  A bound that is not a number ([NaN],
    [None] here) makes the statement fail when it is run. *)
Module QueryBuilder.

Inductive Clause : Type :=
| book_title_LIKE (title : string)
| author_id_IS_NOT_NULL
| author_authorPseudonym_LIKE (authorPseudonym : string)
| book_isPublished_EQ (isPublished : bool)
| book_price_BETWEEN (minPrice maxPrice : option Q).

(** Whether a joined row satisfies the clause.  A [BETWEEN] with a bound
    that is not a number is never evaluated on a row: [getMany] fails
    on it. *)
Definition holds (c : Clause) (j : booksRepository.joined) : bool :=
  let (book, author) := j in
  match c with
  | book_title_LIKE pattern => like pattern (BookRow.title book)
  | author_id_IS_NOT_NULL =>
      match author with Some _ => true | None => false end
  | author_authorPseudonym_LIKE pattern =>
      match author with
      | Some a => like pattern (UserRow.authorPseudonym a)
      | None => false
      end
  | book_isPublished_EQ b => Bool.eqb (BookRow.isPublished book) b
  | book_price_BETWEEN (Some lo) (Some hi) =>
      Qle_bool lo (BookRow.price book) && Qle_bool (BookRow.price book) hi
  | book_price_BETWEEN _ _ => false
  end.

(** [createQueryBuilder('book').leftJoinAndSelect('book.author', 'author')]
    followed by the clauses added so far, in order. *)
Definition t : Type := list Clause.

Definition createQueryBuilder_leftJoinAndSelect_author : t := [].

Definition andWhere (c : Clause) (qb : t) : t := (qb ++ [c])%list.

Definition selects (qb : t) (j : booksRepository.joined) : bool :=
  forallb (fun c => holds c j) qb.

(** The clause binds a parameter that is not a number. *)
Definition binds_NaN (c : Clause) : bool :=
  match c with
  | book_price_BETWEEN (Some _) (Some _) => false
  | book_price_BETWEEN _ _ => true
  | _ => false
  end.

Definition getMany (qb : t) : Promise (list Book.t) :=
  fun db =>
    if existsb binds_NaN qb then (Throw ORM_NOT_A_NUMBER, db)
    else
      (Return (map booksRepository.entity
                 (filter (selects qb)
                    (map (booksRepository.join_author (user_table db))
                         (book_table db)))), db).

End QueryBuilder.

(** ** [users.service.ts] *)

Module UsersService.

Section Bcrypt.

(** [bcrypt.hash(data, saltRounds)]; the third argument is the salt the
    library draws for the call. *)
Variable bcrypt_hash : string -> nat -> string -> string.

Definition create (salt : string) (user : User.t) : Promise User.t :=
  try_catch
    (if negb (truthy (User.username user)) || negb (truthy (User.password user))
     then reject (BadRequestException "Username and password are required")
     else
       let hashed := bcrypt_hash (get_or (User.password user) "") 10 salt in
       let user := User.mk (User.id user) (User.username user) (Some hashed)
                           (User.authorPseudonym user) in
       saved <- usersRepository.save user ;;
       resolve saved)
    (fun error =>
       if instanceof_BadRequestException error then reject error
       else reject (InternalServerErrorException
                      "An error occurred while creating the user")).

End Bcrypt.

Definition findByUsername (username : string) : Promise (option User.t) :=
  try_catch
    (user <- usersRepository.findOne_username username ;; resolve user)
    (fun _ => reject (InternalServerErrorException
                        "An error occurred while fetching the user by username")).

Definition findById (id : option nat) : Promise User.t :=
  try_catch
    (user <- usersRepository.findOne_id id ;;
     match user with
     | None => reject (NotFoundException "User not found")
     | Some user => resolve user
     end)
    (fun error =>
       if instanceof_NotFoundException error then reject error
       else reject (InternalServerErrorException
                      "An error occurred while fetching the user by ID")).

(** [findById] throws when the user is missing, so the [!existingUser]
    test that follows it in the source is never taken. *)
Definition update (id : option nat) (updateData : User.t) : Promise User.t :=
  try_catch
    (existingUser <- findById id ;;
     match id with
     | Some i => usersRepository.update i updateData
     | None => reject ORM_EMPTY_CRITERIA_UPDATE
     end ;;;
     user <- findById id ;;
     resolve user)
    (fun error =>
       if instanceof_NotFoundException error then reject error
       else reject (InternalServerErrorException
                      "An error occurred while updating the user")).

(** [delete(id)]; the value returned is the [message] of the object. *)
Definition delete (id : option nat) : Promise string :=
  try_catch
    (affected <- match id with
                 | Some i => usersRepository.delete i
                 | None => reject ORM_EMPTY_CRITERIA
                 end ;;
     if Nat.eqb affected 0
     then reject (NotFoundException "User not found")
     else resolve "User successfully deleted")
    (fun error =>
       if instanceof_NotFoundException error then reject error
       else reject (InternalServerErrorException
                      "An error occurred while deleting the user")).

End UsersService.

(** ** [auth.service.ts] and [jwt.middleware.ts] *)

(** The claims of a token: [{ username, sub }]. *)
Record JwtPayload : Type := mkJwtPayload {
  payload_username : option string;
  sub : option nat }.

Module AuthService.

Section Collaborators.

(** [bcrypt.compare(data, encrypted)] *)
Variable bcrypt_compare : string -> string -> bool.
(** [jwtService.sign(payload)] *)
Variable jwt_sign : JwtPayload -> string.

(** [const { password, ...result } = user] *)
Definition without_password (user : User.t) : User.t :=
  User.mk (User.id user) (User.username user) None (User.authorPseudonym user).

Definition validateUser (username pass : string) : Promise User.t :=
  try_catch
    (user <- UsersService.findByUsername username ;;
     match user with
     | None => reject (UnauthorizedException "Invalid username or password")
     | Some user =>
         match User.password user with
         | None => reject (TypeError "data and hash arguments required")
         | Some encrypted =>
             if negb (bcrypt_compare pass encrypted)
             then reject (UnauthorizedException "Invalid username or password")
             else resolve (without_password user)
         end
     end)
    (fun error =>
       if instanceof_UnauthorizedException error then reject error
       else reject (InternalServerErrorException
                      "An error occurred while validating the user")).

Definition login (user : User.t) : Promise string :=
  try_catch
    (let payload := mkJwtPayload (User.username user) (User.id user) in
     resolve (jwt_sign payload))
    (fun _ => reject (InternalServerErrorException
                        "An error occurred while generating the access token")).

End Collaborators.

End AuthService.

(** ** [auth.controller.ts] *)

Record LoginDto : Type := mkLoginDto {
  login_username : string;
  login_password : string }.

Module AuthController.

Section Collaborators.

Variable bcrypt_compare : string -> string -> bool.
Variable jwt_sign : JwtPayload -> string.

(** [validateUser] returns a user object or throws, so the [!user] test
    of the source is never taken. *)
Definition login (body : LoginDto) : Promise string :=
  try_returning
    (user <- AuthService.validateUser bcrypt_compare
               (login_username body) (login_password body) ;;
     resolve (AuthService.login jwt_sign user))
    (fun error =>
       if instanceof_UnauthorizedException error
          || instanceof_BadRequestException error
       then reject error
       else reject (InternalServerErrorException
                      "An unexpected error occurred")).

End Collaborators.

End AuthController.

(** What a handler sees of the request: the [Authorization] header and
    the [user] the middleware attaches. *)
Record Request : Type := mkRequest {
  authorization : option string;
  user : option User.t }.

Module JwtMiddleware.

Section Jwt.

(** [jwt.verify(token, secret)]: the decoded claims, [None] when it
    throws. *)
Variable jwt_verify : string -> option JwtPayload.

(** The text of [s] up to its first space: [s.split(' ')[0]]. *)
Fixpoint until_space (s : string) : string :=
  match s with
  | EmptyString => EmptyString
  | String c s' => if Ascii.eqb c " " then EmptyString else String c (until_space s')
  end.

(** [authHeader.split(' ')[1]] for a header that starts with ["Bearer "]. *)
Definition token_of (authHeader : string) : string :=
  until_space (substring 7 (String.length authHeader - 7) authHeader).

(** [use(req, res, next)]: the request as [next()] receives it, or the
    exception thrown. *)
Definition use (req : Request) : completion Request :=
  match authorization req with
  | None => Throw (UnauthorizedException "Authorization token is missing or invalid")
  | Some authHeader =>
      if negb (truthy (Some authHeader)) || negb (prefix "Bearer " authHeader)
      then Throw (UnauthorizedException "Authorization token is missing or invalid")
      else
        match jwt_verify (token_of authHeader) with
        | Some decoded =>
            Return (mkRequest (authorization req)
                              (Some (User.mk (sub decoded) None None None)))
        | None => Throw (UnauthorizedException "Invalid or expired token")
        end
  end.

End Jwt.

End JwtMiddleware.

(** ** [books.service.ts] *)

(** The query string of [GET /books] as the framework hands it over:
    each parameter is a string or missing. *)
Record Query : Type := mkQuery {
  q_title : option string;
  q_authorPseudonym : option string;
  q_isPublished : option string;
  q_minPrice : option string;
  q_maxPrice : option string }.

Module BooksService.

(** [{ ...bookData, author: author }] *)
Definition spread_with_author (bookData : Book.t) (author : User.t) : Book.t :=
  Book.mk (Book.id bookData) (Book.title bookData) (Book.description bookData)
          (Book.coverImage bookData) (Book.price bookData)
          (Book.isPublished bookData) (Some author).

(** [Object.assign(book, bookData)]: every property present in
    [bookData] replaces that of [book]. *)
Definition Object_assign (book bookData : Book.t) : Book.t :=
  Book.mk (or_else (Book.id bookData) (Book.id book))
          (or_else (Book.title bookData) (Book.title book))
          (or_else (Book.description bookData) (Book.description book))
          (or_else (Book.coverImage bookData) (Book.coverImage book))
          (or_else (Book.price bookData) (Book.price book))
          (or_else (Book.isPublished bookData) (Book.isPublished book))
          (or_else (Book.author bookData) (Book.author book)).

(** [book.isPublished = false] *)
Definition set_isPublished_false (book : Book.t) : Book.t :=
  Book.mk (Book.id book) (Book.title book) (Book.description book)
          (Book.coverImage book) (Book.price book) (Some false)
          (Book.author book).

(** [!book?.author || book?.author?.id !== user.id] *)
Definition not_owner (book : Book.t) (user : User.t) : bool :=
  match Book.author book with
  | None => true
  | Some author => negb (strict_eq_id (User.id author) (User.id user))
  end.

Definition findAll (search : option string) : Promise (list Book.t) :=
  try_returning
    (if truthy search
     then resolve (booksRepository.find_title_or_description (get_or search ""))
     else resolve booksRepository.find_isPublished_true)
    (fun _ => reject (InternalServerErrorException
                        "An error occurred while fetching books")).

Section ParseFloat.

(** [parseFloat]; [None] is [NaN]. *)
Variable parseFloat : string -> option Q.

Definition findAllWithFilters (query : Query) : Promise (list Book.t) :=
  try_returning
    (let queryBuilder := QueryBuilder.createQueryBuilder_leftJoinAndSelect_author in
     let queryBuilder :=
       if truthy (q_title query)
       then QueryBuilder.andWhere
              (QueryBuilder.book_title_LIKE
                 ("%" ++ get_or (q_title query) "" ++ "%")) queryBuilder
       else queryBuilder in
     let queryBuilder :=
       if truthy (q_authorPseudonym query)
       then QueryBuilder.andWhere
              (QueryBuilder.author_authorPseudonym_LIKE
                 ("%" ++ get_or (q_authorPseudonym query) "" ++ "%"))
              (QueryBuilder.andWhere QueryBuilder.author_id_IS_NOT_NULL
                                     queryBuilder)
       else queryBuilder in
     let queryBuilder :=
       match q_isPublished query with
       | Some isPublished =>
           QueryBuilder.andWhere
             (QueryBuilder.book_isPublished_EQ (String.eqb isPublished "true"))
             queryBuilder
       | None => queryBuilder
       end in
     let queryBuilder :=
       if truthy (q_minPrice query) && truthy (q_maxPrice query)
       then QueryBuilder.andWhere
              (QueryBuilder.book_price_BETWEEN
                 (parseFloat (get_or (q_minPrice query) ""))
                 (parseFloat (get_or (q_maxPrice query) ""))) queryBuilder
       else queryBuilder in
     resolve (QueryBuilder.getMany queryBuilder))
    (fun _ => reject (InternalServerErrorException
                        "An error occurred while applying filters to books")).

End ParseFloat.

(** [!id] on a number: zero is the falsy id. *)
Definition falsy_id (id : nat) : bool := Nat.eqb id 0.

Definition findOne (id : nat) : Promise Book.t :=
  try_catch
    (if falsy_id id then reject (BadRequestException "Invalid book ID")
     else
       book <- booksRepository.findOne_id_relations_author id ;;
       match book with
       | None => reject (NotFoundException "Book not found")
       | Some book => resolve book
       end)
    (fun error =>
       if instanceof_BadRequestException error
          || instanceof_NotFoundException error
       then reject error
       else reject (InternalServerErrorException
                      "An error occurred while fetching the book")).

Definition create (user : User.t) (bookData : Book.t) : Promise Book.t :=
  try_returning
    (author <- usersRepository.findOne_id_select_id_username (User.id user) ;;
     match author with
     | None => reject (NotFoundException "Author not found")
     | Some author =>
         if strict_eq_string (User.username author) "Darth Vader"
         then reject (ForbiddenException
                        "Darth Vader is not allowed to publish Wookie books.")
         else
           let book := booksRepository.create
                         (spread_with_author bookData author) in
           resolve (booksRepository.save book)
     end)
    (fun error =>
       if instanceof_NotFoundException error
          || instanceof_ForbiddenException error
       then reject error
       else reject (InternalServerErrorException
                      "An error occurred while creating the book")).

Definition update (user : User.t) (id : nat) (bookData : Book.t)
  : Promise Book.t :=
  try_returning
    (book <- booksRepository.findOne_id_relations_author id ;;
     match book with
     | None => reject (NotFoundException "Book not found")
     | Some book =>
         if not_owner book user
         then reject (UnauthorizedException
                        "You are not authorized to update this book")
         else
           let book := Object_assign book bookData in
           resolve (booksRepository.save book)
     end)
    (fun error =>
       if instanceof_NotFoundException error
          || instanceof_UnauthorizedException error
       then reject error
       else reject (InternalServerErrorException
                      "An error occurred while updating the book")).

Definition remove (user : User.t) (id : nat) : Promise Book.t :=
  try_returning
    (book <- booksRepository.findOne_id_relations_author id ;;
     match book with
     | None => reject (NotFoundException "Book not found")
     | Some book =>
         if not_owner book user
         then reject (UnauthorizedException
                        "You are not authorized to unpublish this book")
         else
           let book := set_isPublished_false book in
           resolve (booksRepository.save book)
     end)
    (fun error =>
       if instanceof_NotFoundException error
          || instanceof_UnauthorizedException error
       then reject error
       else reject (InternalServerErrorException
                      "An error occurred while unpublishing the book")).

End BooksService.

(** ** [books.controller.ts] *)

(** The request bodies.  [CreateBookDto] and [UpdateBookDto] declare
    [title], [description], [price] and [coverImage]; the handlers pass
    the body object itself to the service, so the value is a
    [Partial<Book>] with every property the client sent. *)
Definition CreateBookDto : Type := Book.t.
Definition UpdateBookDto : Type := Book.t.

Module BooksController.

(** [instanceToPlain(book)] for a book whose author is a [User] instance,
    as the repository loads it: [password] carries [@Exclude()]. *)
Definition instanceToPlain (book : Book.t) : Book.t :=
  Book.mk (Book.id book) (Book.title book) (Book.description book)
          (Book.coverImage book) (Book.price book) (Book.isPublished book)
          (option_map AuthService.without_password (Book.author book)).

(** [instanceToPlain(updatedBook)].  The author of the updated book is
    the [User] instance the repository loaded unless the body carried an
    [author]: [Object.assign] then put the body's plain object in its
    place, and a plain object has no excluded property. *)
Definition instanceToPlain_updated (updateBookDto : UpdateBookDto)
           (updatedBook : Book.t) : Book.t :=
  match Book.author updateBookDto with
  | Some _ => updatedBook
  | None => instanceToPlain updatedBook
  end.

Section ParseFloat.

Variable parseFloat : string -> option Q.

Definition findAll (query : Query) : Promise (list Book.t) :=
  try_catch
    (books <- BooksService.findAllWithFilters parseFloat query ;;
     resolve (map instanceToPlain books))
    (fun _ => reject (InternalServerErrorException
                        "An error occurred while fetching books")).

End ParseFloat.

Definition findOne (id : nat) : Promise Book.t :=
  try_catch
    (if BooksService.falsy_id id
     then reject (BadRequestException "Invalid book ID")
     else
       book <- BooksService.findOne id ;;
       resolve (instanceToPlain book))
    (fun error =>
       if instanceof_BadRequestException error
          || instanceof_NotFoundException error
       then reject error
       else reject (InternalServerErrorException
                      "An error occurred while fetching the book")).

Definition create (req : Request) (createBookDto : CreateBookDto)
  : Promise Book.t :=
  try_catch
    (match user req with
     | None => reject (BadRequestException "Invalid user")
     | Some user =>
         book <- BooksService.create user createBookDto ;;
         resolve (instanceToPlain book)
     end)
    (fun _ => reject (InternalServerErrorException
                        "An error occurred while creating the book")).

(** The service returns a book object or throws, so the [!updatedBook]
    test of the source is never taken; likewise [!book] in [remove]. *)
Definition update (req : Request) (id : nat) (updateBookDto : UpdateBookDto)
  : Promise Book.t :=
  try_catch
    (if BooksService.falsy_id id
     then reject (BadRequestException "Invalid book ID")
     else
       match user req with
       | None => reject (BadRequestException "Invalid user")
       | Some user =>
           updatedBook <- BooksService.update user id updateBookDto ;;
           resolve (instanceToPlain_updated updateBookDto updatedBook)
       end)
    (fun error =>
       if instanceof_BadRequestException error
          || instanceof_NotFoundException error
       then reject error
       else reject (InternalServerErrorException
                      "An error occurred while updating the book")).

Definition remove (req : Request) (id : nat) : Promise Book.t :=
  try_catch
    (if BooksService.falsy_id id
     then reject (BadRequestException "Invalid book ID")
     else
       match user req with
       | None => reject (BadRequestException "Invalid user")
       | Some user =>
           book <- BooksService.remove user id ;;
           resolve (instanceToPlain book)
       end)
    (fun error =>
       if instanceof_BadRequestException error
          || instanceof_NotFoundException error
       then reject error
       else reject (InternalServerErrorException
                      "An error occurred while removing the book")).

End BooksController.

(** ** [users.controller.ts] *)

Record CreateUserDto : Type := mkCreateUserDto {
  create_username : option string;
  create_password : option string }.

(** [UpdateUserDto] declares [username], [password] and
    [authorPseudonym]; [updateProfile] passes the body object itself to
    the service, which takes it as a [Partial<User>]. *)
Definition UpdateUserDto : Type := User.t.

Module UsersController.

Section Bcrypt.

Variable bcrypt_hash : string -> nat -> string -> string.

Definition createUser (salt : string) (createUserDto : CreateUserDto)
  : Promise User.t :=
  try_catch
    (created <- UsersService.create bcrypt_hash salt
                  (User.mk None (create_username createUserDto)
                           (create_password createUserDto)
                           (create_username createUserDto)) ;;
     resolve created)
    (fun _ => reject (InternalServerErrorException
                        "An error occurred while creating the user")).

End Bcrypt.

(** [req.user.id]; reading [id] of a missing [user] throws.
    [findById] returns a user or throws, so the [!user] test of
    [getProfile] is never taken. *)
Definition req_user_id (req : Request) : Promise (option nat) :=
  match user req with
  | Some u => resolve (User.id u)
  | None => reject (TypeError "Cannot read properties of undefined")
  end.

Definition getProfile (req : Request) : Promise User.t :=
  try_catch
    (id <- req_user_id req ;;
     user <- UsersService.findById id ;;
     resolve user)
    (fun error =>
       if instanceof_UnauthorizedException error then reject error
       else reject (InternalServerErrorException
                      "An error occurred while fetching the user profile")).

Definition updateProfile (req : Request) (updateData : UpdateUserDto)
  : Promise User.t :=
  try_catch
    (id <- req_user_id req ;;
     user <- UsersService.update id updateData ;;
     resolve user)
    (fun error =>
       if instanceof_BadRequestException error then reject error
       else reject (InternalServerErrorException
                      "An error occurred while updating the user profile")).

(** [deleteProfile(req)]; the value returned is the [message] of the
    object. *)
Definition deleteProfile (req : Request) : Promise string :=
  try_catch
    (id <- req_user_id req ;;
     UsersService.delete id ;;;
     resolve "User profile deleted successfully")
    (fun _ => reject (InternalServerErrorException
                        "An error occurred while deleting the user profile")).

End UsersController.

(** ** Routes *)

(** [books.module.ts]: [JwtMiddleware] runs in front of every route of
    the books controller except the two [GET] routes. *)
Module BooksModule.

Inductive Route : Type :=
| GET_books
| GET_books_id
| POST_books
| PATCH_books_id
| DELETE_books_id.

Definition excluded (route : Route) : bool :=
  match route with
  | GET_books | GET_books_id => true
  | _ => false
  end.

Section Jwt.

Variable jwt_verify : string -> option JwtPayload.

Definition configure (route : Route) (req : Request) : completion Request :=
  if excluded route then Return req else JwtMiddleware.use jwt_verify req.

Definition through {A} (route : Route) (req : Request)
           (handler : Request -> Promise A) : Promise A :=
  match configure route req with
  | Return req' => handler req'
  | Throw e => reject e
  end.

Definition post_books (req : Request) (dto : CreateBookDto) : Promise Book.t :=
  through POST_books req (fun req' => BooksController.create req' dto).

Definition patch_books_id (req : Request) (id : nat) (dto : UpdateBookDto)
  : Promise Book.t :=
  through PATCH_books_id req (fun req' => BooksController.update req' id dto).

Definition delete_books_id (req : Request) (id : nat) : Promise Book.t :=
  through DELETE_books_id req (fun req' => BooksController.remove req' id).

Section ParseFloat.

Variable parseFloat : string -> option Q.

Definition get_books (req : Request) (query : Query) : Promise (list Book.t) :=
  through GET_books req (fun _ => BooksController.findAll parseFloat query).

End ParseFloat.

Definition get_books_id (req : Request) (id : nat) : Promise Book.t :=
  through GET_books_id req (fun _ => BooksController.findOne id).

End Jwt.

End BooksModule.

Module UsersModule.

Inductive Route : Type :=
| POST_users
| GET_users_me
| PATCH_users_me
| DELETE_users_me.

(** Modelled from the spec: which routes of the users controller sit
    behind the request authenticator.  The controller is decorated with
    [@UseGuards(JwtStrategy)], and [users.module.ts] and
    [auth/jwt.strategy.ts], which decide what that guard and the
    middleware ask of a request, are not among the sources; the table of
    the HTTP surface gives [POST /users] the entry "none" and the three
    [/users/me] routes the entry "bearer". *)
Definition bearer (route : Route) : bool :=
  match route with
  | POST_users => false
  | GET_users_me | PATCH_users_me | DELETE_users_me => true
  end.

Section Collaborators.

Variable jwt_verify : string -> option JwtPayload.
Variable bcrypt_hash : string -> nat -> string -> string.

Definition through {A} (route : Route) (req : Request)
           (handler : Request -> Promise A) : Promise A :=
  if bearer route then
    match JwtMiddleware.use jwt_verify req with
    | Return req' => handler req'
    | Throw e => reject e
    end
  else handler req.

Definition post_users (salt : string) (req : Request) (dto : CreateUserDto)
  : Promise User.t :=
  through POST_users req
          (fun _ => UsersController.createUser bcrypt_hash salt dto).

Definition get_users_me (req : Request) : Promise User.t :=
  through GET_users_me req UsersController.getProfile.

Definition patch_users_me (req : Request) (dto : UpdateUserDto)
  : Promise User.t :=
  through PATCH_users_me req
          (fun req' => UsersController.updateProfile req' dto).

End Collaborators.

End UsersModule.

(** ** A sample installation

    Concrete collaborators and a small database on which the scenarios
    are run. *)
Module Sample.

(** Stand-ins for bcrypt with the library's contract: the digest depends
    on the salt, and [compare] accepts exactly the digests of the data. *)
Definition bcrypt_hash (data : string) (saltRounds : nat) (salt : string)
  : string :=
  "$2b$" ++ salt ++ "$" ++ data.

Definition bcrypt_compare (data encrypted : string) : bool :=
  prefix "$2b$" encrypted
  && String.eqb (substring (String.length encrypted - String.length data)
                           (String.length data) encrypted) data
  && Nat.ltb (String.length data + 4) (String.length encrypted).

(** A verifier that accepts the tokens ["token-1"], ["token-2"] and
    ["token-3"] of the three sample users. *)
Definition jwt_verify (token : string) : option JwtPayload :=
  if String.eqb token "token-1" then Some (mkJwtPayload (Some "luke") (Some 1))
  else if String.eqb token "token-2"
       then Some (mkJwtPayload (Some "Darth Vader") (Some 2))
  else if String.eqb token "token-3" then Some (mkJwtPayload (Some "leia") (Some 3))
  else None.

(** A signer whose tokens the verifier above accepts. *)
Definition jwt_sign (payload : JwtPayload) : string :=
  match sub payload with
  | Some 1 => "token-1"
  | Some 2 => "token-2"
  | Some 3 => "token-3"
  | _ => "token-0"
  end.

(** [parseFloat] on unsigned decimal numerals without fraction: the value
    of the leading digits, [NaN] when there is none. *)
Definition digit (c : ascii) : option nat :=
  let n := nat_of_ascii c in
  if (48 <=? n) && (n <=? 57) then Some (n - 48) else None.

Fixpoint leading_digits (s : string) (acc : option nat) : option nat :=
  match s with
  | EmptyString => acc
  | String c s' =>
      match digit c with
      | Some d => leading_digits s' (Some (10 * get_or acc 0 + d))
      | None => acc
      end
  end.

Definition parseFloat (s : string) : option Q :=
  option_map (fun n => inject_Z (Z.of_nat n)) (leading_digits s None).

Definition luke : UserRow.t := UserRow.mk 1 "luke" "$2b$s1$usetheforce" "luke".
Definition vader : UserRow.t :=
  UserRow.mk 2 "Darth Vader" "$2b$s2$iamyourfather" "Darth Vader".
Definition leia : UserRow.t := UserRow.mk 3 "leia" "$2b$s3$alderaan" "Leia O.".

Definition book (id : nat) (title : string) (price : Z) (isPublished : bool)
           (authorId : option nat) : BookRow.t :=
  BookRow.mk id title "An epic tale from Kashyyyk" "url_to_image"
             (inject_Z price) isPublished authorId.

Definition db : Database :=
  mkDatabase [luke; vader; leia] 3
             [book 1 "Wookie Adventures 1" 5 true (Some 1);
              book 2 "Wookie Adventures 2" 15 false (Some 1);
              book 3 "Alderaan Nights" 25 true (Some 3);
              book 4 "Orphaned Tales" 35 true None]
             4.

(** A store of one published and one unpublished book. *)
Definition two_books : Database :=
  mkDatabase [luke] 1
             [book 1 "Wookie Adventures 1" 20 true (Some 1);
              book 2 "Wookie Adventures 2" 20 false (Some 1)]
             2.

(** The request of a caller holding the token of user [id]. *)
Definition acting (id : nat) : Request :=
  mkRequest None (Some (User.mk (Some id) None None None)).

End Sample.

(** ** Observations on the database *)

(** The author reference the store holds for book [id]. *)
Definition stored_author (db : Database) (id : nat) : option (option nat) :=
  option_map BookRow.authorId (booksRepository.row_by_id id (book_table db)).

(** The publication flag the store holds for book [id]. *)
Definition stored_isPublished (db : Database) (id : nat) : option bool :=
  option_map BookRow.isPublished (booksRepository.row_by_id id (book_table db)).

(** The password column the store holds for user [id]. *)
Definition stored_password (db : Database) (id : nat) : option string :=
  option_map UserRow.password (usersRepository.row_by_id id (user_table db)).

(** The book [id] as a lookup with its author loads it. *)
Definition book_of (db : Database) (id : nat) : option Book.t :=
  option_map (booksRepository.load db)
             (booksRepository.row_by_id id (book_table db)).

(** The query without parameters. *)
Definition no_filters : Query := mkQuery None None None None None.

(** The query with its two price parameters taken away. *)
Definition without_price (query : Query) : Query :=
  mkQuery (q_title query) (q_authorPseudonym query) (q_isPublished query)
          None None.

(** The price of [book] lies in the closed range from [lo] to [hi]. *)
Definition price_within (lo hi : Q) (book : Book.t) : bool :=
  match Book.price book with
  | Some p => Qle_bool lo p && Qle_bool p hi
  | None => false
  end.

(** The author of [book], when there is one, carries no [password]. *)
Definition hides_password (book : Book.t) : Prop :=
  match Book.author book with
  | Some author => User.password author = None
  | None => True
  end.

(** Primary key and unique [username]: no two user rows share either. *)
Definition unique_users (db : Database) : Prop :=
  NoDup (map UserRow.id (user_table db))
  /\ NoDup (map UserRow.username (user_table db)).

(** [s] contains a space. *)
Fixpoint has_space (s : string) : bool :=
  match s with
  | EmptyString => false
  | String c s' => Ascii.eqb c " " || has_space s'
  end.

(** The query that has [isPublished] as its only parameter. *)
Definition only_isPublished (value : string) : Query :=
  mkQuery None None (Some value) None None.

(** The query that has [title] as its only parameter. *)
Definition only_title (value : string) : Query :=
  mkQuery (Some value) None None None None.

(** [a] and [b] are the same text up to the case of ASCII letters. *)
Fixpoint same_ignoring_case (a b : string) : bool :=
  match a, b with
  | EmptyString, EmptyString => true
  | String c a', String d b' =>
      Ascii.eqb (to_lower c) (to_lower d) && same_ignoring_case a' b'
  | _, _ => false
  end.

(** ** Lookups *)

Arguments usersRepository.row_by_id : simpl never.
Arguments usersRepository.row_by_username : simpl never.
Arguments booksRepository.row_by_id : simpl never.
Arguments booksRepository.replace : simpl never.

Lemma users_row_by_id_id (i : nat) (rows : list UserRow.t) (r : UserRow.t) :
  usersRepository.row_by_id i rows = Some r -> UserRow.id r = i.
Proof.
  unfold usersRepository.row_by_id. intros H.
  apply find_some in H. destruct H as [_ H]. now apply Nat.eqb_eq.
Qed.

Lemma books_row_by_id_id (i : nat) (rows : list BookRow.t) (r : BookRow.t) :
  booksRepository.row_by_id i rows = Some r -> BookRow.id r = i.
Proof.
  unfold booksRepository.row_by_id. intros H.
  apply find_some in H. destruct H as [_ H]. now apply Nat.eqb_eq.
Qed.

Ltac run :=
  unfold BooksController.create, BooksController.update, BooksController.remove,
    BooksService.create, BooksService.update, BooksService.remove,
    try_returning, try_catch, await, resolve, reject,
    booksRepository.findOne_id_relations_author,
    usersRepository.findOne_id_select_id_username, book_of in *.

(** ** Creating a book *)

Lemma BooksService_create_Darth_Vader
      (db : Database) (user : User.t) (bookData : Book.t)
      (i : nat) (row : UserRow.t) :
  User.id user = Some i ->
  usersRepository.row_by_id i (user_table db) = Some row ->
  UserRow.username row = "Darth Vader" ->
  BooksService.create user bookData db
  = (Throw (ForbiddenException
              "Darth Vader is not allowed to publish Wookie books."), db).
Proof.
  intros Hid Hrow Hname. run. rewrite Hid. cbn [usersRepository.row_where_id].
  rewrite Hrow. cbn. rewrite Hname.
  reflexivity.
Qed.

(** C1.  When the authenticated user resolves to the username
    ["Darth Vader"], [BooksService.create] throws [ForbiddenException],
    and [BooksController.create], whose [catch] clause rethrows nothing,
    answers the same request with [InternalServerErrorException]: the
    handler does not fail with Forbidden. *)
Theorem BooksController_create_Darth_Vader_is_internal_failure
        (db : Database) (req : Request) (caller : User.t)
        (createBookDto : CreateBookDto) (i : nat) (row : UserRow.t) :
  user req = Some caller ->
  User.id caller = Some i ->
  usersRepository.row_by_id i (user_table db) = Some row ->
  UserRow.username row = "Darth Vader" ->
  BooksService.create caller createBookDto db
  = (Throw (ForbiddenException
              "Darth Vader is not allowed to publish Wookie books."), db)
  /\ BooksController.create req createBookDto db
     = (Throw (InternalServerErrorException
                 "An error occurred while creating the book"), db).
Proof.
  intros Hreq Hid Hrow Hname. split.
  - now apply BooksService_create_Darth_Vader with (i := i) (row := row).
  - unfold BooksController.create, try_catch, await. rewrite Hreq.
    rewrite (@BooksService_create_Darth_Vader db caller _ i row Hid Hrow Hname).
    reflexivity.
Qed.

(** For any other username a body with title, description, price and
    cover image creates the book: published, and authored by the caller. *)
Lemma BooksController_create_other_username_succeeds
      (db : Database) (req : Request) (caller : User.t) (i : nat)
      (row : UserRow.t) (title description coverImage : string) (price : Q) :
  user req = Some caller ->
  User.id caller = Some i ->
  usersRepository.row_by_id i (user_table db) = Some row ->
  UserRow.username row <> "Darth Vader" ->
  exists (j : nat) (db' : Database),
    BooksController.create req
      (Book.mk None (Some title) (Some description) (Some coverImage)
               (Some price) None None) db
    = (Return (Book.mk (Some j) (Some title) (Some description)
                       (Some coverImage) (Some price) (Some true)
                       (Some (User.mk (Some (UserRow.id row))
                                      (Some (UserRow.username row))
                                      None None))), db')
    /\ In (BookRow.mk j title description coverImage price true
                      (Some (UserRow.id row))) (book_table db').
Proof.
  intros Hreq Hid Hrow Hname. apply String.eqb_neq in Hname.
  pose proof (users_row_by_id_id _ _ Hrow) as Hrid.
  unfold BooksController.create, BooksService.create, try_returning,
    try_catch, await, resolve, usersRepository.findOne_id_select_id_username,
    strict_eq_string, booksRepository.save, booksRepository.insert,
    booksRepository.author_exists.
  rewrite Hreq, Hid. cbn [usersRepository.row_where_id]. rewrite Hrow. cbn.
  rewrite Hname. cbn. rewrite Hrid, Hrow. cbn.
  eexists. eexists. split; [reflexivity|].
  cbn. apply in_or_app. right. now left.
Qed.

(** The whole route on the sample installation: the bearer token of user
    2, ["Darth Vader"], passes the middleware and the request ends in an
    internal failure; the token of user 1 creates the book. *)
Lemma post_books_on_sample :
  let dto := Book.mk None (Some "The Dark Side") (Some "A story") (Some "url")
                     (Some (inject_Z 20)) None None in
  BooksModule.post_books Sample.jwt_verify
    (mkRequest (Some "Bearer token-2") None) dto Sample.db
  = (Throw (InternalServerErrorException
              "An error occurred while creating the book"), Sample.db)
  /\ (exists book db',
         BooksModule.post_books Sample.jwt_verify
           (mkRequest (Some "Bearer token-1") None) dto Sample.db
         = (Return book, db')
         /\ Book.id book = Some 5)
  /\ BooksModule.post_books Sample.jwt_verify (mkRequest None None) dto
       Sample.db
     = (Throw (UnauthorizedException
                 "Authorization token is missing or invalid"), Sample.db).
Proof.
  cbv zeta. split; [reflexivity|]. split; [|reflexivity].
  eexists. eexists. split; reflexivity.
Qed.

(** [description] and [coverImage] are NOT NULL columns without default:
    a body with title and price alone passes the service's checks and
    fails in the insert, which the handler reports as internal failure. *)
Lemma BooksController_create_without_description_on_sample :
  BooksController.create (Sample.acting 1)
    (Book.mk None (Some "Short") None None (Some (inject_Z 20)) None None) Sample.db
  = (Throw (InternalServerErrorException
              "An error occurred while creating the book"), Sample.db)
  /\ BooksService.create (User.mk (Some 1) None None None)
       (Book.mk None (Some "Short") None None (Some (inject_Z 20)) None None)
       Sample.db
     = (Throw ORM_NOT_NULL, Sample.db).
Proof. split; reflexivity. Qed.

(** ** Rows and their replacement *)

Lemma patch_load (db : Database) (r : BookRow.t) :
  booksRepository.patch r (booksRepository.load db r) = r.
Proof.
  unfold booksRepository.patch, booksRepository.load, booksRepository.entity,
    booksRepository.join_author.
  destruct r as [i t d c p f a]; cbn.
  destruct a as [a|]; cbn; [|reflexivity].
  destruct (usersRepository.row_by_id a (user_table db)) as [u|] eqn:Hu; cbn;
    [|reflexivity].
  apply users_row_by_id_id in Hu. now rewrite Hu.
Qed.

Lemma row_by_id_replace_same (i : nat) (r r' : BookRow.t) (rows : list BookRow.t) :
  booksRepository.row_by_id i rows = Some r ->
  BookRow.id r' = i ->
  booksRepository.row_by_id i (booksRepository.replace i r' rows) = Some r'.
Proof.
  unfold booksRepository.row_by_id, booksRepository.replace.
  intros H Hid. induction rows as [|x rows IH]; cbn in *; [discriminate|].
  destruct (Nat.eqb (BookRow.id x) i) eqn:E; cbn.
  - rewrite Hid, Nat.eqb_refl. reflexivity.
  - rewrite E. now apply IH.
Qed.

Lemma row_by_id_replace_other (i j : nat) (r' : BookRow.t) (rows : list BookRow.t) :
  i <> j ->
  BookRow.id r' = j ->
  booksRepository.row_by_id i (booksRepository.replace j r' rows)
  = booksRepository.row_by_id i rows.
Proof.
  unfold booksRepository.row_by_id, booksRepository.replace.
  intros Hne Hid. induction rows as [|x rows IH]; cbn; [reflexivity|].
  destruct (Nat.eqb (BookRow.id x) j) eqn:E; cbn.
  - apply Nat.eqb_eq in E. rewrite Hid, E.
    destruct (Nat.eqb j i) eqn:E'; [apply Nat.eqb_eq in E'; congruence|].
    exact IH.
  - destruct (Nat.eqb (BookRow.id x) i); [reflexivity|exact IH].
Qed.

Lemma replace_replace (i : nat) (r' : BookRow.t) (rows : list BookRow.t) :
  BookRow.id r' = i ->
  booksRepository.replace i r' (booksRepository.replace i r' rows)
  = booksRepository.replace i r' rows.
Proof.
  unfold booksRepository.replace. intros Hid.
  rewrite map_map. apply map_ext. intros x.
  destruct (Nat.eqb (BookRow.id x) i) eqn:E.
  - now rewrite Hid, Nat.eqb_refl.
  - now rewrite E.
Qed.

Lemma row_by_id_app (i : nat) (r : BookRow.t) (rows more : list BookRow.t) :
  booksRepository.row_by_id i rows = Some r ->
  booksRepository.row_by_id i (rows ++ more) = Some r.
Proof.
  unfold booksRepository.row_by_id. intros H.
  induction rows as [|x rows IH]; cbn in *; [discriminate|].
  destruct (Nat.eqb (BookRow.id x) i); [exact H|now apply IH].
Qed.

(** The owner test passes exactly when the join found an author whose id
    is the acting user's. *)
Lemma not_owner_false (db : Database) (r : BookRow.t) (caller : User.t) :
  BooksService.not_owner (booksRepository.load db r) caller = false ->
  exists a u,
    BookRow.authorId r = Some a
    /\ usersRepository.row_by_id a (user_table db) = Some u
    /\ User.id caller = Some a.
Proof.
  unfold BooksService.not_owner, booksRepository.load, booksRepository.entity,
    booksRepository.join_author. cbn.
  destruct (BookRow.authorId r) as [a|]; cbn; [|discriminate].
  destruct (usersRepository.row_by_id a (user_table db)) as [u|] eqn:Hu; cbn;
    [|discriminate].
  intros H. exists a, u. repeat split; trivial.
  apply users_row_by_id_id in Hu.
  destruct (User.id caller) as [c|]; cbn in H; [|discriminate].
  apply Bool.negb_false_iff, Nat.eqb_eq in H. congruence.
Qed.

(** The author a lookup loads is a user row, so writing it back passes
    the foreign key. *)
Lemma author_exists_loaded (db : Database) (r : BookRow.t) (b : Book.t) :
  Book.author b = Book.author (booksRepository.load db r) ->
  booksRepository.author_exists b db = true.
Proof.
  unfold booksRepository.author_exists, booksRepository.load,
    booksRepository.entity, booksRepository.join_author. cbn.
  intros ->.
  destruct (BookRow.authorId r) as [a|]; cbn; [|reflexivity].
  destruct (usersRepository.row_by_id a (user_table db)) as [u|] eqn:Hu; cbn;
    [|reflexivity].
  pose proof (users_row_by_id_id _ _ Hu) as Huid.
  now rewrite Huid, Hu.
Qed.

(** ** What the services do, case by case *)

Lemma BooksService_update_not_owner
      (db : Database) (caller : User.t) (id : nat) (bookData : Book.t)
      (r : BookRow.t) :
  booksRepository.row_by_id id (book_table db) = Some r ->
  BooksService.not_owner (booksRepository.load db r) caller = true ->
  BooksService.update caller id bookData db
  = (Throw (UnauthorizedException
              "You are not authorized to update this book"), db).
Proof.
  intros Hr Hown. run. rewrite Hr. cbn. rewrite Hown. reflexivity.
Qed.

Lemma BooksService_update_owner
      (db : Database) (caller : User.t) (id : nat) (bookData : Book.t)
      (r : BookRow.t) :
  booksRepository.row_by_id id (book_table db) = Some r ->
  BooksService.not_owner (booksRepository.load db r) caller = false ->
  BooksService.update caller id bookData db
  = booksRepository.save
      (BooksService.Object_assign (booksRepository.load db r) bookData) db.
Proof.
  intros Hr Hown. run. rewrite Hr. cbn. rewrite Hown. reflexivity.
Qed.

Lemma BooksService_remove_not_owner
      (db : Database) (caller : User.t) (id : nat) (r : BookRow.t) :
  booksRepository.row_by_id id (book_table db) = Some r ->
  BooksService.not_owner (booksRepository.load db r) caller = true ->
  BooksService.remove caller id db
  = (Throw (UnauthorizedException
              "You are not authorized to unpublish this book"), db).
Proof.
  intros Hr Hown. run. rewrite Hr. cbn. rewrite Hown. reflexivity.
Qed.

Lemma BooksService_remove_owner
      (db : Database) (caller : User.t) (id : nat) (r : BookRow.t) :
  booksRepository.row_by_id id (book_table db) = Some r ->
  BooksService.not_owner (booksRepository.load db r) caller = false ->
  BooksService.remove caller id db
  = booksRepository.save
      (BooksService.set_isPublished_false (booksRepository.load db r)) db.
Proof.
  intros Hr Hown. run. rewrite Hr. cbn. rewrite Hown. reflexivity.
Qed.

(** ** Updating a book *)

(** C2.  For a book the acting user does not own, [BooksService.update]
    throws [UnauthorizedException]; [BooksController.update] rethrows
    only [BadRequestException] and [NotFoundException], so the handler
    answers the same request with [InternalServerErrorException]: at the
    handler the Unauthorized outcome is turned into an internal
    failure. *)
Theorem BooksController_update_not_owner_is_internal_failure
        (db : Database) (req : Request) (caller : User.t) (id : nat)
        (updateBookDto : UpdateBookDto) (r : BookRow.t) :
  id <> 0 ->
  user req = Some caller ->
  booksRepository.row_by_id id (book_table db) = Some r ->
  BooksService.not_owner (booksRepository.load db r) caller = true ->
  BooksService.update caller id updateBookDto db
  = (Throw (UnauthorizedException
              "You are not authorized to update this book"), db)
  /\ BooksController.update req id updateBookDto db
     = (Throw (InternalServerErrorException
                 "An error occurred while updating the book"), db).
Proof.
  intros Hid Hreq Hr Hown. split.
  - now apply BooksService_update_not_owner with (r := r).
  - unfold BooksController.update, try_catch, await, BooksService.falsy_id.
    destruct (Nat.eqb_spec id 0) as [E|_]; [contradiction|].
    rewrite Hreq.
    rewrite (@BooksService_update_not_owner db caller id _ r Hr Hown).
    reflexivity.
Qed.

(** The owner's update through the handler, with a body that carries
    neither [id] nor [author], succeeds and returns the record with the
    supplied fields merged in. *)
Lemma BooksController_update_owner_returns_merged
      (db : Database) (req : Request) (caller : User.t) (id : nat)
      (updateBookDto : UpdateBookDto) (r : BookRow.t) :
  id <> 0 ->
  user req = Some caller ->
  Book.id updateBookDto = None ->
  Book.author updateBookDto = None ->
  booksRepository.row_by_id id (book_table db) = Some r ->
  BooksService.not_owner (booksRepository.load db r) caller = false ->
  let merged := BooksService.Object_assign (booksRepository.load db r)
                  updateBookDto in
  exists db',
    BooksController.update req id updateBookDto db
    = (Return (BooksController.instanceToPlain merged), db')
    /\ book_of db' id = Some merged.
Proof.
  intros Hid Hreq Hnoid Hnoauthor Hr Hown merged.
  pose proof (books_row_by_id_id _ _ Hr) as Hrid.
  unfold BooksController.update, try_catch, await, BooksService.falsy_id,
    BooksController.instanceToPlain_updated.
  destruct (Nat.eqb_spec id 0) as [E|_]; [contradiction|].
  rewrite Hreq, Hnoauthor.
  rewrite (@BooksService_update_owner db caller id _ r Hr Hown).
  fold merged.
  unfold booksRepository.save.
  assert (Hmid : Book.id merged = Some id)
    by (cbn; rewrite Hnoid; cbn; now rewrite Hrid).
  assert (Hfk : booksRepository.author_exists merged db = true).
  { apply author_exists_loaded with (r := r). cbn. now rewrite Hnoauthor. }
  rewrite Hmid, Hr, Hfk. cbn.
  eexists. split; [reflexivity|].
  unfold book_of. cbn.
  rewrite (@row_by_id_replace_same id r _ _ Hr)
    by (destruct r; cbn in *; assumption).
  cbn. f_equal.
  destruct (not_owner_false _ _ _ Hown) as (a & u & Ha & Hu & _).
  pose proof (users_row_by_id_id _ _ Hu) as Huid.
  unfold merged, booksRepository.load, booksRepository.entity,
    booksRepository.join_author, booksRepository.patch,
    BooksService.Object_assign.
  destruct r as [ri rt rd rc rp rf ra]; cbn in *. subst ra.
  rewrite Hnoid, Hnoauthor, Hu. cbn. rewrite Huid, Hu. cbn.
  destruct updateBookDto as [bi [t|] [d|] [c|] [p|] [f|] ba]; reflexivity.
Qed.


(** ** Unpublishing a book *)

Lemma set_table_set_table (rows rows' : list BookRow.t) (s s' : nat)
      (db : Database) :
  booksRepository.set_table rows' s' (booksRepository.set_table rows s db)
  = booksRepository.set_table rows' s' db.
Proof. reflexivity. Qed.

(** Reloading the row written by an unpublish gives the entity that was
    saved. *)
Lemma load_unpublished (db db' : Database) (r : BookRow.t) :
  user_table db' = user_table db ->
  let book := BooksService.set_isPublished_false (booksRepository.load db r) in
  booksRepository.load db' (booksRepository.patch r book) = book.
Proof.
  intros Husers book. unfold book.
  unfold booksRepository.load, booksRepository.entity,
    booksRepository.join_author, booksRepository.patch,
    BooksService.set_isPublished_false.
  rewrite Husers.
  destruct r as [i t d c p f a]; cbn.
  destruct a as [a|]; cbn; [|reflexivity].
  destruct (usersRepository.row_by_id a (user_table db)) as [u|] eqn:Hu; cbn.
  - pose proof (users_row_by_id_id _ _ Hu) as Huid.
    rewrite Huid, Hu. reflexivity.
  - rewrite Hu. reflexivity.
Qed.

(** C9.  An owner's unpublish succeeds, returns the book with the flag
    false and stores the flag false; a second unpublish of the same
    book by the same owner succeeds again, returns the same record and
    leaves the database as the first call left it. *)
Theorem BooksService_remove_twice_is_idempotent
        (db : Database) (caller : User.t) (id : nat) (r : BookRow.t) :
  booksRepository.row_by_id id (book_table db) = Some r ->
  BooksService.not_owner (booksRepository.load db r) caller = false ->
  exists (book : Book.t) (db1 : Database),
    BooksService.remove caller id db = (Return book, db1)
    /\ Book.isPublished book = Some false
    /\ stored_isPublished db1 id = Some false
    /\ BooksService.remove caller id db1 = (Return book, db1)
    /\ stored_isPublished db1 id = Some false.
Proof.
  intros Hr Hown.
  pose proof (books_row_by_id_id _ _ Hr) as Hrid.
  set (book := BooksService.set_isPublished_false (booksRepository.load db r)).
  set (r1 := booksRepository.patch r book).
  set (db1 := booksRepository.set_table
                (booksRepository.replace id r1 (book_table db))
                (book_sequence db) db).
  assert (Hr1id : BookRow.id r1 = id) by (destruct r; exact Hrid).
  assert (Hr1 : booksRepository.row_by_id id (book_table db1) = Some r1)
    by (cbn; now apply row_by_id_replace_same with (r := r)).
  assert (Hload : booksRepository.load db1 r1 = book)
    by (apply load_unpublished; reflexivity).
  assert (Hflag : stored_isPublished db1 id = Some false)
    by (unfold stored_isPublished; rewrite Hr1; reflexivity).
  exists book, db1. repeat split; trivial.
  - rewrite (@BooksService_remove_owner db caller id r Hr Hown). fold book.
    unfold booksRepository.save.
    assert (Hbid : Book.id book = Some id) by (cbn; now rewrite Hrid).
    rewrite Hbid, Hr.
    now rewrite (@author_exists_loaded db r book eq_refl).
  - assert (Hown1 : BooksService.not_owner (booksRepository.load db1 r1) caller
                    = false)
      by (rewrite Hload; exact Hown).
    rewrite (@BooksService_remove_owner db1 caller id r1 Hr1 Hown1).
    rewrite Hload.
    change (BooksService.set_isPublished_false book) with book.
    unfold booksRepository.save.
    assert (Hbid : Book.id book = Some id) by (cbn; now rewrite Hrid).
    rewrite Hbid, Hr1.
    rewrite (@author_exists_loaded db1 r1 book) by now rewrite Hload.
    cbn [negb]. f_equal.
    rewrite <- Hload at 1. rewrite patch_load.
    unfold db1. rewrite set_table_set_table. cbn [book_table book_sequence booksRepository.set_table].
    now rewrite replace_replace.
Qed.

(** ** The author reference under update *)

(** C5.  [BooksService.update] does [Object.assign(book, bookData)] and
    saves, and [BooksController.update] hands it the body as sent.  When
    the owner's body carries an [author] that names an existing user,
    the update succeeds, service and handler return the merged record
    with that author, and the author reference the store holds for the
    book is the body's: whenever it differs from the reference held
    before, the stored author has changed.  The author is mutable on the
    update path. *)
Theorem BooksService_update_takes_the_author_from_the_payload
        (db : Database) (req : Request) (caller : User.t) (id : nat)
        (bookData : Book.t) (r : BookRow.t) (author : User.t) (a : nat)
        (target : UserRow.t) :
  id <> 0 ->
  user req = Some caller ->
  booksRepository.row_by_id id (book_table db) = Some r ->
  BooksService.not_owner (booksRepository.load db r) caller = false ->
  Book.id bookData = None ->
  Book.author bookData = Some author ->
  User.id author = Some a ->
  usersRepository.row_by_id a (user_table db) = Some target ->
  exists (updated : Book.t) (db' : Database),
    BooksService.update caller id bookData db = (Return updated, db')
    /\ BooksController.update req id bookData db = (Return updated, db')
    /\ Book.id updated = Some id
    /\ Book.author updated = Some author
    /\ stored_author db' id = Some (Some a)
    /\ (BookRow.authorId r <> Some a ->
        stored_author db' id <> stored_author db id).
Proof.
  intros Hid Hreq Hr Hown Hnoid Hauthor Ha Htarget.
  pose proof (books_row_by_id_id _ _ Hr) as Hrid.
  set (merged := BooksService.Object_assign (booksRepository.load db r)
                   bookData).
  assert (Hmid : Book.id merged = Some id)
    by (cbn; rewrite Hnoid; cbn; now rewrite Hrid).
  assert (Hmauthor : Book.author merged = Some author)
    by (cbn; now rewrite Hauthor).
  assert (Hfk : booksRepository.author_exists merged db = true)
    by (unfold booksRepository.author_exists;
        now rewrite Hmauthor, Ha, Htarget).
  set (db' := booksRepository.set_table
                (booksRepository.replace id (booksRepository.patch r merged)
                                         (book_table db))
                (book_sequence db) db).
  assert (Hsave : BooksService.update caller id bookData db
                  = (Return merged, db')).
  { rewrite (@BooksService_update_owner db caller id bookData r Hr Hown).
    fold merged. unfold booksRepository.save.
    now rewrite Hmid, Hr, Hfk. }
  assert (Hstored : stored_author db' id = Some (Some a)).
  { unfold stored_author. cbn [db' book_table booksRepository.set_table].
    rewrite (@row_by_id_replace_same id r _ _ Hr)
      by (destruct r; exact Hrid).
    cbn [option_map booksRepository.patch BookRow.authorId].
    now rewrite Hmauthor, Ha. }
  exists merged, db'. split; [exact Hsave|]. split.
  - unfold BooksController.update, try_catch, await, BooksService.falsy_id,
      BooksController.instanceToPlain_updated.
    destruct (Nat.eqb_spec id 0) as [E|_]; [contradiction|].
    now rewrite Hreq, Hsave, Hauthor.
  - repeat split; trivial.
    intros Hne. rewrite Hstored. unfold stored_author. rewrite Hr.
    cbn [option_map]. congruence.
Qed.

(** ** Users *)

Lemma existsb_false {A} (f : A -> bool) (l : list A) :
  (forall x, In x l -> f x = false) -> existsb f l = false.
Proof.
  intros H. induction l as [|x l IH]; cbn; [reflexivity|].
  rewrite (H x (or_introl eq_refl)). cbn. apply IH.
  intros y Hy. apply H. now right.
Qed.

Lemma next_id_is_new (sequence : nat) (rows : list UserRow.t) (o : UserRow.t) :
  In o rows ->
  Nat.eqb (UserRow.id o) (next_id sequence (map UserRow.id rows)) = false.
Proof.
  intros Hin. apply Nat.eqb_neq. unfold next_id.
  assert (UserRow.id o <= list_max (map UserRow.id rows)).
  { pose proof (proj1 (list_max_le (map UserRow.id rows) _) (Nat.le_refl _))
      as Hall.
    rewrite Forall_forall in Hall. apply Hall. now apply in_map. }
  lia.
Qed.

Lemma users_row_by_id_new (i : nat) (r : UserRow.t) (rows : list UserRow.t) :
  (forall o, In o rows -> Nat.eqb (UserRow.id o) i = false) ->
  UserRow.id r = i ->
  usersRepository.row_by_id i (rows ++ [r]) = Some r.
Proof.
  unfold usersRepository.row_by_id. intros Hnew Hid.
  induction rows as [|x rows IH]; cbn.
  - now rewrite Hid, Nat.eqb_refl.
  - rewrite (Hnew x (or_introl eq_refl)). apply IH.
    intros o Ho. apply Hnew. now right.
Qed.

Lemma users_row_by_id_replace (i : nat) (r r' : UserRow.t)
      (rows : list UserRow.t) :
  usersRepository.row_by_id i rows = Some r ->
  UserRow.id r' = i ->
  usersRepository.row_by_id i (usersRepository.replace i r' rows) = Some r'.
Proof.
  unfold usersRepository.row_by_id, usersRepository.replace.
  intros H Hid. induction rows as [|x rows IH]; cbn in *; [discriminate|].
  destruct (Nat.eqb (UserRow.id x) i) eqn:E; cbn.
  - rewrite Hid, Nat.eqb_refl. reflexivity.
  - rewrite E. now apply IH.
Qed.

(** With [username] unique, no other row shares the username of the row
    with key [i]. *)
Lemma unique_username_no_conflict (i : nat) (r : UserRow.t)
      (rows : list UserRow.t) :
  NoDup (map UserRow.username rows) ->
  usersRepository.row_by_id i rows = Some r ->
  forall o, In o (usersRepository.without i rows) ->
            String.eqb (UserRow.username o) (UserRow.username r) = false.
Proof.
  unfold usersRepository.row_by_id, usersRepository.without.
  intros Hnodup Hr o Ho. apply filter_In in Ho. destruct Ho as [Ho Hne].
  apply find_some in Hr. destruct Hr as [Hrin Hri].
  apply Nat.eqb_eq in Hri. apply Bool.negb_true_iff, Nat.eqb_neq in Hne.
  apply String.eqb_neq. intros Heq.
  assert (o = r); [|subst; contradiction].
  clear Hne Hri. induction rows as [|x rows IH]; [contradiction|].
  cbn in Hnodup. inversion Hnodup as [|? ? Hnotin Hrest]; subst.
  destruct Ho as [->|Ho], Hrin as [->|Hrin]; trivial.
  - exfalso. apply Hnotin. rewrite Heq. now apply in_map.
  - exfalso. apply Hnotin. rewrite <- Heq. now apply in_map.
  - now apply IH.
Qed.

(** Registration of a fresh username stores the bcrypt digest of the
    password, not the password. *)
Lemma UsersService_create_fresh
      (bcrypt_hash : string -> nat -> string -> string)
      (db : Database) (salt name plaintext : string) (pseudonym : string) :
  name <> "" ->
  plaintext <> "" ->
  usersRepository.row_by_username name (user_table db) = None ->
  let i := next_id (user_sequence db) (map UserRow.id (user_table db)) in
  let digest := bcrypt_hash plaintext 10 salt in
  exists db' : Database,
    UsersService.create bcrypt_hash salt
      (User.mk None (Some name) (Some plaintext) (Some pseudonym)) db
    = (Return (User.mk (Some i) (Some name) (Some digest) (Some pseudonym)), db')
    /\ usersRepository.row_by_id i (user_table db')
       = Some (UserRow.mk i name digest pseudonym).
Proof.
  intros Hname Hpw Hfresh i digest.
  unfold UsersService.create, try_catch, await, resolve.
  cbn [User.id User.username User.password User.authorPseudonym truthy get_or].
  apply String.eqb_neq in Hname, Hpw. rewrite Hname, Hpw. cbn [negb orb].
  unfold usersRepository.save, usersRepository.insert. cbn [User.id User.username
    User.password User.authorPseudonym get_or].
  fold i. fold digest.
  assert (Hnew : forall o, In o (user_table db) ->
                           Nat.eqb (UserRow.id o) i = false)
    by (intros o Ho; now apply next_id_is_new).
  assert (Hconf : usersRepository.conflicts (UserRow.mk i name digest pseudonym)
                    (user_table db) = false).
  { apply existsb_false. intros o Ho. cbn. rewrite (Hnew o Ho). cbn.
    unfold usersRepository.row_by_username in Hfresh.
    exact (find_none _ _ Hfresh o Ho). }
  rewrite Hconf. eexists. split; [reflexivity|].
  cbn [user_table usersRepository.set_table].
  now apply users_row_by_id_new.
Qed.

(** C3.  [UsersService.update] hands [updateData] to the repository as
    it is: a profile update that carries a password stores that very
    string in the password column and returns it, where
    [UsersService.create] stores the bcrypt digest. *)
Theorem UsersService_update_stores_the_plaintext
        (db : Database) (i : nat) (row : UserRow.t) (updateData : User.t)
        (plaintext : string) :
  NoDup (map UserRow.username (user_table db)) ->
  usersRepository.row_by_id i (user_table db) = Some row ->
  User.id updateData = None ->
  User.username updateData = None ->
  User.password updateData = Some plaintext ->
  exists (updated : User.t) (db' : Database),
    UsersService.update (Some i) updateData db = (Return updated, db')
    /\ User.password updated = Some plaintext
    /\ stored_password db' i = Some plaintext.
Proof.
  intros Hunique Hrow Hid Hname Hpw.
  pose proof (users_row_by_id_id _ _ Hrow) as Hrid.
  set (row' := usersRepository.patch row updateData).
  assert (Hrid' : UserRow.id row' = i)
    by (unfold row', usersRepository.patch; rewrite Hid; exact Hrid).
  assert (Hconf : usersRepository.conflicts row'
                    (usersRepository.without i (user_table db)) = false).
  { apply existsb_false. intros o Ho.
    assert (Hoid : Nat.eqb (UserRow.id o) (UserRow.id row') = false).
    { unfold usersRepository.without in Ho. apply filter_In in Ho.
      destruct Ho as [_ Ho]. apply Bool.negb_true_iff in Ho. now rewrite Hrid'. }
    rewrite Hoid. cbn [orb].
    replace (UserRow.username row') with (UserRow.username row)
      by (unfold row', usersRepository.patch; now rewrite Hname).
    now apply unique_username_no_conflict with (i := i) (rows := user_table db). }
  assert (Hvalues : usersRepository.no_values updateData = false)
    by (unfold usersRepository.no_values; now rewrite Hid, Hname, Hpw).
  exists (UserRow.entity row').
  exists (usersRepository.set_table
            (usersRepository.replace i row' (user_table db))
            (Nat.max (user_sequence db) (UserRow.id row')) db).
  assert (Hfound : usersRepository.row_by_id i
                     (usersRepository.replace i row' (user_table db))
                   = Some row')
    by now apply users_row_by_id_replace with (r := row).
  split; [|split].
  - unfold UsersService.update, UsersService.findById, try_catch, await,
      resolve, usersRepository.findOne_id, usersRepository.update,
      usersRepository.write_existing.
    cbn [usersRepository.row_where_id].
    rewrite Hrow. cbn [option_map]. rewrite Hvalues, Hrow. fold row'.
    rewrite Hconf, Hrid', Nat.eqb_refl.
    cbn [negb andb user_table usersRepository.set_table].
    rewrite Hfound. reflexivity.
  - unfold row', usersRepository.patch. cbn. now rewrite Hpw.
  - unfold stored_password. cbn [user_table usersRepository.set_table].
    rewrite Hfound. unfold row', usersRepository.patch. cbn. now rewrite Hpw.
Qed.

(** ** Registration *)

(** C4.  [POST /users] with a non-empty username that is not taken and a
    non-empty password returns the created user, pseudonym equal to the
    username, whatever the request carries as [Authorization] header
    (none in particular); and no request to it, valid or not, ends in
    [UnauthorizedException]. *)
Theorem post_users_needs_no_bearer
        (jwt_verify : string -> option JwtPayload)
        (bcrypt_hash : string -> nat -> string -> string)
        (db : Database) (salt : string) (req : Request)
        (dto : CreateUserDto) (name plaintext : string) :
  create_username dto = Some name ->
  create_password dto = Some plaintext ->
  name <> "" ->
  plaintext <> "" ->
  usersRepository.row_by_username name (user_table db) = None ->
  (exists (created : User.t) (db' : Database),
      UsersModule.post_users jwt_verify bcrypt_hash salt req dto db
      = (Return created, db')
      /\ User.username created = Some name
      /\ User.authorPseudonym created = Some name
      /\ exists i, User.id created = Some i
                   /\ option_map UserRow.username
                        (usersRepository.row_by_id i (user_table db'))
                      = Some name)
  /\ (forall (req' : Request) (dto' : CreateUserDto) (db0 : Database)
             (message : string),
         fst (UsersModule.post_users jwt_verify bcrypt_hash salt req' dto' db0)
         <> Throw (UnauthorizedException message)).
Proof.
  intros Hname Hpw Hne Hpne Hfresh. split.
  - destruct (UsersService_create_fresh bcrypt_hash db salt name Hne Hpne Hfresh)
      as (db' & Hrun & Hstored).
    eexists. exists db'. split; [|split; [|split]].
    + unfold UsersModule.post_users, UsersModule.through. cbn [UsersModule.bearer].
      unfold UsersController.createUser, try_catch, await, resolve.
      rewrite Hname, Hpw, Hrun. reflexivity.
    + reflexivity.
    + reflexivity.
    + eexists. split; [reflexivity|]. now rewrite Hstored.
  - intros req' dto' db0 message.
    unfold UsersModule.post_users, UsersModule.through. cbn [UsersModule.bearer].
    unfold UsersController.createUser, try_catch, await, resolve, reject.
    destruct (UsersService.create bcrypt_hash salt _ db0) as [[u|e] db1];
      cbn; discriminate.
Qed.

(** ** Authentication *)

(** C6.  [AuthService.validateUser] fails in the same way for a username
    the store does not hold and for a stored username with a password
    bcrypt rejects: the same [UnauthorizedException] with the same
    message, and the database untouched; [AuthController.login] passes
    that exception on unchanged in both cases. *)
Theorem AuthService_validateUser_failures_are_indistinguishable
        (bcrypt_compare : string -> string -> bool)
        (jwt_sign : JwtPayload -> string)
        (db : Database) (absent present pass pass' : string)
        (row : UserRow.t) :
  usersRepository.row_by_username absent (user_table db) = None ->
  usersRepository.row_by_username present (user_table db) = Some row ->
  bcrypt_compare pass' (UserRow.password row) = false ->
  AuthService.validateUser bcrypt_compare absent pass db
  = (Throw (UnauthorizedException "Invalid username or password"), db)
  /\ AuthService.validateUser bcrypt_compare present pass' db
     = (Throw (UnauthorizedException "Invalid username or password"), db)
  /\ AuthService.validateUser bcrypt_compare absent pass db
     = AuthService.validateUser bcrypt_compare present pass' db
  /\ AuthController.login bcrypt_compare jwt_sign (mkLoginDto absent pass) db
     = (Throw (UnauthorizedException "Invalid username or password"), db)
  /\ AuthController.login bcrypt_compare jwt_sign (mkLoginDto present pass') db
     = (Throw (UnauthorizedException "Invalid username or password"), db).
Proof.
  intros Habsent Hpresent Hwrong.
  assert (H1 : AuthService.validateUser bcrypt_compare absent pass db
               = (Throw (UnauthorizedException "Invalid username or password"),
                  db)).
  { unfold AuthService.validateUser, UsersService.findByUsername, try_catch,
      await, resolve, reject, usersRepository.findOne_username.
    rewrite Habsent. reflexivity. }
  assert (H2 : AuthService.validateUser bcrypt_compare present pass' db
               = (Throw (UnauthorizedException "Invalid username or password"),
                  db)).
  { unfold AuthService.validateUser, UsersService.findByUsername, try_catch,
      await, resolve, reject, usersRepository.findOne_username.
    rewrite Hpresent. cbn. rewrite Hwrong. reflexivity. }
  repeat split; trivial.
  - now rewrite H1, H2.
  - unfold AuthController.login, try_returning, try_catch, await.
    cbn [login_username login_password]. rewrite H1. reflexivity.
  - unfold AuthController.login, try_returning, try_catch, await.
    cbn [login_username login_password]. rewrite H2. reflexivity.
Qed.

(** The right password logs the sample user in. *)
Lemma AuthController_login_on_sample :
  AuthController.login Sample.bcrypt_compare Sample.jwt_sign
    (mkLoginDto "luke" "usetheforce") Sample.db
  = (Return "token-1", Sample.db).
Proof. reflexivity. Qed.

(** ** The catalogue *)

Lemma selects_andWhere (c : QueryBuilder.Clause) (qb : QueryBuilder.t)
      (j : booksRepository.joined) :
  QueryBuilder.selects (QueryBuilder.andWhere c qb) j
  = QueryBuilder.selects qb j && QueryBuilder.holds c j.
Proof.
  unfold QueryBuilder.selects, QueryBuilder.andWhere.
  rewrite forallb_app. cbn. now rewrite Bool.andb_true_r.
Qed.

Lemma filter_andb {A} (f g : A -> bool) (l : list A) :
  filter (fun x => f x && g x) l = filter g (filter f l).
Proof.
  induction l as [|x l IH]; cbn; [reflexivity|].
  destruct (f x); cbn; [|exact IH].
  destruct (g x); now rewrite IH.
Qed.

Lemma filter_map_commute {A B} (p : B -> bool) (f : A -> B) (l : list A) :
  filter p (map f l) = map f (filter (fun x => p (f x)) l).
Proof.
  induction l as [|x l IH]; cbn; [reflexivity|].
  destruct (p (f x)); cbn; now rewrite IH.
Qed.

Lemma price_within_spec (lo hi : Q) (book : Book.t) :
  price_within lo hi book = true
  <-> exists p, Book.price book = Some p /\ (lo <= p)%Q /\ (p <= hi)%Q.
Proof.
  unfold price_within. destruct (Book.price book) as [p|].
  - rewrite Bool.andb_true_iff, !Qle_bool_iff. split.
    + intros [H1 H2]. now exists p.
    + intros (q & Hq & H1 & H2). injection Hq as <-. now split.
  - split; [discriminate|]. intros (q & Hq & _). discriminate.
Qed.

(** The rows a query builder returns are those of the builder without
    its last clause that satisfy the clause. *)
Lemma getMany_andWhere_BETWEEN (lo hi : Q) (qb : QueryBuilder.t) (db : Database) :
  QueryBuilder.getMany
    (QueryBuilder.andWhere
       (QueryBuilder.book_price_BETWEEN (Some lo) (Some hi)) qb) db
  = match QueryBuilder.getMany qb db with
    | (Return books, db') => (Return (filter (price_within lo hi) books), db')
    | (Throw e, db') => (Throw e, db')
    end.
Proof.
  unfold QueryBuilder.getMany.
  replace (existsb QueryBuilder.binds_NaN
             (QueryBuilder.andWhere
                (QueryBuilder.book_price_BETWEEN (Some lo) (Some hi)) qb))
    with (existsb QueryBuilder.binds_NaN qb)
    by (unfold QueryBuilder.andWhere; rewrite existsb_app; cbn;
        now rewrite Bool.orb_false_r).
  destruct (existsb QueryBuilder.binds_NaN qb); [reflexivity|].
  f_equal. f_equal.
  rewrite (filter_map_commute (price_within lo hi) booksRepository.entity).
  f_equal. rewrite <- filter_andb. apply filter_ext. intros [book author].
  rewrite selects_andWhere. reflexivity.
Qed.

(** C7.  With no query parameter the filtered listing returns every row
    of the book table, each with its author, published or not, where
    the simple listing without a search term returns the published rows
    only; on a store of one published and one unpublished book the
    first returns two books and the second one. *)
Theorem findAllWithFilters_without_filters_returns_every_book
        (parseFloat : string -> option Q) (db : Database) :
  BooksService.findAllWithFilters parseFloat no_filters db
  = (Return (map (booksRepository.load db) (book_table db)), db)
  /\ BooksService.findAll None db
     = (Return (map (booksRepository.load db)
                  (filter BookRow.isPublished (book_table db))), db)
  /\ (exists published unpublished,
         BooksService.findAllWithFilters parseFloat no_filters Sample.two_books
         = (Return [published; unpublished], Sample.two_books)
         /\ Book.isPublished published = Some true
         /\ Book.isPublished unpublished = Some false
         /\ BooksService.findAll None Sample.two_books
            = (Return [published], Sample.two_books)).
Proof.
  split; [|split].
  - unfold BooksService.findAllWithFilters, try_returning,
      try_catch, await, resolve, QueryBuilder.getMany. cbn.
    f_equal. f_equal.
    induction (book_table db) as [|r rows IH]; cbn; [reflexivity|].
    now rewrite IH.
  - reflexivity.
  - eexists. eexists. repeat split; reflexivity.
Qed.

(** C8.  The price clause is added only when both [minPrice] and
    [maxPrice] are given: with either one missing the listing is that of
    the query without price parameters.  With both given and numeric,
    the listing is that of the query without price parameters cut down
    to the books whose price lies between the two bounds, bounds
    included.  On the sample catalogue, priced 5, 15, 25 and 35,
    [minPrice=10&maxPrice=30] returns the books priced 15 and 25. *)
Theorem findAllWithFilters_price_range (parseFloat : string -> option Q) :
  (forall (query : Query) (db : Database),
      q_minPrice query = None \/ q_maxPrice query = None ->
      BooksService.findAllWithFilters parseFloat query db
      = BooksService.findAllWithFilters parseFloat (without_price query) db)
  /\ (forall (query : Query) (db : Database) (minPrice maxPrice : string)
             (lo hi : Q),
         q_minPrice query = Some minPrice ->
         q_maxPrice query = Some maxPrice ->
         minPrice <> "" ->
         maxPrice <> "" ->
         parseFloat minPrice = Some lo ->
         parseFloat maxPrice = Some hi ->
         exists unfiltered : list Book.t,
           BooksService.findAllWithFilters parseFloat (without_price query) db
           = (Return unfiltered, db)
           /\ BooksService.findAllWithFilters parseFloat query db
              = (Return (filter (price_within lo hi) unfiltered), db)
           /\ forall book,
                In book (filter (price_within lo hi) unfiltered)
                <-> In book unfiltered
                    /\ exists p, Book.price book = Some p
                                 /\ (lo <= p)%Q /\ (p <= hi)%Q)
  /\ (map Book.price
        (map (booksRepository.load Sample.db) (book_table Sample.db))
      = [Some (inject_Z 5); Some (inject_Z 15); Some (inject_Z 25);
         Some (inject_Z 35)]
      /\ exists b15 b25,
           BooksService.findAllWithFilters Sample.parseFloat
             (mkQuery None None None (Some "10") (Some "30")) Sample.db
           = (Return [b15; b25], Sample.db)
           /\ Book.price b15 = Some (inject_Z 15)
           /\ Book.price b25 = Some (inject_Z 25)).
Proof.
  split; [|split].
  - intros query db Hmissing.
    unfold BooksService.findAllWithFilters, without_price. cbn.
    destruct Hmissing as [H|H]; rewrite H; cbn;
      [|rewrite Bool.andb_false_r]; reflexivity.
  - intros query db minPrice maxPrice lo hi Hmin Hmax Hmin' Hmax' Hlo Hhi.
    apply String.eqb_neq in Hmin', Hmax'.
    unfold BooksService.findAllWithFilters, try_returning,
      try_catch, await, resolve, without_price.
    cbn [q_title q_authorPseudonym q_isPublished q_minPrice q_maxPrice truthy
         andb get_or].
    rewrite Hmin, Hmax. cbn [truthy get_or]. rewrite Hmin', Hmax'. cbn [negb andb].
    rewrite Hlo, Hhi, getMany_andWhere_BETWEEN.
    match goal with
    | |- context [QueryBuilder.getMany ?qb db] =>
        assert (Hrest : exists books,
                   QueryBuilder.getMany qb db = (Return books, db))
          by (unfold QueryBuilder.getMany;
              destruct (q_isPublished query), (truthy (q_authorPseudonym query)),
                (truthy (q_title query)); eexists; reflexivity)
    end.
    destruct Hrest as [unfiltered Hrest]. rewrite Hrest.
    exists unfiltered. split; [reflexivity|]. split; [reflexivity|].
    intros book. rewrite filter_In, price_within_spec. reflexivity.
  - split; [reflexivity|].
    eexists. eexists. repeat split; reflexivity.
Qed.

(** ** The theorems at work on the sample installation *)

Lemma BooksController_create_Darth_Vader_on_sample :
  let dto := Book.mk None (Some "The Dark Side") (Some "A story") (Some "url")
                     (Some (inject_Z 20)) None None in
  user (Sample.acting 2) = Some (User.mk (Some 2) None None None)
  /\ usersRepository.row_by_id 2 (user_table Sample.db) = Some Sample.vader
  /\ UserRow.username Sample.vader = "Darth Vader"
  /\ BooksService.create (User.mk (Some 2) None None None) dto Sample.db
     = (Throw (ForbiddenException
                 "Darth Vader is not allowed to publish Wookie books."),
        Sample.db)
  /\ BooksController.create (Sample.acting 2) dto Sample.db
     = (Throw (InternalServerErrorException
                 "An error occurred while creating the book"), Sample.db).
Proof.
  intros dto.
  split; [reflexivity|]. split; [reflexivity|]. split; [reflexivity|].
  exact (@BooksController_create_Darth_Vader_is_internal_failure
           Sample.db (Sample.acting 2) (User.mk (Some 2) None None None) dto
           2 Sample.vader eq_refl eq_refl eq_refl eq_refl).
Defined.

Lemma BooksController_update_not_owner_on_sample :
  let dto := Book.mk None (Some "Mine now") None None None None None in
  let row := Sample.book 1 "Wookie Adventures 1" 5 true (Some 1) in
  1 <> 0
  /\ booksRepository.row_by_id 1 (book_table Sample.db) = Some row
  /\ BooksService.not_owner (booksRepository.load Sample.db row)
       (User.mk (Some 3) None None None) = true
  /\ BooksService.update (User.mk (Some 3) None None None) 1 dto Sample.db
     = (Throw (UnauthorizedException
                 "You are not authorized to update this book"), Sample.db)
  /\ BooksController.update (Sample.acting 3) 1 dto Sample.db
     = (Throw (InternalServerErrorException
                 "An error occurred while updating the book"), Sample.db).
Proof.
  intros dto row.
  split; [discriminate|]. split; [reflexivity|]. split; [reflexivity|].
  exact (@BooksController_update_not_owner_is_internal_failure
           Sample.db (Sample.acting 3) (User.mk (Some 3) None None None) 1 dto
           row (fun H : 1 = 0 => O_S 0 (eq_sym H)) eq_refl eq_refl eq_refl).
Defined.


Lemma BooksService_remove_twice_on_sample :
  let row := Sample.book 1 "Wookie Adventures 1" 5 true (Some 1) in
  let luke := User.mk (Some 1) None None None in
  booksRepository.row_by_id 1 (book_table Sample.db) = Some row
  /\ BooksService.not_owner (booksRepository.load Sample.db row) luke = false
  /\ exists (book : Book.t) (db1 : Database),
       BooksService.remove luke 1 Sample.db = (Return book, db1)
       /\ Book.isPublished book = Some false
       /\ stored_isPublished db1 1 = Some false
       /\ BooksService.remove luke 1 db1 = (Return book, db1)
       /\ stored_isPublished db1 1 = Some false.
Proof.
  intros row luke.
  split; [reflexivity|]. split; [reflexivity|].
  exact (@BooksService_remove_twice_is_idempotent Sample.db luke 1 row
           eq_refl eq_refl).
Defined.

Lemma BooksService_update_takes_the_author_on_sample :
  let row := Sample.book 1 "Wookie Adventures 1" 5 true (Some 1) in
  let author := User.mk (Some 3) None None None in
  let payload := Book.mk None None None None None None (Some author) in
  1 <> 0
  /\ booksRepository.row_by_id 1 (book_table Sample.db) = Some row
  /\ stored_author Sample.db 1 = Some (Some 1)
  /\ exists (updated : Book.t) (db' : Database),
       BooksService.update (User.mk (Some 1) None None None) 1 payload
         Sample.db = (Return updated, db')
       /\ BooksController.update (Sample.acting 1) 1 payload Sample.db
          = (Return updated, db')
       /\ Book.id updated = Some 1
       /\ Book.author updated = Some author
       /\ stored_author db' 1 = Some (Some 3)
       /\ (BookRow.authorId row <> Some 3 ->
           stored_author db' 1 <> stored_author Sample.db 1).
Proof.
  intros row author payload.
  split; [discriminate|]. split; [reflexivity|]. split; [reflexivity|].
  exact (@BooksService_update_takes_the_author_from_the_payload
           Sample.db (Sample.acting 1) (User.mk (Some 1) None None None) 1
           payload row author 3 Sample.leia
           (fun H : 1 = 0 => O_S 0 (eq_sym H)) eq_refl eq_refl eq_refl
           eq_refl eq_refl eq_refl eq_refl).
Defined.

Lemma Sample_usernames_unique :
  NoDup (map UserRow.username (user_table Sample.db)).
Proof.
  cbn. repeat constructor; cbn; intuition discriminate.
Defined.

Lemma UsersService_update_on_sample :
  let updateData := User.mk None None (Some "newpassword123") None in
  NoDup (map UserRow.username (user_table Sample.db))
  /\ usersRepository.row_by_id 1 (user_table Sample.db) = Some Sample.luke
  /\ exists (updated : User.t) (db' : Database),
       UsersService.update (Some 1) updateData Sample.db = (Return updated, db')
       /\ User.password updated = Some "newpassword123"
       /\ stored_password db' 1 = Some "newpassword123".
Proof.
  intros updateData.
  split; [exact Sample_usernames_unique|]. split; [reflexivity|].
  exact (@UsersService_update_stores_the_plaintext Sample.db 1 Sample.luke
           updateData "newpassword123" Sample_usernames_unique
           eq_refl eq_refl eq_refl eq_refl).
Defined.

Lemma post_users_without_header_on_sample :
  let dto := mkCreateUserDto (Some "testuser") (Some "password123") in
  let req := mkRequest None None in
  authorization req = None
  /\ usersRepository.row_by_username "testuser" (user_table Sample.db) = None
  /\ exists (created : User.t) (db' : Database),
       UsersModule.post_users Sample.jwt_verify Sample.bcrypt_hash "s4" req dto
         Sample.db
       = (Return created, db')
       /\ User.username created = Some "testuser"
       /\ User.authorPseudonym created = Some "testuser"
       /\ exists i, User.id created = Some i
                    /\ option_map UserRow.username
                         (usersRepository.row_by_id i (user_table db'))
                       = Some "testuser".
Proof.
  intros dto req.
  split; [reflexivity|]. split; [reflexivity|].
  refine (proj1 (@post_users_needs_no_bearer Sample.jwt_verify
                   Sample.bcrypt_hash Sample.db "s4" req dto "testuser"
                   "password123" eq_refl eq_refl _ _ eq_refl));
    discriminate.
Defined.

Lemma AuthService_validateUser_on_sample :
  usersRepository.row_by_username "nobody" (user_table Sample.db) = None
  /\ usersRepository.row_by_username "luke" (user_table Sample.db)
     = Some Sample.luke
  /\ Sample.bcrypt_compare "wrongpassword" (UserRow.password Sample.luke) = false
  /\ AuthService.validateUser Sample.bcrypt_compare "nobody" "usetheforce"
       Sample.db
     = AuthService.validateUser Sample.bcrypt_compare "luke" "wrongpassword"
         Sample.db.
Proof.
  split; [reflexivity|]. split; [reflexivity|]. split; [reflexivity|].
  exact (proj1 (proj2 (proj2
           (@AuthService_validateUser_failures_are_indistinguishable
              Sample.bcrypt_compare Sample.jwt_sign Sample.db "nobody" "luke"
              "usetheforce" "wrongpassword" Sample.luke
              eq_refl eq_refl eq_refl)))).
Defined.

Lemma findAllWithFilters_price_range_on_sample :
  let query := mkQuery None None (Some "true") (Some "10") (Some "30") in
  let lower_only := mkQuery None None None (Some "10") None in
  Sample.parseFloat "10" = Some (inject_Z 10)
  /\ Sample.parseFloat "30" = Some (inject_Z 30)
  /\ BooksService.findAllWithFilters Sample.parseFloat lower_only Sample.db
     = BooksService.findAllWithFilters Sample.parseFloat
         (without_price lower_only) Sample.db
  /\ exists unfiltered : list Book.t,
       BooksService.findAllWithFilters Sample.parseFloat (without_price query)
         Sample.db
       = (Return unfiltered, Sample.db)
       /\ BooksService.findAllWithFilters Sample.parseFloat query Sample.db
          = (Return (filter (price_within (inject_Z 10) (inject_Z 30))
                            unfiltered), Sample.db)
       /\ forall book,
            In book (filter (price_within (inject_Z 10) (inject_Z 30))
                            unfiltered)
            <-> In book unfiltered
                /\ exists p, Book.price book = Some p
                             /\ (inject_Z 10 <= p)%Q /\ (p <= inject_Z 30)%Q.
Proof.
  intros query lower_only.
  split; [reflexivity|]. split; [reflexivity|]. split.
  - exact (proj1 (findAllWithFilters_price_range Sample.parseFloat)
             lower_only Sample.db (or_intror eq_refl)).
  - refine (proj1 (proj2 (findAllWithFilters_price_range Sample.parseFloat))
              query Sample.db "10" "30" (inject_Z 10) (inject_Z 30)
              eq_refl eq_refl _ _ eq_refl eq_refl); discriminate.
Defined.

(** * Further properties of the code *)

(** ** The request authenticator *)

Lemma substring_whole (s : string) : substring 0 (String.length s) s = s.
Proof. induction s as [|c s IH]; cbn; [reflexivity|now rewrite IH]. Qed.

Lemma until_space_no_space (s : string) :
  has_space s = false -> JwtMiddleware.until_space s = s.
Proof.
  induction s as [|c s IH]; cbn; [reflexivity|].
  destruct (Ascii.eqb c " "); cbn; [discriminate|].
  intros H. now rewrite IH.
Qed.

Lemma until_space_stops (s rest : string) :
  has_space s = false ->
  JwtMiddleware.until_space (s ++ String " " rest) = s.
Proof.
  induction s as [|c s IH]; cbn; [reflexivity|].
  destruct (Ascii.eqb c " "); cbn; [discriminate|].
  intros H. now rewrite IH.
Qed.

Lemma token_of_Bearer (rest : string) :
  JwtMiddleware.token_of ("Bearer " ++ rest) = JwtMiddleware.until_space rest.
Proof.
  unfold JwtMiddleware.token_of. cbn. rewrite Nat.sub_0_r.
  now rewrite substring_whole.
Qed.

(** X1.  A request leaves [JwtMiddleware.use] only when its
    [Authorization] header starts with ["Bearer "] and the verifier
    accepts the token after it; the request handed on keeps the header
    and carries as [user] the object [{ id: decoded.sub }] and nothing
    else, whatever [user] the incoming request held. *)
Theorem JwtMiddleware_use_passes_only_verified_tokens
        (jwt_verify : string -> option JwtPayload) (req req' : Request) :
  JwtMiddleware.use jwt_verify req = Return req' ->
  exists (authHeader : string) (decoded : JwtPayload),
    authorization req = Some authHeader
    /\ prefix "Bearer " authHeader = true
    /\ jwt_verify (JwtMiddleware.token_of authHeader) = Some decoded
    /\ req' = mkRequest (Some authHeader)
                        (Some (User.mk (sub decoded) None None None)).
Proof.
  unfold JwtMiddleware.use.
  destruct (authorization req) as [authHeader|] eqn:Hheader; [|discriminate].
  destruct (truthy (Some authHeader)); cbn [negb orb]; [|discriminate].
  destruct (prefix "Bearer " authHeader) eqn:Hprefix; cbn [negb]; [|discriminate].
  destruct (jwt_verify (JwtMiddleware.token_of authHeader)) as [decoded|] eqn:Hv;
    [|discriminate].
  intros H. injection H as <-. exists authHeader, decoded. now repeat split.
Qed.

Lemma JwtMiddleware_use_passes_on_sample :
  let req := mkRequest (Some "Bearer token-3")
                       (Some (User.mk (Some 1) (Some "luke") None None)) in
  let req' := mkRequest (Some "Bearer token-3")
                        (Some (User.mk (Some 3) None None None)) in
  JwtMiddleware.use Sample.jwt_verify req = Return req'
  /\ exists (authHeader : string) (decoded : JwtPayload),
       authorization req = Some authHeader
       /\ prefix "Bearer " authHeader = true
       /\ Sample.jwt_verify (JwtMiddleware.token_of authHeader) = Some decoded
       /\ req' = mkRequest (Some authHeader)
                           (Some (User.mk (sub decoded) None None None)).
Proof.
  intros req req'. split; [reflexivity|].
  exact (@JwtMiddleware_use_passes_only_verified_tokens Sample.jwt_verify
           req req' eq_refl).
Defined.

(** X2.  For a token without a space, the header ["Bearer " ++ token]
    is accepted exactly when the verifier accepts [token], and then the
    request carries the token's [sub] as the user's id; text that
    follows the token after a space is not looked at. *)
Theorem JwtMiddleware_use_reads_the_token_back
        (jwt_verify : string -> option JwtPayload) (token rest : string)
        (attached : option User.t) :
  has_space token = false ->
  let outcome (authHeader : string) :=
    match jwt_verify token with
    | Some decoded =>
        Return (mkRequest (Some authHeader)
                          (Some (User.mk (sub decoded) None None None)))
    | None => Throw (UnauthorizedException "Invalid or expired token")
    end in
  JwtMiddleware.use jwt_verify (mkRequest (Some ("Bearer " ++ token)) attached)
  = outcome ("Bearer " ++ token)
  /\ JwtMiddleware.use jwt_verify
       (mkRequest (Some ("Bearer " ++ token ++ String " " rest)) attached)
     = outcome ("Bearer " ++ token ++ String " " rest).
Proof.
  intros Hspace outcome. unfold outcome, JwtMiddleware.use.
  cbn [authorization]. split.
  - rewrite token_of_Bearer, (until_space_no_space _ Hspace).
    cbn. now destruct token.
  - rewrite token_of_Bearer, (until_space_stops _ _ Hspace).
    cbn. now destruct token.
Qed.

Lemma JwtMiddleware_use_reads_the_token_back_on_sample :
  has_space "token-2" = false
  /\ JwtMiddleware.use Sample.jwt_verify
       (mkRequest (Some "Bearer token-2") None)
     = Return (mkRequest (Some "Bearer token-2")
                         (Some (User.mk (Some 2) None None None)))
  /\ JwtMiddleware.use Sample.jwt_verify
       (mkRequest (Some "Bearer token-2 and more") None)
     = Return (mkRequest (Some "Bearer token-2 and more")
                         (Some (User.mk (Some 2) None None None))).
Proof.
  split; [reflexivity|].
  exact (@JwtMiddleware_use_reads_the_token_back Sample.jwt_verify
           "token-2" "and more" None eq_refl).
Defined.

Lemma JwtMiddleware_use_throws_Unauthorized
      (jwt_verify : string -> option JwtPayload) (req : Request)
      (e : Exception) :
  JwtMiddleware.use jwt_verify req = Throw e ->
  instanceof_UnauthorizedException e = true.
Proof.
  unfold JwtMiddleware.use.
  destruct (authorization req) as [authHeader|];
    [|intros H; injection H as <-; reflexivity].
  destruct (negb (truthy (Some authHeader))
            || negb (prefix "Bearer " authHeader));
    [intros H; injection H as <-; reflexivity|].
  destruct (jwt_verify (JwtMiddleware.token_of authHeader));
    [discriminate|intros H; injection H as <-; reflexivity].
Qed.

(** X3.  The books module puts the middleware in front of the three
    mutating routes and of nothing else.  A request the middleware
    rejects never reaches [create], [update] or [remove]: the route
    answers with the middleware's [UnauthorizedException] and the
    database is as before.  The two [GET] routes run their handler
    whatever the request carries. *)
Theorem BooksModule_guards_the_mutating_routes
        (jwt_verify : string -> option JwtPayload)
        (parseFloat : string -> option Q)
        (req : Request) (e : Exception) (db : Database) :
  JwtMiddleware.use jwt_verify req = Throw e ->
  instanceof_UnauthorizedException e = true
  /\ (forall dto, BooksModule.post_books jwt_verify req dto db = (Throw e, db))
  /\ (forall id dto,
         BooksModule.patch_books_id jwt_verify req id dto db = (Throw e, db))
  /\ (forall id, BooksModule.delete_books_id jwt_verify req id db = (Throw e, db))
  /\ (forall query,
         BooksModule.get_books jwt_verify parseFloat req query db
         = BooksController.findAll parseFloat query db)
  /\ (forall id,
         BooksModule.get_books_id jwt_verify req id db
         = BooksController.findOne id db).
Proof.
  intros Huse. split; [now apply JwtMiddleware_use_throws_Unauthorized with (1 := Huse)|].
  unfold BooksModule.post_books, BooksModule.patch_books_id,
    BooksModule.delete_books_id, BooksModule.get_books,
    BooksModule.get_books_id, BooksModule.through, BooksModule.configure.
  cbn [BooksModule.excluded]. rewrite Huse. now repeat split.
Qed.

Lemma BooksModule_guards_on_sample :
  let req := mkRequest (Some "Bearer forged") None in
  let e := UnauthorizedException "Invalid or expired token" in
  JwtMiddleware.use Sample.jwt_verify req = Throw e
  /\ BooksModule.delete_books_id Sample.jwt_verify req 1 Sample.db
     = (Throw e, Sample.db)
  /\ BooksModule.get_books_id Sample.jwt_verify req 1 Sample.db
     = BooksController.findOne 1 Sample.db.
Proof.
  intros req e. split; [reflexivity|].
  pose proof (@BooksModule_guards_the_mutating_routes Sample.jwt_verify
                Sample.parseFloat req e Sample.db eq_refl)
    as (_ & _ & _ & Hdelete & _ & Hget).
  split; [apply Hdelete|apply Hget].
Defined.

(** ** Logging in *)

Lemma users_row_by_username_username (name : string) (rows : list UserRow.t)
      (r : UserRow.t) :
  usersRepository.row_by_username name rows = Some r ->
  UserRow.username r = name.
Proof.
  unfold usersRepository.row_by_username. intros H.
  apply find_some in H. destruct H as [_ H]. now apply String.eqb_eq.
Qed.

Lemma AuthService_validateUser_run
      (bcrypt_compare : string -> string -> bool) (db : Database)
      (username pass : string) :
  AuthService.validateUser bcrypt_compare username pass db
  = (match usersRepository.row_by_username username (user_table db) with
     | Some row =>
         if bcrypt_compare pass (UserRow.password row)
         then Return (AuthService.without_password (UserRow.entity row))
         else Throw (UnauthorizedException "Invalid username or password")
     | None => Throw (UnauthorizedException "Invalid username or password")
     end, db).
Proof.
  unfold AuthService.validateUser, UsersService.findByUsername, try_catch,
    await, resolve, reject, usersRepository.findOne_username.
  destruct (usersRepository.row_by_username username (user_table db)) as [row|];
    cbn; [|reflexivity].
  now destruct (bcrypt_compare pass (UserRow.password row)).
Qed.

(** X4.  [AuthService.validateUser] returns a user only for a stored
    username whose stored digest bcrypt accepts for the password given;
    what it returns is that row without its [password], and the
    database is untouched. *)
Theorem AuthService_validateUser_returns_only_verified_users
        (bcrypt_compare : string -> string -> bool) (db db' : Database)
        (username pass : string) (validated : User.t) :
  AuthService.validateUser bcrypt_compare username pass db
  = (Return validated, db') ->
  db' = db
  /\ User.password validated = None
  /\ exists row : UserRow.t,
       usersRepository.row_by_username username (user_table db) = Some row
       /\ bcrypt_compare pass (UserRow.password row) = true
       /\ validated = User.mk (Some (UserRow.id row)) (Some username) None
                              (Some (UserRow.authorPseudonym row)).
Proof.
  rewrite AuthService_validateUser_run.
  destruct (usersRepository.row_by_username username (user_table db))
    as [row|] eqn:Hrow; [|discriminate].
  destruct (bcrypt_compare pass (UserRow.password row)) eqn:Hpass;
    [|discriminate].
  intros H. injection H as <- <-.
  split; [reflexivity|]. split; [reflexivity|].
  exists row. repeat split; trivial.
  unfold AuthService.without_password, UserRow.entity. cbn.
  now rewrite (users_row_by_username_username _ _ Hrow).
Qed.

Lemma AuthService_validateUser_returns_on_sample :
  let validated := User.mk (Some 1) (Some "luke") None (Some "luke") in
  AuthService.validateUser Sample.bcrypt_compare "luke" "usetheforce" Sample.db
  = (Return validated, Sample.db)
  /\ User.password validated = None
  /\ exists row : UserRow.t,
       usersRepository.row_by_username "luke" (user_table Sample.db) = Some row
       /\ Sample.bcrypt_compare "usetheforce" (UserRow.password row) = true
       /\ validated = User.mk (Some (UserRow.id row)) (Some "luke") None
                              (Some (UserRow.authorPseudonym row)).
Proof.
  intros validated. split; [reflexivity|].
  exact (proj2 (@AuthService_validateUser_returns_only_verified_users
                  Sample.bcrypt_compare Sample.db Sample.db "luke"
                  "usetheforce" validated eq_refl)).
Defined.

(** X5.  Logging in and presenting the token: for a stored user and
    the right password, with a signer whose token for the payload
    [{ username, sub: id }] has no space and verifies back to that
    payload, [AuthController.login] returns the signed token, and
    [JwtMiddleware.use] turns the header ["Bearer " ++ token] into a
    request whose user is [{ id }] of that very user. *)
Theorem login_token_authenticates_its_user
        (bcrypt_compare : string -> string -> bool)
        (jwt_sign : JwtPayload -> string)
        (jwt_verify : string -> option JwtPayload)
        (db : Database) (username pass : string) (row : UserRow.t) :
  usersRepository.row_by_username username (user_table db) = Some row ->
  bcrypt_compare pass (UserRow.password row) = true ->
  let payload := mkJwtPayload (Some username) (Some (UserRow.id row)) in
  jwt_verify (jwt_sign payload) = Some payload ->
  has_space (jwt_sign payload) = false ->
  AuthController.login bcrypt_compare jwt_sign (mkLoginDto username pass) db
  = (Return (jwt_sign payload), db)
  /\ JwtMiddleware.use jwt_verify
       (mkRequest (Some ("Bearer " ++ jwt_sign payload)) None)
     = Return (mkRequest (Some ("Bearer " ++ jwt_sign payload))
                         (Some (User.mk (Some (UserRow.id row)) None None None))).
Proof.
  intros Hrow Hpass payload Hverify Hspace. split.
  - unfold AuthController.login, try_returning, try_catch, await, resolve.
    cbn [login_username login_password].
    rewrite AuthService_validateUser_run, Hrow, Hpass.
    unfold AuthService.login, try_catch, resolve,
      AuthService.without_password, UserRow.entity. cbn.
    now rewrite (users_row_by_username_username _ _ Hrow).
  - unfold JwtMiddleware.use. cbn [authorization].
    rewrite token_of_Bearer, (until_space_no_space _ Hspace), Hverify.
    cbn. now destruct (jwt_sign payload).
Qed.

Lemma login_token_authenticates_on_sample :
  let payload := mkJwtPayload (Some "leia") (Some 3) in
  usersRepository.row_by_username "leia" (user_table Sample.db)
  = Some Sample.leia
  /\ Sample.bcrypt_compare "alderaan" (UserRow.password Sample.leia) = true
  /\ Sample.jwt_verify (Sample.jwt_sign payload) = Some payload
  /\ has_space (Sample.jwt_sign payload) = false
  /\ AuthController.login Sample.bcrypt_compare Sample.jwt_sign
       (mkLoginDto "leia" "alderaan") Sample.db
     = (Return "token-3", Sample.db)
  /\ JwtMiddleware.use Sample.jwt_verify
       (mkRequest (Some "Bearer token-3") None)
     = Return (mkRequest (Some "Bearer token-3")
                         (Some (User.mk (Some 3) None None None))).
Proof.
  intros payload.
  split; [reflexivity|]. split; [reflexivity|]. split; [reflexivity|].
  split; [reflexivity|].
  exact (@login_token_authenticates_its_user Sample.bcrypt_compare
           Sample.jwt_sign Sample.jwt_verify Sample.db "leia" "alderaan"
           Sample.leia eq_refl eq_refl eq_refl eq_refl).
Defined.

(** ** The user table stays well formed *)

Lemma conflicts_false (r : UserRow.t) (others : list UserRow.t) :
  usersRepository.conflicts r others = false ->
  forall o, In o others ->
            UserRow.id o <> UserRow.id r
            /\ UserRow.username o <> UserRow.username r.
Proof.
  unfold usersRepository.conflicts. intros H o Ho.
  assert (Hall : forall x, In x others ->
                   (Nat.eqb (UserRow.id x) (UserRow.id r)
                    || String.eqb (UserRow.username x) (UserRow.username r))
                   = false).
  { intros x Hx.
    destruct (Nat.eqb (UserRow.id x) (UserRow.id r)
              || String.eqb (UserRow.username x) (UserRow.username r)) eqn:E;
      [|reflexivity].
    rewrite <- H. symmetry. apply existsb_exists. now exists x. }
  specialize (Hall o Ho). apply Bool.orb_false_iff in Hall.
  destruct Hall as [H1 H2]. split.
  - now apply Nat.eqb_neq.
  - now apply String.eqb_neq.
Qed.

Lemma NoDup_snoc {A} (l : list A) (a : A) :
  NoDup l -> ~ In a l -> NoDup (l ++ [a]).
Proof.
  induction l as [|x l IH]; cbn; intros Hl Ha.
  - constructor; [easy|constructor].
  - inversion Hl as [|? ? Hx Hl']; subst. constructor.
    + rewrite in_app_iff. cbn. intros [H|[H|[]]]; [easy|].
      apply Ha. now left.
    + apply IH; [assumption|]. intros H. apply Ha. now right.
Qed.

Lemma NoDup_map_without {K} (key : UserRow.t -> K) (i : nat)
      (rows : list UserRow.t) :
  NoDup (map key rows) ->
  NoDup (map key (usersRepository.without i rows)).
Proof.
  unfold usersRepository.without.
  induction rows as [|x rows IH]; cbn; intros H; [constructor|].
  inversion H as [|? ? Hx Hrows]; subst.
  destruct (negb (Nat.eqb (UserRow.id x) i)); cbn; [|now apply IH].
  constructor; [|now apply IH].
  intros Hin. apply Hx. apply in_map_iff in Hin.
  destruct Hin as (y & Hy & Hyin). apply filter_In in Hyin.
  apply in_map_iff. exists y. now split.
Qed.

Lemma users_replace_absent (i : nat) (r' : UserRow.t) (rows : list UserRow.t) :
  ~ In i (map UserRow.id rows) ->
  usersRepository.replace i r' rows = rows.
Proof.
  unfold usersRepository.replace.
  induction rows as [|x rows IH]; cbn; [reflexivity|]. intros H.
  destruct (Nat.eqb_spec (UserRow.id x) i) as [E|E].
  - exfalso. apply H. now left.
  - f_equal. apply IH. intros Hin. apply H. now right.
Qed.

Lemma users_replace_In (i : nat) (r' y : UserRow.t) (rows : list UserRow.t) :
  In y (usersRepository.replace i r' rows) -> In y rows \/ y = r'.
Proof.
  unfold usersRepository.replace. intros H. apply in_map_iff in H.
  destruct H as (x & Hx & Hin).
  destruct (Nat.eqb (UserRow.id x) i); [right|left]; congruence.
Qed.

Lemma NoDup_map_replace {K} (f : UserRow.t -> K) (i : nat) (r' : UserRow.t)
      (rows : list UserRow.t) :
  NoDup (map UserRow.id rows) ->
  NoDup (map f rows) ->
  (forall o, In o (usersRepository.without i rows) -> f o <> f r') ->
  NoDup (map f (usersRepository.replace i r' rows)).
Proof.
  induction rows as [|x rows IH]; intros Hid Hf Hother; [constructor|].
  cbn in Hid, Hf. inversion Hid as [|? ? Hxid Hid']; subst.
  inversion Hf as [|? ? Hxf Hf']; subst.
  assert (Hsub : forall o, In o rows -> UserRow.id o <> i ->
                           In o (usersRepository.without i (x :: rows))).
  { intros o Ho Hne. unfold usersRepository.without. apply filter_In.
    split; [now right|]. apply Bool.negb_true_iff. now apply Nat.eqb_neq. }
  unfold usersRepository.replace. cbn.
  fold (usersRepository.replace i r' rows).
  destruct (Nat.eqb_spec (UserRow.id x) i) as [E|E].
  - rewrite users_replace_absent by (now rewrite <- E).
    constructor; [|assumption].
    intros Hin. apply in_map_iff in Hin. destruct Hin as (o & Ho & Hoin).
    apply (Hother o); [|assumption].
    apply Hsub; [assumption|]. intros Hoid. apply Hxid. rewrite E, <- Hoid.
    now apply in_map.
  - constructor.
    + intros Hin. apply in_map_iff in Hin. destruct Hin as (y & Hy & Hyin).
      apply users_replace_In in Hyin. destruct Hyin as [Hyin| ->].
      * apply Hxf. rewrite <- Hy. now apply in_map.
      * apply (Hother x); [|now symmetry].
        unfold usersRepository.without. apply filter_In.
        split; [now left|]. apply Bool.negb_true_iff. now apply Nat.eqb_neq.
    + apply IH; trivial. intros o Ho. apply Hother.
      unfold usersRepository.without in *. apply filter_In in Ho.
      destruct Ho as [Ho Hp]. apply filter_In. split; [now right|assumption].
Qed.

Lemma write_existing_unique (i : nat) (r : UserRow.t) (u : User.t)
      (db : Database) :
  unique_users db ->
  unique_users (snd (usersRepository.write_existing i r u db)).
Proof.
  intros [Hid Hname]. unfold usersRepository.write_existing.
  destruct (usersRepository.conflicts (usersRepository.patch r u)
              (usersRepository.without i (user_table db))) eqn:Hconf;
    [now split|].
  pose proof (conflicts_false _ _ Hconf) as Hfree.
  cbv zeta.
  destruct (negb (Nat.eqb (UserRow.id (usersRepository.patch r u)) i)
            && usersRepository.referenced i (book_table db));
    [now split|].
  split; cbn; apply NoDup_map_replace; trivial; intros o Ho;
    now destruct (Hfree o Ho).
Qed.

Lemma insert_unique (u : User.t) (db : Database) :
  unique_users db -> unique_users (snd (usersRepository.insert u db)).
Proof.
  intros [Hid Hname]. unfold usersRepository.insert.
  destruct (User.username u) as [name|]; [|now split].
  destruct (User.password u) as [pw|]; [|now split].
  destruct (User.authorPseudonym u) as [pseudonym|]; [|now split].
  cbv zeta.
  match goal with
  | |- context [usersRepository.conflicts ?r ?l] =>
      destruct (usersRepository.conflicts r l) eqn:Hconf; [now split|];
      pose proof (conflicts_false _ _ Hconf) as Hfree
  end.
  split; cbn; rewrite map_app; cbn; apply NoDup_snoc; trivial;
    intros Hin; apply in_map_iff in Hin; destruct Hin as (o & Ho & Hoin);
    destruct (Hfree o Hoin) as [H1 H2]; contradiction.
Qed.

Lemma save_unique (u : User.t) (db : Database) :
  unique_users db -> unique_users (snd (usersRepository.save u db)).
Proof.
  intros H. unfold usersRepository.save.
  destruct (User.id u) as [i|]; [|now apply insert_unique].
  destruct (usersRepository.row_by_id i (user_table db)) as [r|];
    [|now apply insert_unique].
  unfold await, resolve.
  pose proof (write_existing_unique i r u H) as Hw.
  destruct (usersRepository.write_existing i r u db) as [[[]|e] db1]; exact Hw.
Qed.

Lemma repository_update_unique (i : nat) (u : User.t) (db : Database) :
  unique_users db -> unique_users (snd (usersRepository.update i u db)).
Proof.
  intros H. unfold usersRepository.update.
  destruct (usersRepository.no_values u); [exact H|].
  destruct (usersRepository.row_by_id i (user_table db)) as [r|]; [|exact H].
  now apply write_existing_unique.
Qed.

Lemma repository_delete_unique (i : nat) (db : Database) :
  unique_users db -> unique_users (snd (usersRepository.delete i db)).
Proof.
  intros H. unfold usersRepository.delete.
  destruct (usersRepository.row_by_id i (user_table db)); [|exact H].
  destruct (usersRepository.referenced i (book_table db)); [exact H|].
  destruct H as [Hid Hname].
  split; cbn; now apply NoDup_map_without.
Qed.

(** X6.  Whatever they are given and however they end, registration,
    profile update and account deletion leave a user table in which no
    two rows share an id and no two rows share a username, when they
    started from such a table. *)
Theorem UsersService_keeps_users_unique
        (bcrypt_hash : string -> nat -> string -> string) (db : Database) :
  unique_users db ->
  (forall salt user,
      unique_users (snd (UsersService.create bcrypt_hash salt user db)))
  /\ (forall id updateData,
         unique_users (snd (UsersService.update id updateData db)))
  /\ (forall id, unique_users (snd (UsersService.delete id db))).
Proof.
  intros H. split; [|split].
  - intros salt u. unfold UsersService.create, try_catch, await, resolve, reject.
    destruct (negb (truthy (User.username u)) || negb (truthy (User.password u)));
      [exact H|].
    match goal with
    | |- context [usersRepository.save ?x db] =>
        pose proof (save_unique x H) as Hs;
        destruct (usersRepository.save x db) as [[saved|e] db1]
    end; cbn in *; [exact Hs|].
    now destruct (instanceof_BadRequestException e).
  - intros id data.
    unfold UsersService.update, UsersService.findById, try_catch, await,
      resolve, reject, usersRepository.findOne_id.
    destruct id as [i|]; cbn [usersRepository.row_where_id];
      [|destruct (hd_error (user_table db)); exact H].
    destruct (usersRepository.row_by_id i (user_table db)) as [r|]; [|exact H].
    cbn [option_map].
    pose proof (repository_update_unique i data H) as Hu.
    destruct (usersRepository.update i data db) as [[[]|e] db1]; cbn in *.
    + destruct (usersRepository.row_by_id i (user_table db1)); exact Hu.
    + now destruct (instanceof_NotFoundException e).
  - intros id.
    unfold UsersService.delete, try_catch, await, resolve, reject.
    destruct id as [i|]; [|exact H].
    pose proof (repository_delete_unique i H) as Hd.
    destruct (usersRepository.delete i db) as [[n|e] db1]; cbn in *.
    + now destruct (Nat.eqb n 0).
    + now destruct (instanceof_NotFoundException e).
Qed.

Lemma Sample_users_unique : unique_users Sample.db.
Proof.
  split; cbn; repeat constructor; cbn; intuition discriminate.
Defined.

Lemma UsersService_keeps_users_unique_on_sample :
  unique_users Sample.db
  /\ unique_users
       (snd (UsersService.update (Some 1)
               (User.mk None (Some "han") (Some "falcon") None) Sample.db))
  /\ unique_users
       (snd (UsersService.update (Some 1)
               (User.mk (Some 3) (Some "leia") None None) Sample.db)).
Proof.
  split; [exact Sample_users_unique|].
  pose proof (@UsersService_keeps_users_unique Sample.bcrypt_hash Sample.db
                Sample_users_unique) as (_ & Hupdate & _).
  split; apply Hupdate.
Defined.

(** ** Registration, profile and deletion *)

Lemma users_row_by_username_new (name : string) (r : UserRow.t)
      (rows : list UserRow.t) :
  usersRepository.row_by_username name rows = None ->
  UserRow.username r = name ->
  usersRepository.row_by_username name (rows ++ [r]) = Some r.
Proof.
  unfold usersRepository.row_by_username. intros Hnone Hname.
  induction rows as [|x rows IH]; cbn in *.
  - now rewrite Hname, String.eqb_refl.
  - destruct (String.eqb (UserRow.username x) name); [discriminate|].
    now apply IH.
Qed.

Lemma users_row_by_id_replace_other (i j : nat) (r' : UserRow.t)
      (rows : list UserRow.t) :
  j <> i ->
  UserRow.id r' = i ->
  usersRepository.row_by_id j (usersRepository.replace i r' rows)
  = usersRepository.row_by_id j rows.
Proof.
  unfold usersRepository.row_by_id, usersRepository.replace.
  intros Hne Hid. induction rows as [|x rows IH]; cbn; [reflexivity|].
  destruct (Nat.eqb_spec (UserRow.id x) i) as [E|E]; cbn.
  - rewrite Hid, E.
    destruct (Nat.eqb_spec i j) as [E'|_]; [congruence|]. exact IH.
  - destruct (Nat.eqb (UserRow.id x) j); [reflexivity|exact IH].
Qed.


Lemma UsersService_findById_run (id : option nat) (db : Database) :
  UsersService.findById id db
  = (match id with
     | Some i =>
         match usersRepository.row_by_id i (user_table db) with
         | Some r => Return (UserRow.entity r)
         | None => Throw (NotFoundException "User not found")
         end
     | None =>
         match hd_error (user_table db) with
         | Some r => Return (UserRow.entity r)
         | None => Throw (NotFoundException "User not found")
         end
     end, db).
Proof.
  unfold UsersService.findById, try_catch, await, resolve, reject,
    usersRepository.findOne_id.
  destruct id as [i|]; cbn [usersRepository.row_where_id].
  - now destruct (usersRepository.row_by_id i (user_table db)).
  - now destruct (hd_error (user_table db)).
Qed.

Lemma repository_update_throws (i : nat) (u : User.t) (db db' : Database)
      (e : Exception) :
  usersRepository.update i u db = (Throw e, db') ->
  db' = db /\ instanceof_NotFoundException e = false
  /\ instanceof_BadRequestException e = false.
Proof.
  unfold usersRepository.update, usersRepository.write_existing.
  destruct (usersRepository.no_values u);
    [intros H; injection H as <- <-; now repeat split|].
  destruct (usersRepository.row_by_id i (user_table db)) as [r|];
    [|discriminate].
  cbv zeta.
  destruct (usersRepository.conflicts _ _);
    [intros H; injection H as <- <-; now repeat split|].
  destruct (negb _ && _); [|discriminate].
  intros H; injection H as <- <-; now repeat split.
Qed.

Lemma UsersService_update_run (i : nat) (updateData : User.t) (db : Database) :
  UsersService.update (Some i) updateData db
  = match usersRepository.row_by_id i (user_table db) with
    | None => (Throw (NotFoundException "User not found"), db)
    | Some _ =>
        match usersRepository.update i updateData db with
        | (Throw _, _) =>
            (Throw (InternalServerErrorException
                      "An error occurred while updating the user"), db)
        | (Return _, db1) =>
            (match usersRepository.row_by_id i (user_table db1) with
             | Some r' => Return (UserRow.entity r')
             | None => Throw (NotFoundException "User not found")
             end, db1)
        end
    end.
Proof.
  unfold UsersService.update, try_catch, await, resolve, reject.
  rewrite UsersService_findById_run.
  destruct (usersRepository.row_by_id i (user_table db)) as [r|];
    [|reflexivity].
  destruct (usersRepository.update i updateData db) as [[[]|e] db1] eqn:Hu.
  - rewrite UsersService_findById_run.
    now destruct (usersRepository.row_by_id i (user_table db1)).
  - destruct (repository_update_throws _ _ _ Hu) as (-> & Hnf & _).
    now rewrite Hnf.
Qed.

(** X7.  Registering and then logging in: for a non-empty username that
    is not taken, a non-empty password, and a bcrypt whose [compare]
    accepts the digest [hash] produced for that password,
    [UsersController.createUser] succeeds and
    [AuthService.validateUser] then accepts the same username and
    password, returning the created user without the password. *)
Theorem register_then_validateUser
        (bcrypt_hash : string -> nat -> string -> string)
        (bcrypt_compare : string -> string -> bool)
        (db : Database) (salt name plaintext : string) :
  name <> "" ->
  plaintext <> "" ->
  usersRepository.row_by_username name (user_table db) = None ->
  bcrypt_compare plaintext (bcrypt_hash plaintext 10 salt) = true ->
  exists (created : User.t) (db' : Database),
    UsersController.createUser bcrypt_hash salt
      (mkCreateUserDto (Some name) (Some plaintext)) db
    = (Return created, db')
    /\ User.password created = Some (bcrypt_hash plaintext 10 salt)
    /\ AuthService.validateUser bcrypt_compare name plaintext db'
       = (Return (AuthService.without_password created), db').
Proof.
  intros Hname Hpw Hfresh Hcontract.
  pose proof Hname as Hname'. pose proof Hpw as Hpw'.
  apply String.eqb_neq in Hname', Hpw'.
  unfold UsersController.createUser, UsersService.create, try_catch, await,
    resolve.
  cbn [create_username create_password User.id User.username User.password
       User.authorPseudonym truthy get_or].
  rewrite Hname', Hpw'. cbn [negb orb].
  unfold usersRepository.save, usersRepository.insert.
  cbn [User.id User.username User.password User.authorPseudonym get_or].
  set (i := next_id (user_sequence db) (map UserRow.id (user_table db))).
  set (digest := bcrypt_hash plaintext 10 salt).
  assert (Hconf : usersRepository.conflicts (UserRow.mk i name digest name)
                    (user_table db) = false).
  { apply existsb_false. intros o Ho. cbn. unfold i.
    rewrite (next_id_is_new (user_sequence db) _ _ Ho). cbn.
    unfold usersRepository.row_by_username in Hfresh.
    exact (find_none _ _ Hfresh o Ho). }
  rewrite Hconf. eexists. eexists. split; [reflexivity|].
  split; [reflexivity|].
  rewrite AuthService_validateUser_run.
  cbn [user_table usersRepository.set_table].
  rewrite (@users_row_by_username_new name (UserRow.mk i name digest name))
    by trivial.
  cbn [UserRow.password]. fold digest in Hcontract. rewrite Hcontract.
  reflexivity.
Qed.

Lemma register_then_validateUser_on_sample :
  usersRepository.row_by_username "han" (user_table Sample.db) = None
  /\ Sample.bcrypt_compare "falcon" (Sample.bcrypt_hash "falcon" 10 "s9") = true
  /\ exists (created : User.t) (db' : Database),
       UsersController.createUser Sample.bcrypt_hash "s9"
         (mkCreateUserDto (Some "han") (Some "falcon")) Sample.db
       = (Return created, db')
       /\ User.password created = Some (Sample.bcrypt_hash "falcon" 10 "s9")
       /\ AuthService.validateUser Sample.bcrypt_compare "han" "falcon" db'
          = (Return (AuthService.without_password created), db').
Proof.
  split; [reflexivity|]. split; [reflexivity|].
  refine (@register_then_validateUser Sample.bcrypt_hash Sample.bcrypt_compare
            Sample.db "s9" "han" "falcon" _ _ eq_refl eq_refl); discriminate.
Defined.

(** X8.  Registration without a username or without a password, the
    empty string included, writes nothing: [UsersService.create] throws
    [BadRequestException], which [UsersController.createUser] turns
    into [InternalServerErrorException]. *)
Theorem registration_requires_username_and_password
        (bcrypt_hash : string -> nat -> string -> string)
        (db : Database) (salt : string) (dto : CreateUserDto) :
  truthy (create_username dto) = false \/ truthy (create_password dto) = false ->
  UsersService.create bcrypt_hash salt
    (User.mk None (create_username dto) (create_password dto)
             (create_username dto)) db
  = (Throw (BadRequestException "Username and password are required"), db)
  /\ UsersController.createUser bcrypt_hash salt dto db
     = (Throw (InternalServerErrorException
                 "An error occurred while creating the user"), db).
Proof.
  intros H.
  assert (Hservice :
            UsersService.create bcrypt_hash salt
              (User.mk None (create_username dto) (create_password dto)
                       (create_username dto)) db
            = (Throw (BadRequestException "Username and password are required"),
               db)).
  { unfold UsersService.create, try_catch, reject.
    cbn [User.username User.password].
    destruct H as [H|H]; rewrite H; cbn; [|rewrite Bool.orb_true_r]; reflexivity. }
  split; [exact Hservice|].
  unfold UsersController.createUser, try_catch, await. now rewrite Hservice.
Qed.

Lemma registration_requires_password_on_sample :
  let dto := mkCreateUserDto (Some "han") (Some "") in
  (truthy (create_username dto) = false \/ truthy (create_password dto) = false)
  /\ UsersController.createUser Sample.bcrypt_hash "s9" dto Sample.db
     = (Throw (InternalServerErrorException
                 "An error occurred while creating the user"), Sample.db).
Proof.
  intros dto. split; [right; reflexivity|].
  exact (proj2 (@registration_requires_username_and_password
                  Sample.bcrypt_hash Sample.db "s9" dto (or_intror eq_refl))).
Defined.

(** X9.  Registration under a username some row already holds, with a
    non-empty password, fails with [InternalServerErrorException] in the
    service and in the handler, and the database is as before. *)
Theorem registration_rejects_a_taken_username
        (bcrypt_hash : string -> nat -> string -> string)
        (db : Database) (salt name plaintext : string) (holder : UserRow.t) :
  name <> "" ->
  plaintext <> "" ->
  usersRepository.row_by_username name (user_table db) = Some holder ->
  UsersService.create bcrypt_hash salt
    (User.mk None (Some name) (Some plaintext) (Some name)) db
  = (Throw (InternalServerErrorException
              "An error occurred while creating the user"), db)
  /\ UsersController.createUser bcrypt_hash salt
       (mkCreateUserDto (Some name) (Some plaintext)) db
     = (Throw (InternalServerErrorException
                 "An error occurred while creating the user"), db).
Proof.
  intros Hname Hpw Hholder. apply String.eqb_neq in Hname, Hpw.
  assert (Hservice :
            UsersService.create bcrypt_hash salt
              (User.mk None (Some name) (Some plaintext) (Some name)) db
            = (Throw (InternalServerErrorException
                        "An error occurred while creating the user"), db)).
  { unfold UsersService.create, try_catch, await, resolve, reject.
    cbn [User.id User.username User.password User.authorPseudonym truthy get_or].
    rewrite Hname, Hpw. cbn [negb orb].
    unfold usersRepository.save, usersRepository.insert.
    cbn [User.id User.username User.password User.authorPseudonym get_or].
    match goal with
    | |- context [usersRepository.conflicts ?r ?l] =>
        assert (Hconf : usersRepository.conflicts r l = true)
    end.
    { apply existsb_exists. exists holder.
      unfold usersRepository.row_by_username in Hholder.
      apply find_some in Hholder. destruct Hholder as [Hin Heq].
      split; [exact Hin|]. cbn. rewrite Heq. apply Bool.orb_true_r. }
    rewrite Hconf. reflexivity. }
  split; [exact Hservice|].
  unfold UsersController.createUser, try_catch, await.
  cbn [create_username create_password]. now rewrite Hservice.
Qed.

Lemma registration_rejects_a_taken_username_on_sample :
  usersRepository.row_by_username "leia" (user_table Sample.db)
  = Some Sample.leia
  /\ UsersController.createUser Sample.bcrypt_hash "s9"
       (mkCreateUserDto (Some "leia") (Some "organa")) Sample.db
     = (Throw (InternalServerErrorException
                 "An error occurred while creating the user"), Sample.db).
Proof.
  split; [reflexivity|].
  refine (proj2 (@registration_rejects_a_taken_username Sample.bcrypt_hash
                   Sample.db "s9" "leia" "organa" Sample.leia _ _ eq_refl));
    discriminate.
Defined.

Lemma UsersController_getProfile_run (req : Request) (caller : User.t)
      (db : Database) :
  user req = Some caller ->
  UsersController.getProfile req db
  = (match User.id caller with
     | Some i =>
         match usersRepository.row_by_id i (user_table db) with
         | Some r => Return (UserRow.entity r)
         | None => Throw (InternalServerErrorException
                            "An error occurred while fetching the user profile")
         end
     | None =>
         match hd_error (user_table db) with
         | Some r => Return (UserRow.entity r)
         | None => Throw (InternalServerErrorException
                            "An error occurred while fetching the user profile")
         end
     end, db).
Proof.
  intros Hreq.
  unfold UsersController.getProfile, UsersController.req_user_id, try_catch,
    await, resolve, reject.
  rewrite Hreq, UsersService_findById_run.
  destruct (User.id caller) as [i|].
  - now destruct (usersRepository.row_by_id i (user_table db)).
  - now destruct (hd_error (user_table db)).
Qed.

Lemma profile_update_has_no_conflict (db : Database) (i : nat)
      (row : UserRow.t) (updateData : User.t) :
  NoDup (map UserRow.username (user_table db)) ->
  usersRepository.row_by_id i (user_table db) = Some row ->
  User.id updateData = None ->
  (forall name, User.username updateData = Some name ->
                usersRepository.row_by_username name (user_table db) = None) ->
  usersRepository.conflicts
    (usersRepository.patch row updateData)
    (usersRepository.without i (user_table db)) = false.
Proof.
  intros Hunique Hrow Hnoid Hfree.
  pose proof (users_row_by_id_id _ _ Hrow) as Hrid.
  apply existsb_false. intros o Ho.
  unfold usersRepository.patch. cbn [UserRow.id UserRow.username].
  rewrite Hnoid. cbn [get_or].
  assert (Hoid : Nat.eqb (UserRow.id o) (UserRow.id row) = false).
  { unfold usersRepository.without in Ho. apply filter_In in Ho.
    destruct Ho as [_ Ho]. apply Bool.negb_true_iff in Ho. now rewrite Hrid. }
  rewrite Hoid. cbn [orb].
  destruct (User.username updateData) as [name|] eqn:Hname; cbn [get_or].
  - specialize (Hfree name eq_refl).
    unfold usersRepository.row_by_username in Hfree.
    unfold usersRepository.without in Ho. apply filter_In in Ho.
    exact (find_none _ _ Hfree o (proj1 Ho)).
  - now apply unique_username_no_conflict with (i := i) (rows := user_table db).
Qed.

(** X10.  A profile update whose body carries no [id], at least one of
    [username], [password] and [authorPseudonym], and no username other
    than a free one, succeeds; reading the profile afterwards returns
    what the update returned, the caller's row with the supplied
    properties written over it as they were sent; the book table and
    every other user row are as before. *)
Theorem updateProfile_then_getProfile
        (db : Database) (req : Request) (caller : User.t) (i : nat)
        (row : UserRow.t) (updateData : UpdateUserDto) :
  NoDup (map UserRow.username (user_table db)) ->
  user req = Some caller ->
  User.id caller = Some i ->
  usersRepository.row_by_id i (user_table db) = Some row ->
  User.id updateData = None ->
  (User.username updateData <> None \/ User.password updateData <> None
   \/ User.authorPseudonym updateData <> None) ->
  (forall name, User.username updateData = Some name ->
                usersRepository.row_by_username name (user_table db) = None) ->
  let updated :=
    UserRow.mk i (get_or (User.username updateData) (UserRow.username row))
               (get_or (User.password updateData) (UserRow.password row))
               (get_or (User.authorPseudonym updateData)
                       (UserRow.authorPseudonym row)) in
  exists db' : Database,
    UsersController.updateProfile req updateData db
    = (Return (UserRow.entity updated), db')
    /\ UsersController.getProfile req db' = (Return (UserRow.entity updated), db')
    /\ book_table db' = book_table db
    /\ forall j, j <> i ->
                 usersRepository.row_by_id j (user_table db')
                 = usersRepository.row_by_id j (user_table db).
Proof.
  intros Hunique Hreq Hid Hrow Hnoid Hsome Hfree updated.
  pose proof (users_row_by_id_id _ _ Hrow) as Hrid.
  pose proof (@profile_update_has_no_conflict db i row updateData Hunique Hrow
                Hnoid Hfree) as Hconf.
  assert (Hpatch : usersRepository.patch row updateData = updated)
    by (unfold updated, usersRepository.patch; rewrite Hnoid; cbn;
        now rewrite Hrid).
  rewrite Hpatch in Hconf.
  assert (Hvalues : usersRepository.no_values updateData = false).
  { unfold usersRepository.no_values. rewrite Hnoid.
    destruct (User.username updateData), (User.password updateData),
      (User.authorPseudonym updateData); trivial.
    destruct Hsome as [H|[H|H]]; now contradiction H. }
  set (db' := usersRepository.set_table
                (usersRepository.replace i updated (user_table db))
                (Nat.max (user_sequence db) (UserRow.id updated)) db).
  assert (Hfound : usersRepository.row_by_id i (user_table db') = Some updated)
    by (cbn; now apply users_row_by_id_replace with (r := row)).
  assert (Hupdate : usersRepository.update i updateData db = (Return tt, db')).
  { unfold usersRepository.update, usersRepository.write_existing.
    rewrite Hvalues, Hrow. cbv zeta. rewrite Hpatch, Hconf.
    replace (UserRow.id updated) with i by reflexivity.
    now rewrite Nat.eqb_refl. }
  exists db'. split; [|split; [|split]].
  - unfold UsersController.updateProfile, UsersController.req_user_id,
      try_catch, await, resolve.
    rewrite Hreq, Hid, UsersService_update_run, Hrow, Hupdate, Hfound.
    reflexivity.
  - rewrite (UsersController_getProfile_run _ _ Hreq), Hid, Hfound. reflexivity.
  - reflexivity.
  - intros j Hj. cbn. now apply users_row_by_id_replace_other.
Qed.

Lemma updateProfile_then_getProfile_on_sample :
  let updateData := User.mk None (Some "skywalker") None (Some "Luke S.") in
  let updated := UserRow.mk 1 "skywalker" "$2b$s1$usetheforce" "Luke S." in
  usersRepository.row_by_id 1 (user_table Sample.db) = Some Sample.luke
  /\ usersRepository.row_by_username "skywalker" (user_table Sample.db) = None
  /\ exists db' : Database,
       UsersController.updateProfile (Sample.acting 1) updateData Sample.db
       = (Return (UserRow.entity updated), db')
       /\ UsersController.getProfile (Sample.acting 1) db'
          = (Return (UserRow.entity updated), db')
       /\ book_table db' = book_table Sample.db
       /\ forall j, j <> 1 ->
                    usersRepository.row_by_id j (user_table db')
                    = usersRepository.row_by_id j (user_table Sample.db).
Proof.
  intros updateData updated. split; [reflexivity|]. split; [reflexivity|].
  refine (@updateProfile_then_getProfile Sample.db (Sample.acting 1)
            (User.mk (Some 1) None None None) 1 Sample.luke updateData
            Sample_usernames_unique eq_refl eq_refl eq_refl eq_refl _ _).
  - left. discriminate.
  - intros name H. injection H as <-. reflexivity.
Defined.

(** X11.  Two profile updates the code turns down without writing: a
    body that has no property at all, and a body, whatever else it
    carries, whose [username] is the username of another user.  Both
    end in [InternalServerErrorException]. *)
Theorem updateProfile_rejects_empty_body_and_taken_username
        (db : Database) (req : Request) (caller : User.t) (i : nat)
        (row : UserRow.t) :
  user req = Some caller ->
  User.id caller = Some i ->
  usersRepository.row_by_id i (user_table db) = Some row ->
  UsersController.updateProfile req (User.mk None None None None) db
  = (Throw (InternalServerErrorException
              "An error occurred while updating the user profile"), db)
  /\ forall (updateData : UpdateUserDto) (name : string) (holder : UserRow.t),
       User.username updateData = Some name ->
       In holder (user_table db) ->
       UserRow.username holder = name ->
       UserRow.id holder <> i ->
       UsersController.updateProfile req updateData db
       = (Throw (InternalServerErrorException
                   "An error occurred while updating the user profile"), db).
Proof.
  intros Hreq Hid Hrow. split.
  - unfold UsersController.updateProfile, UsersController.req_user_id,
      try_catch, await, resolve, reject.
    rewrite Hreq, Hid, UsersService_update_run, Hrow. reflexivity.
  - intros updateData name holder Hname Hin Hholder Hother.
    assert (Hupdate : usersRepository.update i updateData db
                      = (Throw ORM_UNIQUE, db)).
    { unfold usersRepository.update, usersRepository.write_existing.
      assert (Hvalues : usersRepository.no_values updateData = false)
        by (unfold usersRepository.no_values; rewrite Hname;
            now destruct (User.id updateData)).
      rewrite Hvalues, Hrow. cbv zeta.
      assert (Hconf : usersRepository.conflicts
                        (usersRepository.patch row updateData)
                        (usersRepository.without i (user_table db)) = true).
      { apply existsb_exists. exists holder. split.
        - unfold usersRepository.without. apply filter_In. split; [exact Hin|].
          apply Bool.negb_true_iff. now apply Nat.eqb_neq.
        - unfold usersRepository.patch. cbn [UserRow.id UserRow.username].
          rewrite Hname. cbn [get_or]. rewrite Hholder, String.eqb_refl.
          apply Bool.orb_true_r. }
      now rewrite Hconf. }
    unfold UsersController.updateProfile, UsersController.req_user_id,
      try_catch, await, resolve, reject.
    rewrite Hreq, Hid, UsersService_update_run, Hrow, Hupdate. reflexivity.
Qed.

Lemma updateProfile_rejects_on_sample :
  usersRepository.row_by_id 1 (user_table Sample.db) = Some Sample.luke
  /\ UsersController.updateProfile (Sample.acting 1)
       (User.mk None None None None) Sample.db
     = (Throw (InternalServerErrorException
                 "An error occurred while updating the user profile"),
        Sample.db)
  /\ UsersController.updateProfile (Sample.acting 1)
       (User.mk (Some 7) (Some "leia") None None) Sample.db
     = (Throw (InternalServerErrorException
                 "An error occurred while updating the user profile"),
        Sample.db).
Proof.
  split; [reflexivity|].
  pose proof (@updateProfile_rejects_empty_body_and_taken_username Sample.db
                (Sample.acting 1) (User.mk (Some 1) None None None) 1
                Sample.luke eq_refl eq_refl eq_refl) as [Hempty Htaken].
  split; [exact Hempty|].
  apply (Htaken (User.mk (Some 7) (Some "leia") None None) "leia" Sample.leia
                eq_refl).
  - right. right. now left.
  - reflexivity.
  - discriminate.
Defined.





Lemma UsersService_delete_run (i : nat) (db : Database) :
  UsersService.delete (Some i) db
  = match usersRepository.row_by_id i (user_table db) with
    | None => (Throw (NotFoundException "User not found"), db)
    | Some _ =>
        if usersRepository.referenced i (book_table db)
        then (Throw (InternalServerErrorException
                       "An error occurred while deleting the user"), db)
        else (Return "User successfully deleted",
              usersRepository.set_table
                (usersRepository.without i (user_table db))
                (user_sequence db) db)
    end.
Proof.
  unfold UsersService.delete, try_catch, await, resolve, reject,
    usersRepository.delete.
  destruct (usersRepository.row_by_id i (user_table db)) as [r|] eqn:Hr;
    [|reflexivity].
  destruct (usersRepository.referenced i (book_table db)); [reflexivity|].
  assert (Hcount : Nat.eqb (List.length
                              (filter (fun r0 => Nat.eqb (UserRow.id r0) i)
                                      (user_table db))) 0 = false).
  { apply Nat.eqb_neq. unfold usersRepository.row_by_id in Hr.
    apply find_some in Hr.
    assert (Hin : In r (filter (fun r0 => Nat.eqb (UserRow.id r0) i)
                               (user_table db)))
      by (now apply filter_In).
    destruct (filter (fun r0 => Nat.eqb (UserRow.id r0) i) (user_table db));
      [contradiction|discriminate]. }
  now rewrite Hcount.
Qed.

(** X12.  A request whose token names a user the store no longer holds:
    the services report [NotFoundException], and every handler that
    resolves the caller answers with [InternalServerErrorException],
    with nothing written. *)
Theorem a_deleted_subject_gets_internal_failures
        (db : Database) (req : Request) (caller : User.t) (i : nat)
        (userDto : UpdateUserDto) (bookDto : CreateBookDto) :
  user req = Some caller ->
  User.id caller = Some i ->
  usersRepository.row_by_id i (user_table db) = None ->
  UsersService.findById (Some i) db
  = (Throw (NotFoundException "User not found"), db)
  /\ UsersController.getProfile req db
     = (Throw (InternalServerErrorException
                 "An error occurred while fetching the user profile"), db)
  /\ UsersController.updateProfile req userDto db
     = (Throw (InternalServerErrorException
                 "An error occurred while updating the user profile"), db)
  /\ UsersController.deleteProfile req db
     = (Throw (InternalServerErrorException
                 "An error occurred while deleting the user profile"), db)
  /\ BooksService.create caller bookDto db
     = (Throw (NotFoundException "Author not found"), db)
  /\ BooksController.create req bookDto db
     = (Throw (InternalServerErrorException
                 "An error occurred while creating the book"), db).
Proof.
  intros Hreq Hid Hrow.
  assert (Hcreate : forall bookData,
             BooksService.create caller bookData db
             = (Throw (NotFoundException "Author not found"), db)).
  { intros bookData.
    unfold BooksService.create, try_returning, try_catch, await, reject,
      usersRepository.findOne_id_select_id_username.
    rewrite Hid. cbn [usersRepository.row_where_id]. now rewrite Hrow. }
  repeat split.
  - now rewrite UsersService_findById_run, Hrow.
  - now rewrite (UsersController_getProfile_run _ _ Hreq), Hid, Hrow.
  - unfold UsersController.updateProfile, UsersController.req_user_id,
      try_catch, await, resolve, reject.
    now rewrite Hreq, Hid, UsersService_update_run, Hrow.
  - unfold UsersController.deleteProfile, UsersController.req_user_id,
      try_catch, await, resolve, reject.
    now rewrite Hreq, Hid, UsersService_delete_run, Hrow.
  - apply Hcreate.
  - unfold BooksController.create, try_catch, await.
    now rewrite Hreq, Hcreate.
Qed.

Lemma a_deleted_subject_on_sample :
  usersRepository.row_by_id 9 (user_table Sample.db) = None
  /\ UsersController.getProfile (Sample.acting 9) Sample.db
     = (Throw (InternalServerErrorException
                 "An error occurred while fetching the user profile"),
        Sample.db)
  /\ BooksController.create (Sample.acting 9)
       (Book.mk None (Some "Ghost") (Some "story") (Some "url")
                (Some (inject_Z 1)) None None) Sample.db
     = (Throw (InternalServerErrorException
                 "An error occurred while creating the book"), Sample.db).
Proof.
  split; [reflexivity|].
  pose proof (@a_deleted_subject_gets_internal_failures Sample.db
                (Sample.acting 9) (User.mk (Some 9) None None None) 9
                (User.mk None None None None)
                (Book.mk None (Some "Ghost") (Some "story") (Some "url")
                         (Some (inject_Z 1)) None None)
                eq_refl eq_refl eq_refl)
    as (_ & Hget & _ & _ & _ & Hcreate).
  split; assumption.
Defined.



(** X14.  An account some book row still refers to as its author cannot
    be deleted: the statement fails on the foreign key, service and
    handler answer with [InternalServerErrorException], and user and
    books stay as they were. *)
Theorem deleteProfile_of_an_author_fails
        (db : Database) (req : Request) (caller : User.t) (i : nat)
        (row : UserRow.t) (book : BookRow.t) :
  user req = Some caller ->
  User.id caller = Some i ->
  usersRepository.row_by_id i (user_table db) = Some row ->
  In book (book_table db) ->
  BookRow.authorId book = Some i ->
  UsersService.delete (Some i) db
  = (Throw (InternalServerErrorException
              "An error occurred while deleting the user"), db)
  /\ UsersController.deleteProfile req db
     = (Throw (InternalServerErrorException
                 "An error occurred while deleting the user profile"), db).
Proof.
  intros Hreq Hid Hrow Hin Hauthor.
  assert (Href : usersRepository.referenced i (book_table db) = true).
  { apply existsb_exists. exists book. split; [exact Hin|].
    rewrite Hauthor. apply Nat.eqb_refl. }
  assert (Hservice : UsersService.delete (Some i) db
                     = (Throw (InternalServerErrorException
                                 "An error occurred while deleting the user"),
                        db))
    by now rewrite UsersService_delete_run, Hrow, Href.
  split; [exact Hservice|].
  unfold UsersController.deleteProfile, UsersController.req_user_id,
    try_catch, await, resolve, reject.
  now rewrite Hreq, Hid, Hservice.
Qed.

Lemma deleteProfile_of_an_author_on_sample :
  let book := Sample.book 3 "Alderaan Nights" 25 true (Some 3) in
  usersRepository.row_by_id 3 (user_table Sample.db) = Some Sample.leia
  /\ In book (book_table Sample.db)
  /\ UsersController.deleteProfile (Sample.acting 3) Sample.db
     = (Throw (InternalServerErrorException
                 "An error occurred while deleting the user profile"),
        Sample.db).
Proof.
  intros book. split; [reflexivity|].
  split; [right; right; now left|].
  exact (proj2 (@deleteProfile_of_an_author_fails Sample.db (Sample.acting 3)
                  (User.mk (Some 3) None None None) 3 Sample.leia book
                  eq_refl eq_refl eq_refl
                  (or_intror (or_intror (or_introl eq_refl))) eq_refl)).
Defined.

(** ** The book handlers *)

Lemma BooksService_findOne_run (id : nat) (db : Database) :
  BooksService.findOne id db
  = (if Nat.eqb id 0 then Throw (BadRequestException "Invalid book ID")
     else match book_of db id with
          | Some book => Return book
          | None => Throw (NotFoundException "Book not found")
          end, db).
Proof.
  unfold BooksService.findOne, BooksService.falsy_id, try_catch, await,
    resolve, reject, booksRepository.findOne_id_relations_author, book_of.
  destruct (Nat.eqb id 0); [reflexivity|].
  now destruct (booksRepository.row_by_id id (book_table db)).
Qed.

(** X15.  [GET /books/:id] has three outcomes and keeps them apart: id
    zero is [BadRequestException], an id no row carries is
    [NotFoundException], and otherwise the book is returned with its
    author, the author's password removed.  Nothing is written. *)
Theorem BooksController_findOne_outcomes (id : nat) (db : Database) :
  BooksController.findOne id db
  = (if Nat.eqb id 0 then Throw (BadRequestException "Invalid book ID")
     else match book_of db id with
          | Some book => Return (BooksController.instanceToPlain book)
          | None => Throw (NotFoundException "Book not found")
          end, db).
Proof.
  unfold BooksController.findOne, BooksService.falsy_id, try_catch, await,
    resolve, reject.
  destruct (Nat.eqb id 0) eqn:E; [reflexivity|].
  rewrite BooksService_findOne_run, E.
  now destruct (book_of db id).
Qed.

Lemma hides_password_instanceToPlain (book : Book.t) :
  hides_password (BooksController.instanceToPlain book).
Proof.
  unfold hides_password, BooksController.instanceToPlain. cbn.
  now destruct (Book.author book).
Qed.

Ltac returned_plain :=
  match goal with
  | |- context [match ?service ?d with _ => _ end] =>
      destruct (service d) as [[?b|?e] ?db1]; cbn;
      [ intros H; injection H as <- <-; apply hides_password_instanceToPlain
      | try discriminate;
        match goal with
        | |- context [if ?c then _ else _] => destruct c; discriminate
        end ]
  end.

Lemma books_save_returns_author (b saved : Book.t) (db db' : Database) :
  booksRepository.save b db = (Return saved, db') ->
  Book.author saved = Book.author b.
Proof.
  assert (Hinsert : booksRepository.insert b db = (Return saved, db') ->
                    Book.author saved = Book.author b).
  { unfold booksRepository.insert.
    destruct (Book.title b), (Book.description b), (Book.coverImage b),
      (Book.price b); try discriminate.
    destruct (negb (booksRepository.author_exists b db)); [discriminate|].
    intros H. now injection H as <- <-. }
  unfold booksRepository.save.
  destruct (Book.id b) as [i|]; [|exact Hinsert].
  destruct (booksRepository.row_by_id i (book_table db)); [|exact Hinsert].
  destruct (negb (booksRepository.author_exists b db)); [discriminate|].
  intros H. now injection H as <- <-.
Qed.

Lemma BooksService_update_returns_the_payload_author
      (caller : User.t) (id : nat) (bookData updated : Book.t)
      (db db' : Database) (author : User.t) :
  BooksService.update caller id bookData db = (Return updated, db') ->
  Book.author bookData = Some author ->
  Book.author updated = Some author.
Proof.
  intros H Hauthor. revert H. run.
  destruct (booksRepository.row_by_id id (book_table db)) as [r|]; cbn;
    [|discriminate].
  destruct (BooksService.not_owner (booksRepository.load db r) caller); cbn;
    [discriminate|].
  intros H. apply books_save_returns_author in H. rewrite H. cbn.
  now rewrite Hauthor.
Qed.

(** X16.  The books controller returns no password read from the user
    table.  In every book that [findAll], [findOne], [create] and
    [remove] return, the author has no [password] property.  [update]
    does the same for a body without [author]; for a body that carries
    an [author] it returns that very object as the author, with
    whatever it holds. *)
Theorem book_handlers_return_no_stored_password
        (parseFloat : string -> option Q) (db db' : Database) :
  (forall query books,
      BooksController.findAll parseFloat query db = (Return books, db') ->
      Forall hides_password books)
  /\ (forall id book,
         BooksController.findOne id db = (Return book, db') ->
         hides_password book)
  /\ (forall req body book,
         BooksController.create req body db = (Return book, db') ->
         hides_password book)
  /\ (forall req id book,
         BooksController.remove req id db = (Return book, db') ->
         hides_password book)
  /\ (forall req id body book,
         BooksController.update req id body db = (Return book, db') ->
         match Book.author body with
         | None => hides_password book
         | Some author => Book.author book = Some author
         end).
Proof.
  repeat split.
  - intros query books.
    unfold BooksController.findAll, try_catch, await, resolve, reject.
    destruct (BooksService.findAllWithFilters parseFloat query db)
      as [[found|e] db1]; [|discriminate].
    intros H. injection H as <- <-.
    apply Forall_forall. intros b Hb. apply in_map_iff in Hb.
    destruct Hb as (x & <- & _). apply hides_password_instanceToPlain.
  - intros id book. rewrite BooksController_findOne_outcomes.
    destruct (Nat.eqb id 0); [discriminate|].
    destruct (book_of db id); [|discriminate].
    intros H. injection H as <- <-. apply hides_password_instanceToPlain.
  - intros req body book.
    unfold BooksController.create, try_catch, await, resolve, reject.
    destruct (user req) as [caller|]; [|discriminate]. returned_plain.
  - intros req id book.
    unfold BooksController.remove, try_catch, await, resolve, reject.
    destruct (BooksService.falsy_id id); [discriminate|].
    destruct (user req) as [caller|]; [|discriminate]. returned_plain.
  - intros req id body book.
    unfold BooksController.update, try_catch, await, resolve, reject,
      BooksController.instanceToPlain_updated.
    destruct (BooksService.falsy_id id); [discriminate|].
    destruct (user req) as [caller|]; [|discriminate].
    destruct (BooksService.update caller id body db) as [[b|e] db1] eqn:Hb;
      cbn.
    + destruct (Book.author body) as [author|] eqn:Hauthor;
        intros H; injection H as <- <-.
      * exact (BooksService_update_returns_the_payload_author _ _ _ _ Hb
                 Hauthor).
      * apply hides_password_instanceToPlain.
    + destruct (instanceof_BadRequestException e
                || instanceof_NotFoundException e); discriminate.
Qed.

Lemma book_handlers_return_no_stored_password_on_sample :
  let book := Book.mk (Some 3) (Some "Alderaan Nights")
                      (Some "An epic tale from Kashyyyk") (Some "url_to_image")
                      (Some (inject_Z 25)) (Some true)
                      (Some (User.mk (Some 3) (Some "leia") None
                                     (Some "Leia O."))) in
  stored_password Sample.db 3 = Some "$2b$s3$alderaan"
  /\ BooksController.findOne 3 Sample.db = (Return book, Sample.db)
  /\ hides_password book.
Proof.
  intros book. split; [reflexivity|]. split; [reflexivity|].
  exact (proj1 (proj2 (@book_handlers_return_no_stored_password
                         Sample.parseFloat Sample.db Sample.db))
               3 book eq_refl).
Defined.

(** X17.  What [update] and [remove] of the books controller check
    before and while looking the book up reaches the caller as thrown:
    id zero and a request without user are [BadRequestException], an id
    no row carries is [NotFoundException].  [create] reports a request
    without user as [InternalServerErrorException]. *)
Theorem BooksController_prechecks
        (db : Database) (req : Request) (id : nat)
        (updateDto : UpdateBookDto) (createDto : CreateBookDto) :
  (BooksController.update req 0 updateDto db
   = (Throw (BadRequestException "Invalid book ID"), db)
   /\ BooksController.remove req 0 db
      = (Throw (BadRequestException "Invalid book ID"), db))
  /\ (id <> 0 -> user req = None ->
      BooksController.update req id updateDto db
      = (Throw (BadRequestException "Invalid user"), db)
      /\ BooksController.remove req id db
         = (Throw (BadRequestException "Invalid user"), db))
  /\ (id <> 0 -> user req <> None ->
      booksRepository.row_by_id id (book_table db) = None ->
      BooksController.update req id updateDto db
      = (Throw (NotFoundException "Book not found"), db)
      /\ BooksController.remove req id db
         = (Throw (NotFoundException "Book not found"), db))
  /\ (user req = None ->
      BooksController.create req createDto db
      = (Throw (InternalServerErrorException
                  "An error occurred while creating the book"), db)).
Proof.
  split; [split; reflexivity|]. split; [|split].
  - intros Hid Hreq.
    unfold BooksController.update, BooksController.remove, try_catch,
      BooksService.falsy_id.
    destruct (Nat.eqb_spec id 0) as [E|_]; [contradiction|].
    now rewrite Hreq.
  - intros Hid Hreq Hrow.
    unfold BooksController.update, BooksController.remove, try_catch, await,
      BooksService.falsy_id, BooksService.update, BooksService.remove,
      try_returning, try_catch, await, reject,
      booksRepository.findOne_id_relations_author.
    destruct (Nat.eqb_spec id 0) as [E|_]; [contradiction|].
    destruct (user req) as [caller|]; [|contradiction].
    now rewrite Hrow.
  - intros Hreq. unfold BooksController.create, try_catch. now rewrite Hreq.
Qed.

Lemma BooksController_prechecks_on_sample :
  BooksController.update (Sample.acting 1) 9
    (Book.mk None (Some "t") None None None None None) Sample.db
  = (Throw (NotFoundException "Book not found"), Sample.db)
  /\ BooksController.remove (mkRequest None None) 1 Sample.db
     = (Throw (BadRequestException "Invalid user"), Sample.db).
Proof.
  pose proof (@BooksController_prechecks Sample.db (Sample.acting 1) 9
                (Book.mk None (Some "t") None None None None None)
                (Book.mk None None None None None None None))
    as (_ & _ & Habsent & _).
  pose proof (@BooksController_prechecks Sample.db (mkRequest None None) 1
                (Book.mk None (Some "t") None None None None None)
                (Book.mk None None None None None None None))
    as (_ & Hnouser & _ & _).
  split.
  - apply Habsent; [discriminate|discriminate|reflexivity].
  - apply Hnouser; [discriminate|reflexivity].
Defined.

(** X18.  [DELETE /books/:id] behind the handler.  For the owner it
    returns the book with the publication flag false, stores the flag
    false, and leaves the user table and every other book row alone;
    the row itself stays in the table.  For anyone else the service's
    [UnauthorizedException] reaches the caller as
    [InternalServerErrorException] and nothing is written. *)
Theorem BooksController_remove_outcomes
        (db : Database) (req : Request) (caller : User.t) (id : nat)
        (r : BookRow.t) :
  id <> 0 ->
  user req = Some caller ->
  booksRepository.row_by_id id (book_table db) = Some r ->
  (BooksService.not_owner (booksRepository.load db r) caller = true ->
   BooksController.remove req id db
   = (Throw (InternalServerErrorException
               "An error occurred while removing the book"), db))
  /\ (BooksService.not_owner (booksRepository.load db r) caller = false ->
      exists db' : Database,
        BooksController.remove req id db
        = (Return (BooksController.instanceToPlain
                     (BooksService.set_isPublished_false
                        (booksRepository.load db r))), db')
        /\ stored_isPublished db' id = Some false
        /\ user_table db' = user_table db
        /\ List.length (book_table db') = List.length (book_table db)
        /\ forall j, j <> id ->
                     booksRepository.row_by_id j (book_table db')
                     = booksRepository.row_by_id j (book_table db)).
Proof.
  intros Hid Hreq Hr.
  pose proof (books_row_by_id_id _ _ Hr) as Hrid.
  split; intros Hown;
    unfold BooksController.remove, try_catch, await, resolve, reject,
      BooksService.falsy_id;
    destruct (Nat.eqb_spec id 0) as [E|_]; try contradiction; rewrite Hreq.
  - now rewrite (@BooksService_remove_not_owner db caller id r Hr Hown).
  - rewrite (@BooksService_remove_owner db caller id r Hr Hown).
    unfold booksRepository.save.
    assert (Hbid : Book.id (BooksService.set_isPublished_false
                              (booksRepository.load db r)) = Some id)
      by (cbn; now rewrite Hrid).
    rewrite Hbid, Hr.
    rewrite (@author_exists_loaded db r
               (BooksService.set_isPublished_false (booksRepository.load db r))
               eq_refl).
    cbn [negb]. eexists. split; [reflexivity|].
    assert (Hpid : forall b, BookRow.id (booksRepository.patch r b) = id)
      by (intros b; destruct r; exact Hrid).
    split; [|split; [|split]].
    + unfold stored_isPublished. cbn [book_table booksRepository.set_table].
      now rewrite (@row_by_id_replace_same id r _ _ Hr (Hpid _)).
    + reflexivity.
    + cbn [book_table booksRepository.set_table].
      unfold booksRepository.replace. apply length_map.
    + intros j Hj. cbn [book_table booksRepository.set_table].
      now apply row_by_id_replace_other.
Qed.

Lemma BooksController_remove_outcomes_on_sample :
  let row := Sample.book 3 "Alderaan Nights" 25 true (Some 3) in
  booksRepository.row_by_id 3 (book_table Sample.db) = Some row
  /\ BooksController.remove (Sample.acting 1) 3 Sample.db
     = (Throw (InternalServerErrorException
                 "An error occurred while removing the book"), Sample.db)
  /\ exists db' : Database,
       BooksController.remove (Sample.acting 3) 3 Sample.db
       = (Return (BooksController.instanceToPlain
                    (BooksService.set_isPublished_false
                       (booksRepository.load Sample.db row))), db')
       /\ stored_isPublished db' 3 = Some false
       /\ user_table db' = user_table Sample.db
       /\ List.length (book_table db') = List.length (book_table Sample.db)
       /\ forall j, j <> 3 ->
                    booksRepository.row_by_id j (book_table db')
                    = booksRepository.row_by_id j (book_table Sample.db).
Proof.
  intros row. split; [reflexivity|]. split.
  - refine (proj1 (@BooksController_remove_outcomes Sample.db (Sample.acting 1)
                     (User.mk (Some 1) None None None) 3 row _ eq_refl eq_refl)
                  eq_refl).
    discriminate.
  - refine (proj2 (@BooksController_remove_outcomes Sample.db (Sample.acting 3)
                     (User.mk (Some 3) None None None) 3 row _ eq_refl eq_refl)
                  eq_refl).
    discriminate.
Defined.

(** ** Creating and reading back *)

Lemma next_id_above (sequence : nat) (ids : list nat) (k : nat) :
  In k ids -> k < next_id sequence ids.
Proof.
  intros Hin. unfold next_id.
  assert (k <= list_max ids).
  { pose proof (proj1 (list_max_le ids _) (Nat.le_refl _)) as Hall.
    rewrite Forall_forall in Hall. now apply Hall. }
  lia.
Qed.

Lemma books_row_by_id_new (i : nat) (r : BookRow.t) (rows : list BookRow.t) :
  ~ In i (map BookRow.id rows) ->
  BookRow.id r = i ->
  booksRepository.row_by_id i (rows ++ [r]) = Some r.
Proof.
  unfold booksRepository.row_by_id. intros Hnew Hid.
  induction rows as [|x rows IH]; cbn.
  - now rewrite Hid, Nat.eqb_refl.
  - destruct (Nat.eqb_spec (BookRow.id x) i) as [E|E].
    + exfalso. apply Hnew. now left.
    + apply IH. intros H. apply Hnew. now right.
Qed.

(** X19.  Creating a book and reading it back.  For a caller other than
    ["Darth Vader"] and a payload without [id] that carries title,
    description, cover image and price, [BooksService.create] stores a
    new row under an id larger than every id in the table; the book is
    published unless the payload says otherwise; its author is the
    caller, whatever author the payload names; [BooksService.findOne]
    on the new id returns the book with the caller's full user record;
    and every book that was there is still there, unchanged. *)
Theorem BooksService_create_then_findOne
        (db : Database) (caller : User.t) (i : nat) (row : UserRow.t)
        (bookData : Book.t) (title description coverImage : string)
        (price : Q) :
  User.id caller = Some i ->
  usersRepository.row_by_id i (user_table db) = Some row ->
  UserRow.username row <> "Darth Vader" ->
  Book.id bookData = None ->
  Book.title bookData = Some title ->
  Book.description bookData = Some description ->
  Book.coverImage bookData = Some coverImage ->
  Book.price bookData = Some price ->
  let published := get_or (Book.isPublished bookData) true in
  exists (j : nat) (db' : Database),
    BooksService.create caller bookData db
    = (Return (Book.mk (Some j) (Some title) (Some description)
                       (Some coverImage) (Some price) (Some published)
                       (Some (User.mk (Some i) (Some (UserRow.username row))
                                      None None))), db')
    /\ (forall k, In k (map BookRow.id (book_table db)) -> k < j)
    /\ BooksService.findOne j db'
       = (Return (Book.mk (Some j) (Some title) (Some description)
                          (Some coverImage) (Some price) (Some published)
                          (Some (UserRow.entity row))), db')
    /\ user_table db' = user_table db
    /\ forall k r, booksRepository.row_by_id k (book_table db) = Some r ->
                   booksRepository.row_by_id k (book_table db') = Some r.
Proof.
  intros Hid Hrow Hname Hnoid Ht Hd Hc Hp published.
  pose proof (users_row_by_id_id _ _ Hrow) as Hrid.
  apply String.eqb_neq in Hname.
  set (j := next_id (book_sequence db) (map BookRow.id (book_table db))).
  assert (Habove : forall k, In k (map BookRow.id (book_table db)) -> k < j)
    by (intros k Hk; now apply next_id_above).
  assert (Hnew : ~ In j (map BookRow.id (book_table db)))
    by (intros Hin; apply Habove in Hin; lia).
  exists j. eexists. split; [|split; [exact Habove|split; [|split]]].
  - unfold BooksService.create, try_returning, try_catch, await, resolve,
      usersRepository.findOne_id_select_id_username, strict_eq_string,
      booksRepository.save, booksRepository.insert,
      booksRepository.create, BooksService.spread_with_author,
      booksRepository.author_exists.
    rewrite Hid. cbn [usersRepository.row_where_id]. rewrite Hrow. cbn.
    rewrite Hname, Hnoid, Ht, Hd, Hc, Hp. cbn. rewrite Hrid, Hrow. cbn.
    fold j. fold published. reflexivity.
  - rewrite BooksService_findOne_run.
    assert (Hj : Nat.eqb j 0 = false) by (apply Nat.eqb_neq; unfold j, next_id; lia).
    rewrite Hj. unfold book_of. cbn [book_table booksRepository.set_table].
    rewrite (@books_row_by_id_new j _ _ Hnew) by reflexivity.
    cbn. unfold booksRepository.load, booksRepository.entity,
      booksRepository.join_author. cbn. now rewrite Hrow.
  - reflexivity.
  - intros k r Hk. cbn [book_table booksRepository.set_table].
    now apply row_by_id_app.
Qed.

Lemma BooksService_create_then_findOne_on_sample :
  let payload :=
    Book.mk None (Some "Falcon Manual") (Some "How to fly") (Some "url")
            (Some (inject_Z 12)) None
            (Some (User.mk (Some 3) None None None)) in
  usersRepository.row_by_id 1 (user_table Sample.db) = Some Sample.luke
  /\ exists (j : nat) (db' : Database),
       BooksService.create (User.mk (Some 1) None None None) payload Sample.db
       = (Return (Book.mk (Some j) (Some "Falcon Manual") (Some "How to fly")
                          (Some "url") (Some (inject_Z 12)) (Some true)
                          (Some (User.mk (Some 1) (Some "luke") None None))),
          db')
       /\ (forall k, In k (map BookRow.id (book_table Sample.db)) -> k < j)
       /\ BooksService.findOne j db'
          = (Return (Book.mk (Some j) (Some "Falcon Manual")
                             (Some "How to fly") (Some "url")
                             (Some (inject_Z 12)) (Some true)
                             (Some (UserRow.entity Sample.luke))), db')
       /\ user_table db' = user_table Sample.db
       /\ forall k r,
            booksRepository.row_by_id k (book_table Sample.db) = Some r ->
            booksRepository.row_by_id k (book_table db') = Some r.
Proof.
  intros payload. split; [reflexivity|].
  refine (@BooksService_create_then_findOne Sample.db
            (User.mk (Some 1) None None None) 1 Sample.luke payload
            "Falcon Manual" "How to fly" "url" (inject_Z 12)
            eq_refl eq_refl _ eq_refl eq_refl eq_refl eq_refl eq_refl).
  discriminate.
Defined.

(** ** Failed requests *)

Lemma books_save_throws (b : Book.t) (db db' : Database) (e : Exception) :
  booksRepository.save b db = (Throw e, db') -> db' = db.
Proof.
  assert (Hinsert : booksRepository.insert b db = (Throw e, db') -> db' = db).
  { unfold booksRepository.insert.
    destruct (Book.title b), (Book.description b), (Book.coverImage b),
      (Book.price b); try (intros H; now injection H).
    destruct (negb (booksRepository.author_exists b db)); [|discriminate].
    intros H; now injection H. }
  unfold booksRepository.save.
  destruct (Book.id b) as [i|]; [|exact Hinsert].
  destruct (booksRepository.row_by_id i (book_table db)); [|exact Hinsert].
  destruct (negb (booksRepository.author_exists b db)); [|discriminate].
  intros H; now injection H.
Qed.

Lemma users_save_throws (u : User.t) (db db' : Database) (e : Exception) :
  usersRepository.save u db = (Throw e, db') -> db' = db.
Proof.
  assert (Hinsert : usersRepository.insert u db = (Throw e, db') -> db' = db).
  { unfold usersRepository.insert.
    destruct (User.username u), (User.password u), (User.authorPseudonym u);
      try (intros H; now injection H).
    cbv zeta. destruct (usersRepository.conflicts _ _); [|discriminate].
    intros H; now injection H. }
  unfold usersRepository.save.
  destruct (User.id u) as [i|]; [|exact Hinsert].
  destruct (usersRepository.row_by_id i (user_table db)) as [r|];
    [|exact Hinsert].
  unfold await, resolve, usersRepository.write_existing. cbv zeta.
  destruct (usersRepository.conflicts _ _); [intros H; now injection H|].
  destruct (negb _ && _); [|discriminate].
  intros H; now injection H.
Qed.

Ltac service_threw Hsave :=
  match goal with
  | |- context [booksRepository.save ?b ?d] =>
      destruct (booksRepository.save b d) as [[?saved|?e1] ?d1] eqn:Hsave;
      [discriminate|intros H; injection H as <- <-;
                    now apply books_save_throws in Hsave]
  end.

Lemma BooksService_create_throws (caller : User.t) (bookData : Book.t)
      (db db' : Database) (e : Exception) :
  BooksService.create caller bookData db = (Throw e, db') -> db' = db.
Proof.
  unfold BooksService.create, try_returning, try_catch, await, resolve, reject,
    usersRepository.findOne_id_select_id_username.
  match goal with
  | |- context [match ?found with Some _ => _ | None => _ end] =>
      destruct found as [author|]
  end; [|intros H; now injection H].
  destruct (strict_eq_string (User.username author) "Darth Vader");
    [intros H; now injection H|].
  service_threw Hsave.
Qed.

Lemma BooksService_update_throws (caller : User.t) (id : nat)
      (bookData : Book.t) (db db' : Database) (e : Exception) :
  BooksService.update caller id bookData db = (Throw e, db') -> db' = db.
Proof.
  unfold BooksService.update, try_returning, try_catch, await, resolve, reject,
    booksRepository.findOne_id_relations_author.
  destruct (booksRepository.row_by_id id (book_table db)) as [r|];
    cbn [option_map]; [|intros H; now injection H].
  destruct (BooksService.not_owner _ caller); [intros H; now injection H|].
  service_threw Hsave.
Qed.

Lemma BooksService_remove_throws (caller : User.t) (id : nat)
      (db db' : Database) (e : Exception) :
  BooksService.remove caller id db = (Throw e, db') -> db' = db.
Proof.
  unfold BooksService.remove, try_returning, try_catch, await, resolve, reject,
    booksRepository.findOne_id_relations_author.
  destruct (booksRepository.row_by_id id (book_table db)) as [r|];
    cbn [option_map]; [|intros H; now injection H].
  destruct (BooksService.not_owner _ caller); [intros H; now injection H|].
  service_threw Hsave.
Qed.

Ltac handler_threw lemma :=
  match goal with
  | |- context [match ?service ?d with _ => _ end] =>
      let Hs := fresh "Hs" in
      destruct (service d) as [[?b|?e1] ?d1] eqn:Hs; cbn;
      [ discriminate
      | apply lemma in Hs; subst;
        try (intros H; now injection H);
        match goal with
        | |- context [if ?c then _ else _] =>
            destruct c; intros H; now injection H
        end ]
  end.

(** X20.  A request that ends in an exception has written nothing: for
    the handlers that change the store (book create, update and
    unpublish; registration and account deletion, whatever they are
    sent; profile update with a body that carries no [id]), when the
    outcome is a thrown exception the database is the one the request
    found. *)
Theorem failed_requests_write_nothing
        (bcrypt_hash : string -> nat -> string -> string)
        (db db' : Database) (e : Exception) :
  (forall req dto,
      BooksController.create req dto db = (Throw e, db') -> db' = db)
  /\ (forall req id dto,
         BooksController.update req id dto db = (Throw e, db') -> db' = db)
  /\ (forall req id,
         BooksController.remove req id db = (Throw e, db') -> db' = db)
  /\ (forall salt dto,
         UsersController.createUser bcrypt_hash salt dto db = (Throw e, db') ->
         db' = db)
  /\ (forall req updateData,
         User.id updateData = None ->
         UsersController.updateProfile req updateData db = (Throw e, db') ->
         db' = db)
  /\ (forall req,
         UsersController.deleteProfile req db = (Throw e, db') -> db' = db).
Proof.
  repeat split.
  - intros req dto.
    unfold BooksController.create, try_catch, await, resolve, reject.
    destruct (user req) as [caller|]; [|intros H; now injection H].
    handler_threw BooksService_create_throws.
  - intros req id dto.
    unfold BooksController.update, try_catch, await, resolve, reject.
    destruct (BooksService.falsy_id id); [intros H; now injection H|].
    destruct (user req) as [caller|]; [|intros H; now injection H].
    handler_threw BooksService_update_throws.
  - intros req id.
    unfold BooksController.remove, try_catch, await, resolve, reject.
    destruct (BooksService.falsy_id id); [intros H; now injection H|].
    destruct (user req) as [caller|]; [|intros H; now injection H].
    handler_threw BooksService_remove_throws.
  - intros salt dto.
    unfold UsersController.createUser, UsersService.create, try_catch, await,
      resolve, reject.
    match goal with
    | |- context [if ?c then _ else _] => destruct c
    end; [intros H; now injection H|].
    match goal with
    | |- context [usersRepository.save ?u db] =>
        destruct (usersRepository.save u db) as [[saved|e1] d1] eqn:Hs
    end; [discriminate|].
    apply users_save_throws in Hs. subst.
    destruct (instanceof_BadRequestException e1); intros H; now injection H.
  - intros req updateData Hnoid.
    unfold UsersController.updateProfile, UsersController.req_user_id,
      try_catch, await, resolve, reject.
    destruct (user req) as [caller|]; [|intros H; now injection H].
    destruct (User.id caller) as [i|].
    + rewrite UsersService_update_run.
      destruct (usersRepository.row_by_id i (user_table db)) as [r|] eqn:Hr;
        [|intros H; now injection H].
      destruct (usersRepository.update i updateData db) as [[[]|e1] d1] eqn:Hu;
        [|intros H; now injection H].
      assert (Hfound : exists r', usersRepository.row_by_id i (user_table d1)
                                  = Some r').
      { revert Hu.
        unfold usersRepository.update, usersRepository.write_existing.
        destruct (usersRepository.no_values _); [discriminate|].
        rewrite Hr. cbv zeta.
        destruct (usersRepository.conflicts _ _); [discriminate|].
        destruct (negb _ && _); [discriminate|].
        intros Hu. injection Hu as <-.
        cbn [user_table usersRepository.set_table].
        eexists. apply users_row_by_id_replace with (r := r); [exact Hr|].
        unfold usersRepository.patch. cbn. rewrite Hnoid. cbn.
        now apply users_row_by_id_id in Hr. }
      destruct Hfound as [r' Hr']. rewrite Hr'. discriminate.
    + unfold UsersService.update, try_catch, await, reject.
      rewrite UsersService_findById_run.
      destruct (hd_error (user_table db)); intros H; now injection H.
  - intros req.
    unfold UsersController.deleteProfile, UsersController.req_user_id,
      try_catch, await, resolve, reject.
    destruct (user req) as [caller|]; [|intros H; now injection H].
    destruct (User.id caller) as [i|].
    + rewrite UsersService_delete_run.
      destruct (usersRepository.row_by_id i (user_table db));
        [|intros H; now injection H].
      destruct (usersRepository.referenced i (book_table db));
        [intros H; now injection H|discriminate].
    + unfold UsersService.delete, try_catch, await, reject.
      intros H; now injection H.
Qed.

Lemma failed_requests_write_nothing_on_sample :
  let dto := Book.mk None (Some "Mine now") None None None None None in
  let e := InternalServerErrorException
             "An error occurred while updating the book" in
  fst (BooksController.update (Sample.acting 3) 1 dto Sample.db) = Throw e
  /\ snd (BooksController.update (Sample.acting 3) 1 dto Sample.db) = Sample.db.
Proof.
  intros dto e. split; [reflexivity|].
  pose proof (@failed_requests_write_nothing Sample.bcrypt_hash Sample.db
                (snd (BooksController.update (Sample.acting 3) 1 dto Sample.db))
                e) as (_ & Hupdate & _).
  exact (Hupdate (Sample.acting 3) 1 dto eq_refl).
Defined.

(** ** The catalogue, continued *)

Lemma like_percent_cons (p : string) (d : ascii) (t : string) :
  like (String "%" p) (String d t)
  = like p (String d t) || like (String "%" p) t.
Proof. reflexivity. Qed.

Lemma like_cons_other (c : ascii) (p : string) (d : ascii) (t : string) :
  Ascii.eqb c "%" = false ->
  like (String c p) (String d t)
  = (Ascii.eqb c "_" || Ascii.eqb (to_lower c) (to_lower d)) && like p t.
Proof. intros H. cbn. now rewrite H. Qed.

Lemma like_percent_intro (p t : string) :
  like p t = true -> like (String "%" p) t = true.
Proof.
  intros H. destruct t as [|d t]; [cbn; now rewrite H|].
  rewrite like_percent_cons, H. reflexivity.
Qed.

Lemma like_percent_skip (p pre t : string) :
  like (String "%" p) t = true -> like (String "%" p) (pre ++ t) = true.
Proof.
  intros H. induction pre as [|d pre IH]; [exact H|].
  cbn [append]. rewrite like_percent_cons, IH. apply Bool.orb_true_r.
Qed.

Lemma like_percent_anything (t : string) : like "%" t = true.
Proof.
  induction t as [|d t IH]; [reflexivity|].
  rewrite like_percent_cons, IH. apply Bool.orb_true_r.
Qed.

Lemma like_same_ignoring_case (s s' p rest : string) :
  same_ignoring_case s s' = true ->
  like p rest = true ->
  like (s ++ p) (s' ++ rest) = true.
Proof.
  revert s'. induction s as [|c s IH]; intros [|d s'] Hsame Hrest;
    cbn in Hsame; try discriminate; [exact Hrest|].
  apply Bool.andb_true_iff in Hsame. destruct Hsame as [Hc Hsame].
  specialize (IH s' Hsame Hrest). cbn [append].
  destruct (Ascii.eqb c "%") eqn:E.
  - apply Ascii.eqb_eq in E. subst c.
    rewrite like_percent_cons, (like_percent_intro _ _ IH).
    apply Bool.orb_true_r.
  - rewrite (@like_cons_other c _ d _ E), Hc, IH.
    now rewrite Bool.orb_true_r.
Qed.

(** The pattern the title filter builds matches every text that contains
    the term, in any letter case. *)
Lemma like_contains (s s' pre post : string) :
  same_ignoring_case s s' = true ->
  like ("%" ++ s ++ "%") (pre ++ s' ++ post) = true.
Proof.
  intros Hsame. change ("%" ++ s ++ "%") with (String "%" (s ++ "%")).
  apply like_percent_skip, like_percent_intro.
  apply like_same_ignoring_case; [exact Hsame|apply like_percent_anything].
Qed.

Lemma getMany_as_selection (qb : QueryBuilder.t) (db : Database) :
  existsb QueryBuilder.binds_NaN qb = false ->
  QueryBuilder.getMany qb db
  = (Return (map (booksRepository.load db)
               (filter (fun r => QueryBuilder.selects qb
                                   (booksRepository.join_author
                                      (user_table db) r))
                       (book_table db))), db).
Proof.
  intros Hnumbers.
  unfold QueryBuilder.getMany, booksRepository.load. rewrite Hnumbers.
  f_equal. f_equal.
  induction (book_table db) as [|r rows IH]; cbn; [reflexivity|].
  destruct (QueryBuilder.selects qb
              (booksRepository.join_author (user_table db) r)); cbn;
    now rewrite IH.
Qed.

Lemma getMany_throws (qb : QueryBuilder.t) (c : QueryBuilder.Clause)
      (db : Database) :
  In c qb ->
  QueryBuilder.binds_NaN c = true ->
  QueryBuilder.getMany qb db = (Throw ORM_NOT_A_NUMBER, db).
Proof.
  intros Hin Hc. unfold QueryBuilder.getMany.
  assert (H : existsb QueryBuilder.binds_NaN qb = true)
    by (apply existsb_exists; now exists c).
  now rewrite H.
Qed.

Ltac binds_numbers :=
  unfold QueryBuilder.andWhere,
    QueryBuilder.createQueryBuilder_leftJoinAndSelect_author;
  repeat match goal with
         | |- context [if ?c then _ else _] => destruct c
         | |- context [match q_isPublished ?q with _ => _ end] =>
             destruct (q_isPublished q)
         end;
  reflexivity.


(** X21.  The listing without search term is the filtered listing with
    [isPublished=true]: both return the published books, in table
    order.  An empty search term counts as no search term. *)
Theorem findAll_is_the_published_filter
        (parseFloat : string -> option Q) (db : Database) :
  BooksService.findAll None db
  = BooksService.findAllWithFilters parseFloat (only_isPublished "true") db
  /\ BooksService.findAll (Some "") db = BooksService.findAll None db.
Proof.
  split; [|reflexivity].
  unfold BooksService.findAllWithFilters, try_returning, try_catch, await,
    resolve, only_isPublished. cbn -[QueryBuilder.getMany].
  rewrite getMany_as_selection by reflexivity.
  unfold BooksService.findAll, try_returning, try_catch, resolve,
    booksRepository.find_isPublished_true. cbn.
  f_equal. f_equal. f_equal. apply filter_ext. intros r.
  unfold QueryBuilder.selects, booksRepository.join_author. cbn.
  now destruct (BookRow.isPublished r).
Qed.

(** X22.  Any value of [isPublished] other than the string ["true"]
    (["false"], ["TRUE"], ["1"], the empty string) selects the
    unpublished books and only them. *)
Theorem isPublished_other_than_true_lists_unpublished
        (parseFloat : string -> option Q) (db : Database) (value : string) :
  value <> "true" ->
  BooksService.findAllWithFilters parseFloat (only_isPublished value) db
  = (Return (map (booksRepository.load db)
               (filter (fun r => negb (BookRow.isPublished r))
                       (book_table db))), db).
Proof.
  intros Hvalue. apply String.eqb_neq in Hvalue.
  unfold BooksService.findAllWithFilters, try_returning, try_catch, await,
    resolve, only_isPublished. cbn -[QueryBuilder.getMany].
  rewrite getMany_as_selection by reflexivity. rewrite Hvalue.
  f_equal. f_equal. f_equal. apply filter_ext. intros r.
  unfold QueryBuilder.selects, booksRepository.join_author. cbn.
  now destruct (BookRow.isPublished r).
Qed.

Lemma isPublished_TRUE_on_sample :
  "TRUE" <> "true"
  /\ BooksService.findAllWithFilters Sample.parseFloat
       (only_isPublished "TRUE") Sample.db
     = (Return [booksRepository.load Sample.db
                  (Sample.book 2 "Wookie Adventures 2" 15 false (Some 1))],
        Sample.db).
Proof.
  split; [discriminate|].
  refine (@isPublished_other_than_true_lists_unpublished Sample.parseFloat
            Sample.db "TRUE" _).
  discriminate.
Defined.

(** X23.  The title filter finds every book whose title contains the
    term, whatever the case of its letters; and since the term goes
    into a [LIKE] pattern as it is, the term ["%"] finds every book. *)
Theorem title_filter_finds_every_containing_title
        (parseFloat : string -> option Q) (db : Database) (r : BookRow.t) :
  In r (book_table db) ->
  (forall term found pre post : string,
      term <> "" ->
      BookRow.title r = pre ++ found ++ post ->
      same_ignoring_case term found = true ->
      exists books,
        BooksService.findAllWithFilters parseFloat (only_title term) db
        = (Return books, db)
        /\ In (booksRepository.load db r) books)
  /\ exists books,
       BooksService.findAllWithFilters parseFloat (only_title "%") db
       = (Return books, db)
       /\ In (booksRepository.load db r) books.
Proof.
  intros Hin.
  assert (Hlisted : forall term,
             term <> "" ->
             like ("%" ++ term ++ "%") (BookRow.title r) = true ->
             exists books,
               BooksService.findAllWithFilters parseFloat (only_title term) db
               = (Return books, db)
               /\ In (booksRepository.load db r) books).
  { intros term Hterm Hlike. apply String.eqb_neq in Hterm.
    unfold BooksService.findAllWithFilters, try_returning, try_catch, await,
      resolve, only_title.
    cbn [q_title q_authorPseudonym q_isPublished q_minPrice q_maxPrice truthy
         get_or andb]. rewrite Hterm. cbn [negb].
    rewrite getMany_as_selection by reflexivity.
    eexists. split; [reflexivity|].
    apply in_map, filter_In. split; [exact Hin|].
    unfold QueryBuilder.selects, QueryBuilder.andWhere,
      QueryBuilder.createQueryBuilder_leftJoinAndSelect_author,
      booksRepository.join_author.
    cbn [app forallb QueryBuilder.holds]. now rewrite Hlike. }
  split.
  - intros term found pre post Hterm Htitle Hsame.
    apply Hlisted; [exact Hterm|]. rewrite Htitle. now apply like_contains.
  - apply Hlisted; [discriminate|].
    change ("%" ++ "%" ++ "%") with (String "%" (String "%" "%")).
    apply like_percent_intro, like_percent_intro, like_percent_anything.
Qed.

Lemma title_filter_on_sample :
  let row := Sample.book 3 "Alderaan Nights" 25 true (Some 3) in
  In row (book_table Sample.db)
  /\ BookRow.title row = "Alde" ++ "raan" ++ " Nights"
  /\ same_ignoring_case "RAAN" "raan" = true
  /\ exists books,
       BooksService.findAllWithFilters Sample.parseFloat (only_title "RAAN")
         Sample.db
       = (Return books, Sample.db)
       /\ In (booksRepository.load Sample.db row) books.
Proof.
  intros row.
  assert (Hin : In row (book_table Sample.db)) by (right; right; now left).
  split; [exact Hin|]. split; [reflexivity|]. split; [reflexivity|].
  refine (proj1 (@title_filter_finds_every_containing_title Sample.parseFloat
                   Sample.db row Hin)
                "RAAN" "raan" "Alde" " Nights" _ eq_refl eq_refl).
  discriminate.
Defined.



(** X25.  What a listing can come to.  With both price parameters
    given and one of them not a number, the statement of
    [findAllWithFilters] fails; the method returns its promise without
    [await], so its own [catch] does not see the failure and the ORM's
    error reaches the handler, which answers [GET /books] with
    [InternalServerErrorException].  Every other filtered listing, and
    every simple listing, returns a selection of the book table: the
    rows that pass some test, in table order, each loaded with its
    author.  Nothing is written either way. *)
Theorem listings_fail_on_NaN_or_select_from_the_book_table
        (parseFloat : string -> option Q) (db : Database) :
  (forall query,
      truthy (q_minPrice query) && truthy (q_maxPrice query) = true ->
      parseFloat (get_or (q_minPrice query) "") = None
      \/ parseFloat (get_or (q_maxPrice query) "") = None ->
      (exists message,
          BooksService.findAllWithFilters parseFloat query db
          = (Throw (QueryFailedError message), db))
      /\ BooksController.findAll parseFloat query db
         = (Throw (InternalServerErrorException
                     "An error occurred while fetching books"), db))
  /\ (forall query,
         (truthy (q_minPrice query) && truthy (q_maxPrice query) = true ->
          exists lo hi,
            parseFloat (get_or (q_minPrice query) "") = Some lo
            /\ parseFloat (get_or (q_maxPrice query) "") = Some hi) ->
         exists keep : BookRow.t -> bool,
           BooksService.findAllWithFilters parseFloat query db
           = (Return (map (booksRepository.load db)
                        (filter keep (book_table db))), db))
  /\ (forall search,
         exists keep : BookRow.t -> bool,
           BooksService.findAll search db
           = (Return (map (booksRepository.load db)
                        (filter keep (book_table db))), db)).
Proof.
  split; [|split].
  - intros query Hboth Hnan.
    assert (Hservice : BooksService.findAllWithFilters parseFloat query db
                       = (Throw ORM_NOT_A_NUMBER, db)).
    { unfold BooksService.findAllWithFilters, try_returning, try_catch, await,
        resolve. cbv zeta. rewrite Hboth. cbv beta iota.
      match goal with
      | |- QueryBuilder.getMany (QueryBuilder.andWhere ?clause ?qb) db = _ =>
          apply (@getMany_throws (QueryBuilder.andWhere clause qb) clause db);
          [unfold QueryBuilder.andWhere; apply in_or_app; right; now left|]
      end.
      cbn [QueryBuilder.binds_NaN].
      destruct Hnan as [H|H]; rewrite H; [reflexivity|].
      now destruct (parseFloat (get_or (q_minPrice query) "")). }
    split; [eexists; exact Hservice|].
    unfold BooksController.findAll, try_catch, await. now rewrite Hservice.
  - intros query Hnumbers.
    unfold BooksService.findAllWithFilters, try_returning, try_catch, await,
      resolve. cbv zeta.
    destruct (truthy (q_minPrice query) && truthy (q_maxPrice query)).
    + destruct (Hnumbers eq_refl) as (lo & hi & Hlo & Hhi).
      rewrite Hlo, Hhi. cbv beta iota.
      rewrite getMany_as_selection by binds_numbers.
      eexists. reflexivity.
    + cbv beta iota. rewrite getMany_as_selection by binds_numbers.
      eexists. reflexivity.
  - intros search.
    unfold BooksService.findAll, try_returning, try_catch, resolve,
      booksRepository.find_title_or_description,
      booksRepository.find_isPublished_true.
    destruct (truthy search); cbn; eexists; reflexivity.
Qed.

Lemma listings_fail_on_NaN_on_sample :
  let query := mkQuery None None None (Some "cheap") (Some "30") in
  Sample.parseFloat "cheap" = None
  /\ (exists message,
         BooksService.findAllWithFilters Sample.parseFloat query Sample.db
         = (Throw (QueryFailedError message), Sample.db))
  /\ BooksController.findAll Sample.parseFloat query Sample.db
     = (Throw (InternalServerErrorException
                 "An error occurred while fetching books"), Sample.db).
Proof.
  intros query. split; [reflexivity|].
  refine (proj1 (@listings_fail_on_NaN_or_select_from_the_book_table
                   Sample.parseFloat Sample.db) query eq_refl _).
  left. reflexivity.
Defined.

(** ** Updating twice *)

Lemma or_else_twice {A} (d b : option A) :
  or_else d (or_else d b) = or_else d b.
Proof. now destruct d. Qed.

Lemma Object_assign_twice (book bookData : Book.t) :
  BooksService.Object_assign (BooksService.Object_assign book bookData) bookData
  = BooksService.Object_assign book bookData.
Proof.
  unfold BooksService.Object_assign. cbn. now rewrite !or_else_twice.
Qed.

Lemma load_merged (db db' : Database) (caller : User.t) (r : BookRow.t)
      (bookData : Book.t) :
  user_table db' = user_table db ->
  BooksService.not_owner (booksRepository.load db r) caller = false ->
  Book.id bookData = None ->
  Book.author bookData = None ->
  let merged := BooksService.Object_assign (booksRepository.load db r) bookData in
  booksRepository.load db' (booksRepository.patch r merged) = merged.
Proof.
  intros Husers Hown Hnoid Hauthor merged.
  destruct (not_owner_false _ _ _ Hown) as (a & u & Ha & Hu & _).
  pose proof (users_row_by_id_id _ _ Hu) as Huid.
  unfold merged, booksRepository.load, booksRepository.entity,
    booksRepository.join_author, booksRepository.patch,
    BooksService.Object_assign.
  rewrite Husers.
  destruct r as [ri rt rd rc rp rf ra]; cbn in *. subst ra.
  rewrite Hauthor, Hnoid, Hu. cbn. rewrite Huid, Hu. cbn.
  destruct (Book.title bookData), (Book.description bookData),
    (Book.coverImage bookData), (Book.price bookData),
    (Book.isPublished bookData); reflexivity.
Qed.

(** X26.  An owner's update with a payload that has neither [id] nor
    [author] touches the one row only, and repeating it changes
    nothing: the user table and every other book row are as before,
    and the same update applied again succeeds with the same record
    and leaves the database as the first application left it. *)
Theorem BooksService_update_is_local_and_idempotent
        (db : Database) (caller : User.t) (id : nat) (bookData : Book.t)
        (r : BookRow.t) :
  booksRepository.row_by_id id (book_table db) = Some r ->
  BooksService.not_owner (booksRepository.load db r) caller = false ->
  Book.id bookData = None ->
  Book.author bookData = None ->
  exists (merged : Book.t) (db1 : Database),
    BooksService.update caller id bookData db = (Return merged, db1)
    /\ user_table db1 = user_table db
    /\ (forall j, j <> id ->
                  booksRepository.row_by_id j (book_table db1)
                  = booksRepository.row_by_id j (book_table db))
    /\ BooksService.update caller id bookData db1 = (Return merged, db1).
Proof.
  intros Hr Hown Hnoid Hauthor.
  pose proof (books_row_by_id_id _ _ Hr) as Hrid.
  set (merged := BooksService.Object_assign (booksRepository.load db r) bookData).
  set (r1 := booksRepository.patch r merged).
  set (db1 := booksRepository.set_table
                (booksRepository.replace id r1 (book_table db))
                (book_sequence db) db).
  assert (Hr1id : BookRow.id r1 = id) by (destruct r; exact Hrid).
  assert (Hmid : Book.id merged = Some id)
    by (unfold merged; cbn; now rewrite Hnoid, Hrid).
  assert (Hr1 : booksRepository.row_by_id id (book_table db1) = Some r1)
    by (cbn; now apply row_by_id_replace_same with (r := r)).
  assert (Hload : booksRepository.load db1 r1 = merged)
    by (apply load_merged with (caller := caller); trivial).
  assert (Hown1 : BooksService.not_owner (booksRepository.load db1 r1) caller
                  = false).
  { rewrite Hload. unfold BooksService.not_owner, merged. cbn.
    rewrite Hauthor. exact Hown. }
  exists merged, db1. split; [|split; [|split]].
  - rewrite (@BooksService_update_owner db caller id bookData r Hr Hown).
    fold merged. unfold booksRepository.save.
    rewrite (@author_exists_loaded db r merged)
      by (cbn; now rewrite Hauthor).
    now rewrite Hmid, Hr.
  - reflexivity.
  - intros j Hj. cbn [book_table booksRepository.set_table db1].
    now apply row_by_id_replace_other.
  - rewrite (@BooksService_update_owner db1 caller id bookData r1 Hr1 Hown1).
    rewrite Hload. unfold merged at 1. rewrite Object_assign_twice. fold merged.
    unfold booksRepository.save.
    rewrite (@author_exists_loaded db1 r1 merged) by now rewrite Hload.
    rewrite Hmid, Hr1. cbn [negb]. f_equal.
    rewrite <- Hload at 1. rewrite patch_load.
    unfold db1. cbn [book_table book_sequence booksRepository.set_table].
    rewrite set_table_set_table. now rewrite replace_replace.
Qed.

Lemma BooksService_update_is_local_and_idempotent_on_sample :
  let row := Sample.book 2 "Wookie Adventures 2" 15 false (Some 1) in
  let luke := User.mk (Some 1) None None None in
  let payload :=
    Book.mk None None (Some "Second edition") None (Some (inject_Z 18))
            (Some true) None in
  booksRepository.row_by_id 2 (book_table Sample.db) = Some row
  /\ BooksService.not_owner (booksRepository.load Sample.db row) luke = false
  /\ exists (merged : Book.t) (db1 : Database),
       BooksService.update luke 2 payload Sample.db = (Return merged, db1)
       /\ user_table db1 = user_table Sample.db
       /\ (forall j, j <> 2 ->
                     booksRepository.row_by_id j (book_table db1)
                     = booksRepository.row_by_id j (book_table Sample.db))
       /\ BooksService.update luke 2 payload db1 = (Return merged, db1).
Proof.
  intros row luke payload. split; [reflexivity|]. split; [reflexivity|].
  exact (@BooksService_update_is_local_and_idempotent Sample.db luke 2 payload
           row eq_refl eq_refl eq_refl eq_refl).
Defined.

(** X28.  What an owner's update writes.  For a payload with neither
    [id] nor [author], the row the store holds for the book afterwards
    is the old row with title, description, cover image, price and
    publication flag replaced where the payload supplies them; the id
    and the author reference stay, and the book returned is that row
    loaded with its author. *)
Theorem BooksService_update_writes_the_supplied_fields
        (db : Database) (caller : User.t) (id : nat) (bookData : Book.t)
        (r : BookRow.t) :
  booksRepository.row_by_id id (book_table db) = Some r ->
  BooksService.not_owner (booksRepository.load db r) caller = false ->
  Book.id bookData = None ->
  Book.author bookData = None ->
  let written :=
    BookRow.mk id (get_or (Book.title bookData) (BookRow.title r))
               (get_or (Book.description bookData) (BookRow.description r))
               (get_or (Book.coverImage bookData) (BookRow.coverImage r))
               (get_or (Book.price bookData) (BookRow.price r))
               (get_or (Book.isPublished bookData) (BookRow.isPublished r))
               (BookRow.authorId r) in
  exists db' : Database,
    BooksService.update caller id bookData db
    = (Return (booksRepository.load db written), db')
    /\ booksRepository.row_by_id id (book_table db') = Some written
    /\ stored_author db' id = stored_author db id.
Proof.
  intros Hr Hown Hnoid Hauthor written.
  pose proof (books_row_by_id_id _ _ Hr) as Hrid.
  set (merged := BooksService.Object_assign (booksRepository.load db r)
                   bookData).
  assert (Hmid : Book.id merged = Some id)
    by (unfold merged; cbn; now rewrite Hnoid, Hrid).
  assert (Hwritten : booksRepository.patch r merged = written).
  { destruct (not_owner_false _ _ _ Hown) as (a & u & Ha & Hu & _).
    pose proof (users_row_by_id_id _ _ Hu) as Huid.
    unfold written, merged, booksRepository.patch, BooksService.Object_assign,
      booksRepository.load, booksRepository.entity,
      booksRepository.join_author.
    destruct r as [ri rt rd rc rp rf ra]; cbn in *. subst ra ri.
    rewrite Hauthor, Hu. cbn. rewrite Huid.
    destruct (Book.title bookData), (Book.description bookData),
      (Book.coverImage bookData), (Book.price bookData),
      (Book.isPublished bookData); reflexivity. }
  assert (Hload : booksRepository.load db written = merged)
    by (rewrite <- Hwritten;
        now apply load_merged with (caller := caller)).
  assert (Hstored : booksRepository.row_by_id id
                      (booksRepository.replace id written (book_table db))
                    = Some written)
    by now apply row_by_id_replace_same with (r := r).
  exists (booksRepository.set_table
            (booksRepository.replace id written (book_table db))
            (book_sequence db) db).
  split; [|split].
  - rewrite (@BooksService_update_owner db caller id bookData r Hr Hown).
    fold merged. unfold booksRepository.save.
    rewrite (@author_exists_loaded db r merged)
      by (cbn; now rewrite Hauthor).
    now rewrite Hmid, Hr, Hwritten, Hload.
  - exact Hstored.
  - unfold stored_author. cbn [book_table booksRepository.set_table].
    now rewrite Hstored, Hr.
Qed.

Lemma BooksService_update_writes_on_sample :
  let row := Sample.book 1 "Wookie Adventures 1" 5 true (Some 1) in
  let luke := User.mk (Some 1) None None None in
  let payload :=
    Book.mk None (Some "Wookie Adventures, revised") None None
            (Some (inject_Z 7)) (Some false) None in
  let written :=
    Sample.book 1 "Wookie Adventures, revised" 7 false (Some 1) in
  booksRepository.row_by_id 1 (book_table Sample.db) = Some row
  /\ exists db' : Database,
       BooksService.update luke 1 payload Sample.db
       = (Return (booksRepository.load Sample.db written), db')
       /\ booksRepository.row_by_id 1 (book_table db') = Some written
       /\ stored_author db' 1 = stored_author Sample.db 1.
Proof.
  intros row luke payload written. split; [reflexivity|].
  exact (@BooksService_update_writes_the_supplied_fields Sample.db luke 1
           payload row eq_refl eq_refl eq_refl eq_refl).
Defined.

(** X29.  The same assignment takes an [id] from the body.  When the
    owner of one book sends, to the update of that book, a payload
    whose [id] is that of another book, the save goes to the other
    book: its row takes the values of the caller's book with the
    payload's fields written over them, the caller's author reference
    included, whoever its author was; the row of the book the request
    names is left as it was. *)
Theorem BooksService_update_with_an_id_writes_that_book
        (db : Database) (caller : User.t) (id other : nat)
        (bookData : Book.t) (r r2 : BookRow.t) :
  booksRepository.row_by_id id (book_table db) = Some r ->
  BooksService.not_owner (booksRepository.load db r) caller = false ->
  Book.id bookData = Some other ->
  other <> id ->
  Book.author bookData = None ->
  booksRepository.row_by_id other (book_table db) = Some r2 ->
  let written :=
    BookRow.mk other (get_or (Book.title bookData) (BookRow.title r))
               (get_or (Book.description bookData) (BookRow.description r))
               (get_or (Book.coverImage bookData) (BookRow.coverImage r))
               (get_or (Book.price bookData) (BookRow.price r))
               (get_or (Book.isPublished bookData) (BookRow.isPublished r))
               (BookRow.authorId r) in
  exists (updated : Book.t) (db' : Database),
    BooksService.update caller id bookData db = (Return updated, db')
    /\ Book.id updated = Some other
    /\ booksRepository.row_by_id id (book_table db') = Some r
    /\ booksRepository.row_by_id other (book_table db') = Some written
    /\ stored_author db' other = stored_author db id.
Proof.
  intros Hr Hown Hother Hne Hauthor Hr2 written.
  pose proof (books_row_by_id_id _ _ Hr2) as Hr2id.
  set (merged := BooksService.Object_assign (booksRepository.load db r)
                   bookData).
  assert (Hmid : Book.id merged = Some other)
    by (unfold merged; cbn; now rewrite Hother).
  assert (Hwritten : booksRepository.patch r2 merged = written).
  { destruct (not_owner_false _ _ _ Hown) as (a & u & Ha & Hu & _).
    pose proof (users_row_by_id_id _ _ Hu) as Huid.
    unfold written, merged, booksRepository.patch, BooksService.Object_assign,
      booksRepository.load, booksRepository.entity,
      booksRepository.join_author.
    rewrite Hr2id. cbn. rewrite Hauthor, Ha, Hu. cbn. rewrite Huid.
    destruct (Book.title bookData), (Book.description bookData),
      (Book.coverImage bookData), (Book.price bookData),
      (Book.isPublished bookData); reflexivity. }
  assert (Hstored : booksRepository.row_by_id other
                      (booksRepository.replace other written (book_table db))
                    = Some written)
    by now apply row_by_id_replace_same with (r := r2).
  exists merged.
  exists (booksRepository.set_table
            (booksRepository.replace other written (book_table db))
            (book_sequence db) db).
  split; [|split; [exact Hmid|split; [|split]]].
  - rewrite (@BooksService_update_owner db caller id bookData r Hr Hown).
    fold merged. unfold booksRepository.save.
    rewrite (@author_exists_loaded db r merged)
      by (cbn; now rewrite Hauthor).
    now rewrite Hmid, Hr2, Hwritten.
  - cbn [book_table booksRepository.set_table].
    rewrite row_by_id_replace_other; [exact Hr| |reflexivity].
    intros E. apply Hne. now symmetry.
  - exact Hstored.
  - unfold stored_author. cbn [book_table booksRepository.set_table].
    now rewrite Hstored, Hr.
Qed.

Lemma BooksService_update_with_an_id_on_sample :
  let luke := User.mk (Some 1) None None None in
  let payload := Book.mk (Some 3) (Some "Hijacked") None None None None None in
  let row := Sample.book 1 "Wookie Adventures 1" 5 true (Some 1) in
  let other := Sample.book 3 "Alderaan Nights" 25 true (Some 3) in
  booksRepository.row_by_id 1 (book_table Sample.db) = Some row
  /\ booksRepository.row_by_id 3 (book_table Sample.db) = Some other
  /\ exists (updated : Book.t) (db' : Database),
       BooksService.update luke 1 payload Sample.db = (Return updated, db')
       /\ Book.id updated = Some 3
       /\ booksRepository.row_by_id 1 (book_table db') = Some row
       /\ booksRepository.row_by_id 3 (book_table db')
          = Some (Sample.book 3 "Hijacked" 5 true (Some 1))
       /\ stored_author db' 3 = stored_author Sample.db 1.
Proof.
  intros luke payload row other. split; [reflexivity|]. split; [reflexivity|].
  refine (@BooksService_update_with_an_id_writes_that_book Sample.db luke 1 3
            payload row other eq_refl eq_refl eq_refl _ eq_refl eq_refl).
  discriminate.
Defined.
